(** * Vibeloop Ops Copilot: the analytics engine of [backend/main.py]

    A shallow embedding of the pandas pipeline: the Normalizer
    ([normalize_dataframe]), the five Metric Windows
    ([compute_weekly_revenue], [compute_daily_financials],
    [compute_trending_items], [compute_reorder_list], [compute_anomalies]),
    the Synthesis Layer ([build_metrics], [build_actions]) and the
    rule-based Answer Engine ([rule_based_answer]).

    Modelling conventions.
    - A data frame is an ordered association list of named columns; labels
      may repeat, as they can after the Normalizer renames them.
    - Numbers are exact rationals ([Q]); NaN is a cell of its own.  Binary64
      rounding, overflow and infinite inputs are outside the model.  A
      quotient whose divisor is zero is kept as an infinity or NaN
      ([xnum]), as numpy does.
    - The square root of [Series.std] and the parsers behind
      [pd.to_datetime] and [pd.to_numeric] are parameters; the date parser
      can raise, as [pd.to_datetime] does with [errors="coerce"] on a
      column of strings with different UTC offsets.
    - The windows, metrics, actions and answers are specified on the frames
      the Normalizer returns ([normalized]).
    - A timestamp is an integer number of nanoseconds since 1970-01-01.
    - Python exceptions are values of [exn]; a function that can raise
      returns a [result].
    - Strings are sequences of code points below 256.
    - f-string formatting is not modelled: metrics, actions and answers are
      kept as structured values that carry the numbers to be formatted. *)

From Stdlib Require Import String Ascii List Bool Arith ZArith NArith QArith Qabs.
From Stdlib Require Import Lia Lqa Sorted Permutation.
From Stdlib Require PrimFloat.
Import ListNotations.

Local Open Scope string_scope.
Local Open Scope list_scope.

(** ** Exceptions and results *)

Inductive exn : Type :=
| KeyError (col : string)
| ValueError (msg : string)
| TypeError (msg : string)
| AttributeError (msg : string).

Inductive result (A : Type) : Type :=
| Ok (a : A)
| Raise (e : exn).

Arguments Ok {A} a.
Arguments Raise {A} e.

Definition bind {A B : Type} (r : result A) (k : A -> result B) : result B :=
  match r with
  | Ok a => k a
  | Raise e => Raise e
  end.

Notation "x <- r ;; k" := (bind r (fun x => k))
  (at level 61, r at next level, right associativity).

Definition returns {A : Type} (r : result A) : Prop := exists a, r = Ok a.

(** ** Strings: [str.strip], [str.lower], [in] *)

Module PyStr.

Definition code (c : ascii) : N := N_of_ascii c.

(** [str.isspace] on code points below 256. *)
Definition is_space (c : ascii) : bool :=
  let n := code c in
  (((9 <=? n) && (n <=? 13)) || ((28 <=? n) && (n <=? 32))
   || (n =? 133) || (n =? 160))%N.

(** [str.lower] on one code point below 256: A-Z and the Latin-1 capitals. *)
Definition lower_char (c : ascii) : ascii :=
  let n := code c in
  if (((65 <=? n) && (n <=? 90))
      || ((192 <=? n) && (n <=? 222) && negb (n =? 215)))%N
  then ascii_of_N (n + 32)
  else c.

Fixpoint lower (s : string) : string :=
  match s with
  | EmptyString => EmptyString
  | String c s' => String (lower_char c) (lower s')
  end.

Fixpoint lstrip (s : string) : string :=
  match s with
  | EmptyString => EmptyString
  | String c s' => if is_space c then lstrip s' else s
  end.

Fixpoint rstrip (s : string) : string :=
  match s with
  | EmptyString => EmptyString
  | String c s' =>
      match rstrip s' with
      | EmptyString => if is_space c then EmptyString else String c EmptyString
      | r => String c r
      end
  end.

Definition strip (s : string) : string := rstrip (lstrip s).

Fixpoint startswith (p s : string) : bool :=
  match p, s with
  | EmptyString, _ => true
  | String _ _, EmptyString => false
  | String a p', String b s' => Ascii.eqb a b && startswith p' s'
  end.

(** [p in s]. *)
Fixpoint contains (p s : string) : bool :=
  startswith p s
  || match s with
     | EmptyString => false
     | String _ s' => contains p s'
     end.

(** The string is empty or starts with a character that is not a space. *)
Definition starts_visible (s : string) : bool :=
  match s with
  | EmptyString => true
  | String c _ => negb (is_space c)
  end.

(** A pattern that [lower] leaves alone. *)
Fixpoint is_lower (p : string) : bool :=
  match p with
  | EmptyString => true
  | String c p' => Ascii.eqb (lower_char c) c && is_lower p'
  end.

End PyStr.

(** ** Cells and data frames *)

Inductive cell : Type :=
| CStr (s : string)
| CNum (q : Q)
| CNaN
| CDate (t : Z)
| CNaT.

Definition Series : Type := list cell.

(** Columns in display order; a label can occur more than once. *)
Definition DataFrame : Type := list (string * Series).

Definition columns (df : DataFrame) : list string := map fst df.

(** [col in df.columns] *)
Definition has_column (col : string) (df : DataFrame) : bool :=
  existsb (String.eqb col) (columns df).

Definition select (col : string) (df : DataFrame) : list Series :=
  map snd (filter (fun p => String.eqb col (fst p)) df).

(** [len(df)] for a frame with at least one column. *)
Definition nrows (df : DataFrame) : nat :=
  match df with
  | [] => 0
  | (_, s) :: _ => length s
  end.

Definition rectangular (df : DataFrame) : bool :=
  forallb (fun p => length (snd p) =? nrows df)%nat df.

(** ** The Normalizer *)

Definition clean_name (col : string) : string := PyStr.lower (PyStr.strip col).

(** [df.columns = [col.strip().lower() for col in df.columns]] *)
Definition rename_columns (df : DataFrame) : DataFrame :=
  map (fun p => (clean_name (fst p), snd p)) df.

Definition apply_column (col : string) (f : Series -> Series)
    (df : DataFrame) : DataFrame :=
  map (fun p => if String.eqb col (fst p) then (fst p, f (snd p)) else p) df.

(** [if col in df.columns: df[col] = f(df[col])]: with one column of that
    label the conversion is run on it and, when it returns, the column is
    replaced in place; what the conversion raises is passed on; with
    several columns of that label [df[col]] is a frame and the conversion
    raises [e]. *)
Definition coerce_column (col : string) (f : Series -> result Series)
    (e : exn) (df : DataFrame) : result DataFrame :=
  if has_column col df then
    match select col df with
    | [s] => s' <- f s ;; Ok (apply_column col (fun _ => s') df)
    | _ => Raise e
    end
  else Ok df.

(** A conversion run over the cells from first to last; the first one that
    raises ends it. *)
Fixpoint mapM {A B : Type} (f : A -> result B) (l : list A)
    : result (list B) :=
  match l with
  | [] => Ok []
  | a :: l' => b <- f a ;; bs <- mapM f l' ;; Ok (b :: bs)
  end.

Definition is_ok {A : Type} (r : result A) : bool :=
  match r with Ok _ => true | Raise _ => false end.

Definition coerced_columns : list string :=
  ["date"; "units_sold"; "revenue"; "inventory_on_hand"; "expenses"].

Section Normalizer.

(** What [pd.to_datetime(..., errors="coerce")] makes of a value that is
    not yet a timestamp; it sees the whole column, since the format is
    inferred from it.  [Ok None] is a parse failure, which
    [errors="coerce"] turns into NaT; [Raise e] is an error that
    [errors="coerce"] does not absorb (strings with different UTC offsets
    in one column, for one). *)
Variable parse_datetime : Series -> cell -> result (option Z).

(** What [pd.to_numeric(..., errors="coerce")] makes of a value that is
    not yet a number. *)
Variable parse_number : cell -> option Q.

Definition to_datetime_cell (s : Series) (c : cell) : result cell :=
  match c with
  | CDate t => Ok (CDate t)
  | CNaT | CNaN => Ok CNaT
  | _ => t <- parse_datetime s c ;;
         Ok (match t with Some t => CDate t | None => CNaT end)
  end.

Definition to_datetime (s : Series) : result Series :=
  mapM (to_datetime_cell s) s.

Definition to_numeric_cells (s : Series) : Series :=
  map (fun c =>
         match c with
         | CNum q => CNum q
         | CNaN => CNaN
         | _ => match parse_number c with
                | Some q => CNum q
                | None => CNaN
                end
         end) s.

(** With [errors="coerce"] no cell of a column makes [pd.to_numeric]
    raise. *)
Definition to_numeric (s : Series) : result Series :=
  Ok (to_numeric_cells s).

Definition duplicate_keys : exn :=
  ValueError "cannot assemble with duplicate keys".
Definition not_one_dimensional : exn :=
  TypeError "arg must be a list, tuple, 1-d array, or Series".

Definition normalize_dataframe (df : DataFrame) : result DataFrame :=
  let df := rename_columns df in
  df <- coerce_column "date" to_datetime duplicate_keys df ;;
  df <- coerce_column "units_sold" to_numeric not_one_dimensional df ;;
  df <- coerce_column "revenue" to_numeric not_one_dimensional df ;;
  df <- coerce_column "inventory_on_hand" to_numeric not_one_dimensional df ;;
  coerce_column "expenses" to_numeric not_one_dimensional df.

End Normalizer.

(** The shape the Normalizer leaves behind. *)
Definition is_date_cell (c : cell) : bool :=
  match c with CDate _ | CNaT => true | _ => false end.

Definition is_num_cell (c : cell) : bool :=
  match c with CNum _ | CNaN => true | _ => false end.

Definition numeric_columns : list string :=
  ["units_sold"; "revenue"; "inventory_on_hand"; "expenses"].

Definition column_ok (p : string * Series) : bool :=
  String.eqb (clean_name (fst p)) (fst p)
  && (if String.eqb "date" (fst p) then forallb is_date_cell (snd p)
      else if existsb (String.eqb (fst p)) numeric_columns
           then forallb is_num_cell (snd p)
           else true).

Definition at_most_once (col : string) (df : DataFrame) : bool :=
  (length (select col df) <=? 1)%nat.

Definition normalized (df : DataFrame) : bool :=
  forallb column_ok df
  && forallb (fun col => at_most_once col df) coerced_columns
  && rectangular df.

(** ** Numbers, NaN and infinities *)

(** The guard [1e-6] of the two quotients. *)
Definition eps : Q := (1 # 1000000)%Q.

(** The value of a float quotient: the quotient itself, or the infinity or
    NaN of a division by zero.  Numbers are exact rationals here, so [Fin q]
    stands for whatever binary64 makes of [q], which is an infinity too
    when [q] is beyond its range: overflow is not modelled, and nothing
    below concludes that a quotient is finite in binary64. *)
Inductive xnum : Type :=
| Fin (q : Q)
| PosInf
| NegInf
| NaN.

(** [a / b] as numpy computes it: a zero divisor gives an infinity with the
    sign of [a], or NaN for [0 / 0]. *)
Definition xdiv (a b : Q) : xnum :=
  if Qeq_bool b 0%Q then
    match (a ?= 0)%Q with
    | Gt => PosInf
    | Lt => NegInf
    | Eq => NaN
    end
  else Fin (a / b)%Q.

(** Not the outcome of a division by zero. *)
Definition is_finite (x : xnum) : bool :=
  match x with Fin _ => true | _ => false end.

(** Ascending order of [sort_values]: NaN goes last. *)
Definition xnum_leb (x y : xnum) : bool :=
  match x, y with
  | _, NaN => true
  | NaN, _ => false
  | NegInf, _ => true
  | _, NegInf => false
  | _, PosInf => true
  | PosInf, _ => false
  | Fin a, Fin b => Qle_bool a b
  end.

(** [x.abs() >= 2]; a comparison with NaN is false. *)
Definition abs_ge_2 (x : xnum) : bool :=
  match x with
  | Fin q => Qle_bool 2%Q (Qabs q)
  | PosInf | NegInf => true
  | NaN => false
  end.

Definition Qlt_bool (a b : Q) : bool := negb (Qle_bool b a).

Definition as_num (c : cell) : option Q :=
  match c with CNum q => Some q | _ => None end.

Definition as_date (c : cell) : option Z :=
  match c with CDate t => Some t | _ => None end.

Definition isna (c : cell) : bool :=
  match c with CNaN | CNaT => true | _ => false end.

(** [Series.sum()]: NaN is skipped, the empty sum is 0. *)
Fixpoint nansum (l : list (option Q)) : Q :=
  match l with
  | [] => 0%Q
  | Some q :: t => (q + nansum t)%Q
  | None :: t => nansum t
  end.

Fixpoint dropna {A : Type} (l : list (option A)) : list A :=
  match l with
  | [] => []
  | Some a :: t => a :: dropna t
  | None :: t => dropna t
  end.

Definition Qsum (l : list Q) : Q := fold_right Qplus 0%Q l.

Definition Qmean (l : list Q) : Q :=
  (Qsum l / inject_Z (Z.of_nat (length l)))%Q.

(** [Series.mean()]: NaN is skipped, the mean of nothing is NaN. *)
Definition nanmean (l : list (option Q)) : option Q :=
  match dropna l with
  | [] => None
  | v => Some (Qmean v)
  end.

(** [fillna(0)] on one value. *)
Definition fillna0 (o : option Q) : Q :=
  match o with Some q => q | None => 0%Q end.

(** ** Timestamps *)

Definition day : Z := 86400000000000%Z.

(** [timedelta(days=n)] *)
Definition timedelta (n : Z) : Z := (n * day)%Z.

(** [.dt.to_period("W").dt.start_time]: midnight of the Monday on or
    before the timestamp (1970-01-01 was a Thursday). *)
Definition week_start (t : Z) : Z :=
  let d := (t / day)%Z in
  ((d - (d + 3) mod 7) * day)%Z.

(** ** Sorting, head and tail *)

Section Sorting.

Context {A : Type} (leb : A -> A -> bool).

Fixpoint insert_sorted (x : A) (l : list A) : list A :=
  match l with
  | [] => [x]
  | y :: t => if leb x y then x :: l else y :: insert_sorted x t
  end.

(** The order among equal keys is that of a stable sort; numpy leaves it
    open, and nothing below depends on it. *)
Definition sort (l : list A) : list A := fold_right insert_sorted [] l.

End Sorting.

(** [sort_values(key)] and [sort_values(key, ascending=False)] *)
Definition sort_values {A K : Type} (leb : K -> K -> bool) (key : A -> K)
    (l : list A) : list A :=
  sort (fun a b => leb (key a) (key b)) l.

Definition sort_values_desc {A K : Type} (leb : K -> K -> bool) (key : A -> K)
    (l : list A) : list A :=
  sort (fun a b => leb (key b) (key a)) l.

Definition head {A : Type} (n : nat) (l : list A) : list A := firstn n l.

Definition tail {A : Type} (n : nat) (l : list A) : list A :=
  skipn (length l - n) l.

(** [l.iloc[-k]] *)
Definition iloc_neg {A : Type} (k : nat) (l : list A) : option A :=
  nth_error (rev l) (k - 1).

(** ** Group-by *)

Section GroupBy.

Context {K V : Type} (keqb kleb : K -> K -> bool).

(** First occurrences, in order of appearance. *)
Fixpoint unique (l : list K) : list K :=
  match l with
  | [] => []
  | k :: t => k :: filter (fun k' => negb (keqb k k')) (unique t)
  end.

Definition group_values (k : K) (rows : list (K * V)) : list V :=
  map snd (filter (fun r => keqb k (fst r)) rows).

(** [groupby(key)[col].agg()]: one entry per distinct key, keys sorted. *)
Definition groupby_agg {R : Type} (agg : list V -> R) (rows : list (K * V))
  : list (K * R) :=
  map (fun k => (k, agg (group_values k rows)))
      (sort kleb (unique (map fst rows))).

Definition lookup {R : Type} (k : K) (l : list (K * R)) : option R :=
  option_map snd (find (fun r => keqb k (fst r)) l).

End GroupBy.

(** Equality and order of group keys: numbers, then timestamps, then
    strings. *)
Definition cell_eqb (a b : cell) : bool :=
  match a, b with
  | CStr s, CStr s' => String.eqb s s'
  | CNum q, CNum q' => Qeq_bool q q'
  | CDate t, CDate t' => Z.eqb t t'
  | _, _ => false
  end.

Definition cell_leb (a b : cell) : bool :=
  match a, b with
  | CNum q, CNum q' => Qle_bool q q'
  | CNum _, _ => true
  | _, CNum _ => false
  | CDate t, CDate t' => Z.leb t t'
  | CDate _, _ => true
  | _, CDate _ => false
  | CStr s, CStr s' => String.leb s s'
  | CStr _, _ => true
  | _, CStr _ => false
  | _, _ => true
  end.

Fixpoint key_eqb (a b : list cell) : bool :=
  match a, b with
  | [], [] => true
  | x :: a', y :: b' => cell_eqb x y && key_eqb a' b'
  | _, _ => false
  end.

Fixpoint key_leb (a b : list cell) : bool :=
  match a, b with
  | [], _ => true
  | _ :: _, [] => false
  | x :: a', y :: b' =>
      if cell_eqb x y then key_leb a' b' else cell_leb x y
  end.

(** Rows whose first component is a timestamp: [dropna(subset=["date"])]. *)
Fixpoint dropna_date {A : Type} (rows : list (cell * A)) : list (Z * A) :=
  match rows with
  | [] => []
  | (c, a) :: t =>
      match as_date c with
      | Some d => (d, a) :: dropna_date t
      | None => dropna_date t
      end
  end.

(** Rows whose key is present: group-by drops the others. *)
Definition dropna_key {A : Type} (rows : list (cell * A)) : list (cell * A) :=
  filter (fun r => negb (isna (fst r))) rows.

Definition not_1_dimensional (col : string) : exn :=
  ValueError ("Grouper for '" ++ col ++ "' not 1-dimensional").

(** [df[col]] where one column is meant.  On a normalized frame the coerced
    columns are unique; a repeated label gives a frame, which none of the
    callers can use. *)
Definition get_column (col : string) (df : DataFrame) : result Series :=
  match select col df with
  | [] => Raise (KeyError col)
  | [s] => Ok s
  | _ => Raise (not_1_dimensional col)
  end.

(** ** Metric Windows

    A Derived Table is the list of its rows; [pd.DataFrame()] and a frame
    without rows are both [[]]. *)

(** *** Weekly revenue: rows are (week start, revenue) *)

(** [.assign(week=...)] writes the week start into every column labelled
    [week] and appends one when there is none, so a frame with that label
    twice still has it twice, and [.groupby("week")] raises before
    [["revenue"]] is looked up. *)
Definition compute_weekly_revenue (df : DataFrame) : result (list (Z * Q)) :=
  if negb (has_column "date" df) then Ok []
  else
    date <- get_column "date" df ;;
    if negb (at_most_once "week" df) then Raise (not_1_dimensional "week")
    else
    revenue <- get_column "revenue" df ;;
    let rows := dropna_date (combine date revenue) in
    let weekly :=
      sort_values Z.leb fst
        (groupby_agg Z.eqb Z.leb nansum
           (map (fun r => (week_start (fst r), as_num (snd r))) rows)) in
    Ok (tail 6 weekly).

(** *** Daily financials *)

Record daily_row : Type := mk_daily {
  d_date : Z;
  d_revenue : Q;
  d_expenses : option Q;
  d_net_income : option Q
}.

Definition daily_revenue (date revenue : Series) : list (Z * Q) :=
  sort_values Z.leb fst
    (groupby_agg Z.eqb Z.leb nansum
       (map (fun r => (fst r, as_num (snd r)))
            (dropna_date (combine date revenue)))).

Definition compute_daily_financials (df : DataFrame) : result (list daily_row) :=
  if negb (has_column "date" df) || negb (has_column "revenue" df) then Ok []
  else
    date <- get_column "date" df ;;
    revenue <- get_column "revenue" df ;;
    let daily := daily_revenue date revenue in
    with_expenses <-
      (if has_column "expenses" df then
         expenses <- get_column "expenses" df ;;
         let daily_expenses :=
           groupby_agg Z.eqb Z.leb nansum
             (map (fun r => (fst r, as_num (snd r)))
                  (dropna_date (combine date expenses))) in
         (* merge(on="date", how="left") *)
         Ok (map (fun r => (r, lookup Z.eqb (fst r) daily_expenses)) daily)
       else Ok (map (fun r => (r, Some 0%Q)) daily)) ;;
    Ok (tail 14
          (map (fun re =>
                  let '(d, rev, e) := re in
                  mk_daily d rev e (option_map (fun x => (rev - x)%Q) e))
               with_expenses)).

(** *** Trending items *)

Record trend_row : Type := mk_trend {
  t_item : cell;
  last_week : Q;
  prior_week : Q;
  change : Q
}.

(** [df["date"].max()] after the rows without date are gone; [None] is NaT. *)
Fixpoint max_date (l : list Z) : option Z :=
  match l with
  | [] => None
  | t :: l' =>
      match max_date l' with
      | None => Some t
      | Some m => Some (Z.max t m)
      end
  end.

(** The rows of a frame as (date, (item, units_sold)), dates present. *)
Definition trend_rows (date item units : Series) : list (Z * (cell * cell)) :=
  dropna_date (combine date (combine item units)).

Definition in_last_week (last_date t : Z) : bool :=
  let last_week_start := (last_date - timedelta 6)%Z in
  (last_week_start <=? t)%Z && (t <=? last_date)%Z.

Definition in_prior_week (last_date t : Z) : bool :=
  let last_week_start := (last_date - timedelta 6)%Z in
  let prior_week_start := (last_week_start - timedelta 7)%Z in
  (prior_week_start <=? t)%Z && (t <? last_week_start)%Z.

(** [window.groupby("item")["units_sold"].sum()] *)
Definition item_sales (window : list (Z * (cell * cell))) : list (cell * Q) :=
  groupby_agg cell_eqb cell_leb nansum
    (map (fun r => (fst r, as_num (snd r))) (dropna_key (map snd window))).

Definition compute_trending_items (df : DataFrame) : result (list trend_row) :=
  if negb (has_column "date" df) || negb (has_column "item" df) then Ok []
  else
    date <- get_column "date" df ;;
    match max_date (dropna (map as_date date)) with
    | None => Ok []
    | Some last_date =>
        item <- get_column "item" df ;;
        units <- get_column "units_sold" df ;;
        let rows := trend_rows date item units in
        let last_sales :=
          item_sales (filter (fun r => in_last_week last_date (fst r)) rows) in
        let prior_sales :=
          item_sales (filter (fun r => in_prior_week last_date (fst r)) rows) in
        (* pd.DataFrame({...}): the sorted union of the two indexes *)
        let index :=
          sort cell_leb
            (unique cell_eqb (map fst last_sales ++ map fst prior_sales)) in
        let trend :=
          map (fun k =>
                 let lw := fillna0 (lookup cell_eqb k last_sales) in
                 let pw := fillna0 (lookup cell_eqb k prior_sales) in
                 mk_trend k lw pw (lw - pw)%Q)
              index in
        Ok (head 8 (sort_values_desc Qle_bool change trend))
    end.

(** *** Reorder list *)

Record reorder_row : Type := mk_reorder {
  r_key : list (string * cell);
  avg_daily_units : Q;
  inventory_on_hand : Q;
  weeks_of_cover : xnum
}.

(** Row [i] of each of the columns, for [n] rows. *)
Fixpoint transpose (n : nat) (cols : list Series) : list (list cell) :=
  match n with
  | O => []
  | S n' => map (hd CNaN) cols :: transpose n' (map (@tl cell) cols)
  end.

Fixpoint get_columns (cols : list string) (df : DataFrame)
  : result (list Series) :=
  match cols with
  | [] => Ok []
  | c :: cols' =>
      s <- get_column c df ;;
      ss <- get_columns cols' df ;;
      Ok (s :: ss)
  end.

(** [obj.groupby(cols)]: pandas refuses an empty list of keys unless the
    object has no rows; rows with a missing key are dropped. *)
Definition groupby_rows {A : Type} (cols : list string)
    (obj : list (list cell * A)) : result (list (list cell * A)) :=
  match cols, obj with
  | [], _ :: _ => Raise (ValueError "No group keys passed!")
  | _, _ => Ok (filter (fun r => negb (existsb isna (fst r))) obj)
  end.

Definition reorder_item_cols (df : DataFrame) : list string :=
  let item_cols :=
    filter (fun col => has_column col df) ["item"; "sku"; "category"] in
  match item_cols with
  | [] => if has_column "item" df then ["item"] else []
  | _ => item_cols
  end.

Definition cover_divisor (avg : Q) : Q := (avg * 7 + eps)%Q.

Definition compute_reorder_list (df : DataFrame) : result (list reorder_row) :=
  if negb (has_column "inventory_on_hand" df) then Ok []
  else
    let item_cols := reorder_item_cols df in
    units <- get_column "units_sold" df ;;
    keys <- get_columns item_cols df ;;
    let keys := transpose (nrows df) keys in
    let recent :=
      filter (fun r => match as_num (snd r) with Some _ => true | None => false end)
             (combine keys units) in
    recent <- groupby_rows item_cols recent ;;
    let demand :=
      groupby_agg key_eqb key_leb nanmean
        (map (fun r => (fst r, as_num (snd r))) recent) in
    inv <- get_column "inventory_on_hand" df ;;
    all <- groupby_rows item_cols (combine keys inv) ;;
    let inventory :=
      groupby_agg key_eqb key_leb nanmean
        (map (fun r => (fst r, as_num (snd r))) all) in
    (* pd.concat(axis=1): the union of the indexes in order of appearance *)
    let index := unique key_eqb (map fst demand ++ map fst inventory) in
    let merged :=
      map (fun k =>
             let avg :=
               fillna0 (match lookup key_eqb k demand with
                        | Some v => v | None => None end) in
             let ioh :=
               fillna0 (match lookup key_eqb k inventory with
                        | Some v => v | None => None end) in
             mk_reorder (combine item_cols k) avg ioh
                        (xdiv ioh (cover_divisor avg)))
          index in
    Ok (head 10 (sort_values xnum_leb weeks_of_cover merged)).

(** *** Anomalies *)

Record anomaly_row : Type := mk_anomaly {
  a_date : Z;
  a_revenue : Q;
  z_score : xnum
}.

Section Anomalies.

(** The square root of [Series.std]; exact rationals have none. *)
Variable sqrt : Q -> Q.

(** [Series.std(ddof=0)] *)
Definition pstd (l : list Q) : Q :=
  let m := Qmean l in
  sqrt (Qmean (map (fun x => ((x - m) * (x - m))%Q) l)).

Definition compute_anomalies (df : DataFrame) : result (list anomaly_row) :=
  if negb (has_column "date" df) || negb (has_column "revenue" df) then Ok []
  else
    date <- get_column "date" df ;;
    revenue <- get_column "revenue" df ;;
    let daily := daily_revenue date revenue in
    if (length daily <? 7)%nat then Ok []
    else
      let revs := map snd daily in
      let scored :=
        map (fun r =>
               mk_anomaly (fst r) (snd r)
                 (xdiv (snd r - Qmean revs)%Q (pstd revs + eps)%Q))
            daily in
      let anomalies := filter (fun a => abs_ge_2 (z_score a)) scored in
      Ok (tail 5 anomalies).

End Anomalies.

(** ** Synthesis Layer *)

(** A metric value before formatting: ["${x:,.0f}"], ["{x:,.0f}"] and
    ["{name} (${x:,.0f})"]. *)
Inductive metric_value : Type :=
| Dollars (x : Q)
| Plain (x : Q)
| NameAndDollars (name : cell) (x : Q).

Record metric : Type := mk_metric {
  label : string;
  value : metric_value
}.

Definition series_sum (s : Series) : Q := nansum (map as_num s).

Definition build_metrics (df : DataFrame) : result (list metric) :=
  m_revenue <-
    (if has_column "revenue" df then
       revenue <- get_column "revenue" df ;;
       Ok [mk_metric "Total revenue" (Dollars (series_sum revenue))]
     else Ok []) ;;
  total_expenses <-
    (if has_column "expenses" df then
       expenses <- get_column "expenses" df ;;
       Ok (series_sum expenses)
     else Ok 0%Q) ;;
  let m_expenses := [mk_metric "Total expenses" (Dollars total_expenses)] in
  m_net <-
    (if has_column "revenue" df then
       revenue <- get_column "revenue" df ;;
       Ok [mk_metric "Net income"
             (Dollars (series_sum revenue - total_expenses)%Q)]
     else Ok []) ;;
  m_units <-
    (if has_column "units_sold" df then
       units <- get_column "units_sold" df ;;
       Ok [mk_metric "Units sold" (Plain (series_sum units))]
     else Ok []) ;;
  m_top <-
    (if has_column "item" df then
       item <- get_column "item" df ;;
       revenue <- get_column "revenue" df ;;
       let top_item :=
         sort_values_desc Qle_bool snd
           (groupby_agg cell_eqb cell_leb nansum
              (map (fun r => (fst r, as_num (snd r)))
                   (dropna_key (combine item revenue)))) in
       match top_item with
       | [] => Ok []
       | (name, x) :: _ => Ok [mk_metric "Top item" (NameAndDollars name x)]
       end
     else Ok []) ;;
  Ok (m_revenue ++ m_expenses ++ m_net ++ m_units ++ m_top).

Definition has_top_item (ms : list metric) : bool :=
  existsb (fun m => String.eqb (label m) "Top item") ms.

(** An action before formatting. *)
Inductive action : Type :=
| Reorder (item_name : cell) (on_hand avg : Q)
| RevenueDropped (drop : Q)
| WeekendPromo.

(** Python truth value of a cell. *)
Definition truthy (c : cell) : bool :=
  match c with
  | CStr s => negb (String.eqb s "")
  | CNum q => negb (Qeq_bool q 0%Q)
  | _ => true
  end.

(** [row.get(col)]; [None] when the row has no such column. *)
Definition row_get (col : string) (row : reorder_row) : option cell :=
  option_map snd (find (fun kv => String.eqb col (fst kv)) (r_key row)).

(** [row.get("item") or row.get("sku") or "Item"] *)
Definition item_name (row : reorder_row) : cell :=
  match row_get "item" row with
  | Some c => if truthy c then c
              else match row_get "sku" row with
                   | Some c' => if truthy c' then c' else CStr "Item"
                   | None => CStr "Item"
                   end
  | None => match row_get "sku" row with
            | Some c' => if truthy c' then c' else CStr "Item"
            | None => CStr "Item"
            end
  end.

(** [(prev - last) / prev * 100] *)
Definition drop_percent (last prev : Q) : Q := ((prev - last) / prev * 100)%Q.

Definition build_actions (df : DataFrame) : result (list action) :=
  reorder <- compute_reorder_list df ;;
  let actions :=
    map (fun row =>
           Reorder (item_name row) (inventory_on_hand row) (avg_daily_units row))
        (head 3 reorder) in
  more <-
    (if has_column "revenue" df && has_column "date" df then
       weekly <- compute_weekly_revenue df ;;
       if (2 <=? length weekly)%nat then
         match iloc_neg 1 weekly, iloc_neg 2 weekly with
         | Some last, Some prev =>
             if Qlt_bool 0%Q (snd prev) && Qlt_bool (snd last) (snd prev)
             then Ok [RevenueDropped (drop_percent (snd last) (snd prev))]
             else Ok []
         | _, _ => Ok []
         end
       else Ok []
     else Ok []) ;;
  let actions := actions ++ more in
  match actions with
  | [] => Ok [WeekendPromo]
  | _ => Ok actions
  end.

(** ** Answer Engine *)

(** An answer before formatting, one constructor per return statement. *)
Inductive answer : Type :=
| RevenueFell (drop last prev : Q)
| InventoryStable
| UrgentReorder (item_name : cell) (on_hand avg : Q)
| NoClearTrend
| TrendingUp (item : cell) (change : Q)
| NoAnomalies
| AnomalyDetected (date : Z) (revenue : Q) (z : xnum)
| QuickRead.

Section AnswerEngine.

Variable sqrt : Q -> Q.

(** The branches after the first. *)
Definition answer_by_keyword (q : string) (df : DataFrame) : result answer :=
  if PyStr.contains "reorder" q || PyStr.contains "stock" q then
    reorder <- compute_reorder_list df ;;
    match reorder with
    | [] => Ok InventoryStable
    | top :: _ =>
        Ok (UrgentReorder (item_name top) (inventory_on_hand top)
              (avg_daily_units top))
    end
  else if PyStr.contains "trend" q || PyStr.contains "trending" q then
    trending <- compute_trending_items df ;;
    match trending with
    | [] => Ok NoClearTrend
    | top :: _ => Ok (TrendingUp (t_item top) (change top))
    end
  else if PyStr.contains "anomal" q then
    anomalies <- compute_anomalies sqrt df ;;
    match iloc_neg 1 anomalies with
    | None => Ok NoAnomalies
    | Some last =>
        Ok (AnomalyDetected (a_date last) (a_revenue last) (z_score last))
    end
  else Ok QuickRead.

Definition rule_based_answer (question : string) (df : DataFrame)
  : result answer :=
  let q := PyStr.lower question in
  weekly <- compute_weekly_revenue df ;;
  if PyStr.contains "revenue" q && PyStr.contains "drop" q
     && (2 <=? length weekly)%nat
  then
    match iloc_neg 1 weekly, iloc_neg 2 weekly with
    | Some last, Some prev =>
        if Qlt_bool 0%Q (snd prev)
        then Ok (RevenueFell (drop_percent (snd last) (snd prev))
                   (snd last) (snd prev))
        else answer_by_keyword q df
    | _, _ => answer_by_keyword q df
    end
  else answer_by_keyword q df.

End AnswerEngine.

(** ** What the Normalizer does to one column *)

Section NormalizerSpec.

Variable parse_datetime : Series -> cell -> result (option Z).
Variable parse_number : cell -> option Q.

(** The cells [pd.to_datetime] returns, when it returns. *)
Definition to_datetime_cells (s : Series) : Series :=
  map (fun c => match to_datetime_cell parse_datetime s c with
                | Ok c' => c'
                | Raise _ => CNaT
                end) s.

(** [pd.to_datetime] returns on the column labelled [date] after
    cleaning, if there is exactly one. *)
Definition date_accepted (raw : DataFrame) : bool :=
  forallb (fun s => is_ok (to_datetime parse_datetime s))
          (select "date" (rename_columns raw)).

Definition coerce_by_name (col : string) (s : Series) : Series :=
  if String.eqb "date" col then to_datetime_cells s
  else if existsb (String.eqb col) numeric_columns
       then to_numeric_cells parse_number s
       else s.

Definition normalize_columns (df : DataFrame) : DataFrame :=
  map (fun p => (clean_name (fst p), coerce_by_name (clean_name (fst p)) (snd p)))
      df.

End NormalizerSpec.

(** No two columns of the raw frame clean to the same coerced label. *)
Definition coerced_labels_unique (raw : DataFrame) : bool :=
  forallb (fun col => at_most_once col (rename_columns raw)) coerced_columns.

(** ** The windows of Trending Items, in words

    The units of item [k] sold on the dates that satisfy [inw], summed over
    the rows that have a date; an item without such rows gets 0. *)
Definition units_in_window (inw : Z -> bool) (k : cell)
    (rows : list (Z * (cell * cell))) : Q :=
  nansum (map (fun r => as_num (snd (snd r)))
              (filter (fun r => inw (fst r) && cell_eqb k (fst (snd r))) rows)).

(** [[last_date - 6 days, last_date]], both ends included. *)
Definition last_week_window (last_date t : Z) : bool :=
  ((last_date - timedelta 6 <=? t) && (t <=? last_date))%Z.

(** [[last_date - 13 days, last_date - 6 days)], the seven days before the
    last week starts. *)
Definition prior_week_window (last_date t : Z) : bool :=
  ((last_date - timedelta 13 <=? t) && (t <? last_date - timedelta 6))%Z.

(** [[last_date - 13 days, last_date - 7 days)], the prior week as the
    specification states it. *)
Definition stated_prior_week_window (last_date t : Z) : bool :=
  ((last_date - timedelta 13 <=? t) && (t <? last_date - timedelta 7))%Z.

(** No sale is negative: every [units_sold] value is missing or at least 0. *)
Definition no_negative_units (units : Series) : bool :=
  forallb (fun c => match as_num c with
                    | Some q => Qle_bool 0%Q q
                    | None => true
                    end) units.

(** ** Sample inputs

    Stand-ins for the parsers of pandas, enough to run the model on the
    examples below: ISO dates [YYYY-MM-DD] and unsigned decimal integers. *)

Module Sample.

Definition digit (c : ascii) : option Z :=
  let n := Z.of_N (N_of_ascii c) in
  if ((48 <=? n) && (n <=? 57))%Z then Some (n - 48)%Z else None.

Fixpoint parse_digits (acc : Z) (s : string) : option Z :=
  match s with
  | EmptyString => Some acc
  | String c s' =>
      match digit c with
      | Some d => parse_digits (acc * 10 + d)%Z s'
      | None => None
      end
  end.

Definition parse_nat (s : string) : option Z :=
  match s with
  | EmptyString => None
  | _ => parse_digits 0%Z s
  end.

(** Days since 1970-01-01 of a Gregorian date. *)
Definition days_from_civil (y m d : Z) : Z :=
  let y' := (if m <=? 2 then y - 1 else y)%Z in
  let era := (y' / 400)%Z in
  let yoe := (y' - era * 400)%Z in
  let mp := ((m + 9) mod 12)%Z in
  let doy := ((153 * mp + 2) / 5 + d - 1)%Z in
  let doe := (yoe * 365 + yoe / 4 - yoe / 100 + doy)%Z in
  (era * 146097 + doe - 719468)%Z.

Definition parse_date (c : cell) : option Z :=
  match c with
  | CStr s =>
      if (String.length s =? 10)%nat
         && String.eqb (substring 4 1 s) "-"
         && String.eqb (substring 7 1 s) "-"
      then
        match parse_nat (substring 0 4 s), parse_nat (substring 5 2 s),
              parse_nat (substring 8 2 s) with
        | Some y, Some m, Some d =>
            if ((1 <=? m) && (m <=? 12) && (1 <=? d) && (d <=? 31))%Z
            then Some (days_from_civil y m d * day)%Z
            else None
        | _, _, _ => None
        end
      else None
  | _ => None
  end.

(** A string that ends in a UTC offset of the form [+hh:mm]. *)
Definition utc_offset (c : cell) : option string :=
  match c with
  | CStr s =>
      let n := String.length s in
      if (6 <=? n)%nat && String.eqb (substring (n - 6) 1 s) "+"
      then Some (substring (n - 6) 6 s)
      else None
  | _ => None
  end.

Definition mixed_offsets : exn :=
  ValueError "Mixed timezones detected. Pass utc=True in to_datetime".

(** ISO dates; a column whose strings carry two different UTC offsets is
    refused. *)
Definition parse_datetime (s : Series) (c : cell) : result (option Z) :=
  match utc_offset c with
  | Some o =>
      if existsb (fun c' => match utc_offset c' with
                            | Some o' => negb (String.eqb o o')
                            | None => false
                            end) s
      then Raise mixed_offsets
      else Ok None
  | None => Ok (parse_date c)
  end.

Definition parse_number (c : cell) : option Q :=
  match c with
  | CStr s => option_map inject_Z (parse_nat s)
  | _ => None
  end.

Definition normalize : DataFrame -> result DataFrame :=
  normalize_dataframe parse_datetime parse_number.

(** Midnight of a day of January 2024. *)
Definition jan (d : Z) : cell := CDate ((19722 + d) * day)%Z.

(** A raw export with untidy headers and malformed cells. *)
Definition raw_export : DataFrame :=
  [ (" Date ", [CStr "2024-01-01"; CStr "not a date"; CStr "2024-01-03"]);
    ("Item", [CStr "Widget"; CStr "Gadget"; CNaN]);
    ("Units_Sold", [CStr "12"; CStr "n/a"; CNum (3 # 1)]);
    ("REVENUE	", [CNum (100 # 1); CStr "oops"; CStr "250"]);
    ("Notes", [CStr "x"; CNaN; CStr "2024-01-03"]) ].

(** Headers that clean to the same label. *)
Definition raw_two_dates : DataFrame :=
  [ ("Date", [CStr "2024-01-01"]);
    ("date", [CStr "2024-01-02"]) ].

(** Unique headers, and two UTC offsets in the date column. *)
Definition raw_mixed_offsets : DataFrame :=
  [ ("date", [CStr "2024-01-01T10:00:00+01:00";
              CStr "2024-01-02T10:00:00+02:00"]);
    ("revenue", [CStr "100"; CStr "250"]) ].

(** A square root to six decimals, for [Series.std]. *)
Definition sqrt (q : Q) : Q :=
  (inject_Z (Z.sqrt (Qnum q * 1000000000000 / Zpos (Qden q)))
   / inject_Z 1000000)%Q.

Definition num (n : Z) : cell := CNum (inject_Z n).

(** A normalized frame with every expected column: nine distinct days,
    one of them with a revenue spike, and one row without a date. *)
Definition sales : DataFrame :=
  [ ("date",
     [jan 1; jan 2; jan 3; jan 4; jan 5; jan 8; jan 9; jan 10; jan 15;
      jan 15; CNaT]);
    ("item",
     [CStr "Widget"; CStr "Gadget"; CStr "Widget"; CStr "Gadget";
      CStr "Widget"; CStr "Widget"; CStr "Gadget"; CStr "Doohickey";
      CStr "Widget"; CStr "Gadget"; CStr "Gizmo"]);
    ("sku",
     [CStr "W1"; CStr "G1"; CStr "W1"; CStr "G1"; CStr "W1"; CStr "W1";
      CStr "G1"; CStr "D1"; CStr "W1"; CStr "G1"; CStr "Z1"]);
    ("units_sold",
     [num 5; num 3; num 4; CNaN; num 6; num 20; num 2; num 1; num 50;
      num 1; num 1]);
    ("revenue",
     [num 100; num 100; num 100; num 100; num 100; num 100; num 100;
      num 100; num 10000; num 100; num 999]);
    ("inventory_on_hand",
     [num 40; num 10; num 38; num 9; num 35; num 30; num 8; num 50;
      num 5; num 7; num 3]);
    ("expenses",
     [num 30; num 20; CNaN; num 10; num 10; num 10; num 10; num 10;
      num 10; num 5; num 1]) ].

(** Normalized frames that lack a column a window reads. *)
Definition dates_only : DataFrame :=
  [ ("date", [jan 1; jan 2]) ].

Definition dates_and_items : DataFrame :=
  [ ("date", [jan 1; jan 2]);
    ("item", [CStr "Widget"; CStr "Gadget"]) ].

Definition stock_without_sales : DataFrame :=
  [ ("item", [CStr "Widget"; CStr "Gadget"]);
    ("inventory_on_hand", [num 5; num 80]) ].

Definition stock_without_items : DataFrame :=
  [ ("units_sold", [num 10]);
    ("inventory_on_hand", [num 5]) ].

Definition items_only : DataFrame :=
  [ ("item", [CStr "Widget"; CStr "Gadget"]) ].

(** What the Normalizer makes of an export with the headers [Week] and
    [week]: the label is not a coerced one, so both columns stay. *)
Definition week_twice : DataFrame :=
  [ ("date", [jan 1; jan 8]);
    ("revenue", [CNum (100 # 1); CNum (50 # 1)]);
    ("week", [CStr "w1"; CStr "w2"]);
    ("week", [CNum (1 # 1); CNum (2 # 1)]) ].

Definition week_twice_no_revenue : DataFrame :=
  [ ("date", [jan 1; jan 8]);
    ("week", [CStr "w1"; CStr "w2"]);
    ("week", [CNum (1 # 1); CNum (2 # 1)]) ].

(** A header-only export with every expected column. *)
Definition no_rows : DataFrame :=
  [ ("date", []); ("item", []); ("units_sold", []); ("revenue", []);
    ("inventory_on_hand", []) ].

(** Widget sold 20 units on the 8th and 50 on the 15th of January. *)
Definition widget_weeks : DataFrame :=
  [ ("date", [jan 8; jan 15]);
    ("item", [CStr "Widget"; CStr "Widget"]);
    ("units_sold", [num 20; num 50]) ].

(** A return booked as a small negative quantity. *)
Definition tiny_return : DataFrame :=
  [ ("item", [CStr "Widget"]);
    ("units_sold", [CNum (-1 # 7000000)]);
    ("inventory_on_hand", [num 12]) ].

(** Two weeks of revenue, 1000 and then 500. *)
Definition halved_revenue : DataFrame :=
  [ ("date", [jan 1; jan 8]);
    ("revenue", [num 1000; num 500]) ].

(** Ten days of revenue 100. *)
Definition flat_revenue : DataFrame :=
  [ ("date", [jan 1; jan 2; jan 3; jan 4; jan 5; jan 6; jan 7; jan 8; jan 9;
              jan 10]);
    ("revenue", [num 100; num 100; num 100; num 100; num 100; num 100;
                 num 100; num 100; num 100; num 100]) ].

(** One item with 5 on hand selling 10 a day. *)
Definition one_item : DataFrame :=
  [ ("item", [CStr "Widget"]);
    ("units_sold", [num 10]);
    ("inventory_on_hand", [num 5]) ].

End Sample.

(** ** Evidence and charts *)

(** [.dt.date]: the calendar day of a timestamp, as days since 1970-01-01.
    The panels show it as text. *)
Definition date_of (t : Z) : Z := (t / day)%Z.

(** The rows of a panel, [to_dict(orient="records")] of one of the
    windows, dates replaced by their calendar day. *)
Inductive panel_rows : Type :=
| WeeklyRows (rows : list (Z * Q))
| TrendRows (rows : list trend_row)
| AnomalyRows (rows : list anomaly_row)
| DailyRows (rows : list daily_row).

Record panel : Type := mk_panel {
  title : string;
  panel_columns : list string;
  rows_of : panel_rows
}.

Definition count_rows (p : panel) : nat :=
  match rows_of p with
  | WeeklyRows r => length r
  | TrendRows r => length r
  | AnomalyRows r => length r
  | DailyRows r => length r
  end.

Section Evidence.

Variable sqrt : Q -> Q.

Definition build_evidence (df : DataFrame) : result (list panel) :=
  weekly <- compute_weekly_revenue df ;;
  let e_weekly :=
    match weekly with
    | [] => []
    | _ => [mk_panel "Weekly revenue trend" ["week"; "revenue"]
              (WeeklyRows (map (fun r => (date_of (fst r), snd r)) weekly))]
    end in
  trending <- compute_trending_items df ;;
  let e_trending :=
    match trending with
    | [] => []
    | _ => [mk_panel "Trending items (last 7 days)"
              ["item"; "last_week"; "prior_week"; "change"]
              (TrendRows trending)]
    end in
  anomalies <- compute_anomalies sqrt df ;;
  let e_anomalies :=
    match anomalies with
    | [] => []
    | _ => [mk_panel "Revenue anomalies" ["date"; "revenue"; "z_score"]
              (AnomalyRows
                 (map (fun a => mk_anomaly (date_of (a_date a)) (a_revenue a)
                                  (z_score a)) anomalies))]
    end in
  Ok (e_weekly ++ e_trending ++ e_anomalies).

End Evidence.

Definition build_charts (df : DataFrame) : result (list panel) :=
  daily <- compute_daily_financials df ;;
  match daily with
  | [] => Ok []
  | _ => Ok [mk_panel "Daily financials"
               ["date"; "revenue"; "expenses"; "net_income"]
               (DailyRows
                  (map (fun d => mk_daily (date_of (d_date d)) (d_revenue d)
                                   (d_expenses d) (d_net_income d)) daily))]
  end.

(** The summed revenue of one item over the whole frame, as
    [groupby("item")["revenue"].sum()] has it. *)
Definition item_revenue (k : cell) (item revenue : Series) : Q :=
  nansum (map (fun r => as_num (snd r))
              (filter (fun r => cell_eqb k (fst r)) (combine item revenue))).

(** The dates of a column that are present. *)
Definition valid_dates (date : Series) : list Z := dropna (map as_date date).

(** The rows Weekly Revenue groups: week start and revenue of every row
    that has a date; and the rows Daily Financials groups. *)
Definition week_rows (date revenue : Series) : list (Z * option Q) :=
  map (fun r => (week_start (fst r), as_num (snd r)))
      (dropna_date (combine date revenue)).

Definition day_rows (date revenue : Series) : list (Z * option Q) :=
  map (fun r => (fst r, as_num (snd r))) (dropna_date (combine date revenue)).

(** ** The answer, with or without the remote model *)

(** What the prompt is built from: the question, the metrics, the actions
    and [df.head(50)]. *)
Record prompt : Type := mk_prompt {
  p_question : string;
  p_metrics : list metric;
  p_actions : list action;
  p_recent_rows : DataFrame
}.

(** [df.head(n)] *)
Definition df_head (n : nat) (df : DataFrame) : DataFrame :=
  map (fun p => (fst p, firstn n (snd p))) df.

(** The answer of [/ask]: a template of [rule_based_answer] or the text of
    the remote model. *)
Inductive reply : Type :=
| Templated (a : answer)
| Generated (text : string).

(** [str.endswith] *)
Definition endswith (suffix s : string) : bool :=
  let n := String.length s in
  let m := String.length suffix in
  (m <=? n)%nat && String.eqb (substring (n - m) m s) suffix.

Definition EXPECTED_COLUMNS : list string :=
  ["date"; "item"; "sku"; "units_sold"; "revenue"; "inventory_on_hand";
   "category"; "expenses"].

(** ** The request handlers

    The module globals and the upload directory are the state; the values
    of [uuid4()] and [datetime.utcnow()] come with the request. *)

Record upload_record : Type := mk_record {
  file_id : string;
  filename : string;
  stored_name : string;
  uploaded_at : string
}.

(** The content of [index.json]: what [json.dumps] wrote, or text that
    [json.loads] rejects. *)
Inductive index_text : Type :=
| Json (records : list upload_record)
| Garbage.

Record server : Type := mk_server {
  DATASETS : list (string * DataFrame);
  UPLOAD_INDEX : list upload_record;
  UPLOAD_DIR : list (string * string);
  INDEX_FILE : option index_text
}.

(** A dict as the list of its assignments, the latest first. *)
Definition dict_get {V : Type} (k : string) (d : list (string * V))
  : option V :=
  option_map snd (find (fun kv => String.eqb k (fst kv)) d).

Definition dict_set {V : Type} (k : string) (v : V) (d : list (string * V))
  : list (string * V) :=
  (k, v) :: d.

Definition load_upload_index (index_file : option index_text)
  : list upload_record :=
  match index_file with
  | None => []
  | Some (Json records) => records
  | Some Garbage => []
  end.

Definition save_upload_index (records : list upload_record)
  : option index_text :=
  Some (Json records).

(** The state in which the module is loaded, given the disk. *)
Definition startup (upload_dir : list (string * string))
    (index_file : option index_text) : server :=
  mk_server [] (load_upload_index index_file) upload_dir index_file.

Inductive response (A : Type) : Type :=
| Sent (a : A)
| HTTPException (status_code : nat) (detail : string)
| Uncaught (e : exn).

Arguments Sent {A} a.
Arguments HTTPException {A} status_code detail.
Arguments Uncaught {A} e.

Record upload_reply : Type := mk_upload_reply {
  u_dataset_id : string;
  u_rows : nat;
  u_file_id : string;
  u_filename : string;
  u_uploaded_at : string
}.

Record ask_reply : Type := mk_ask_reply {
  a_answer : reply;
  a_metrics : list metric;
  a_evidence : list panel;
  a_charts : list panel;
  a_actions : list action;
  a_has_expenses : bool;
  a_schema : list string
}.

Section Handlers.

Variable sqrt : Q -> Q.
Variable parse_datetime : Series -> cell -> result (option Z).
Variable parse_number : cell -> option Q.

(** [pd.read_csv] on the bytes of a stored file. *)
Variable read_csv : string -> result DataFrame.

(** [os.getenv("OPENAI_API_KEY")], whether [openai] could be imported, and
    the remote call. *)
Variable api_key : option string.
Variable openai_imported : bool.
Variable responses_create : string -> prompt -> result string.

Definition llm_answer (question : string) (df : DataFrame)
    (metrics : list metric) (actions : list action) : result reply :=
  match api_key with
  | Some key =>
      if String.eqb key "" || negb openai_imported then
        a <- rule_based_answer sqrt question df ;; Ok (Templated a)
      else
        text <- responses_create key
                  (mk_prompt question metrics actions (df_head 50 df)) ;;
        Ok (Generated text)
  | None => a <- rule_based_answer sqrt question df ;; Ok (Templated a)
  end.

(** [pd.read_csv(stored_path)] followed by [normalize_dataframe]. *)
Definition load_dataset (contents : string) : result DataFrame :=
  df <- read_csv contents ;;
  normalize_dataframe parse_datetime parse_number df.

Definition upload_csv (name contents now new_file_id new_dataset_id : string)
    (s : server) : response upload_reply * server :=
  if negb (endswith ".csv" name) then
    (HTTPException 400 "Only CSV files are supported.", s)
  else
    let stored := (new_file_id ++ ".csv")%string in
    let s := mk_server (DATASETS s) (UPLOAD_INDEX s)
               (dict_set stored contents (UPLOAD_DIR s)) (INDEX_FILE s) in
    match load_dataset contents with
    | Raise e => (Uncaught e, s)
    | Ok df =>
        if negb (existsb (fun col => has_column col df) EXPECTED_COLUMNS) then
          (HTTPException 400
             "CSV missing expected columns. Include date, item, revenue, units_sold, inventory_on_hand.",
           s)
        else
          let record := mk_record new_file_id name stored now in
          let index := record :: UPLOAD_INDEX s in
          (Sent (mk_upload_reply new_dataset_id (nrows df) new_file_id name now),
           mk_server (dict_set new_dataset_id df (DATASETS s)) index
             (UPLOAD_DIR s) (save_upload_index (firstn 50 index)))
    end.

Definition ask_copilot (dataset_id question : string) (s : server)
  : response ask_reply :=
  match dict_get dataset_id (DATASETS s) with
  | None => HTTPException 404 "Dataset not found."
  | Some df =>
      match
        (metrics <- build_metrics df ;;
         evidence <- build_evidence sqrt df ;;
         charts <- build_charts df ;;
         actions <- build_actions df ;;
         answer <- llm_answer question df metrics actions ;;
         Ok (mk_ask_reply answer metrics evidence charts actions
               (has_column "expenses" df) (columns df)))
      with
      | Ok r => Sent r
      | Raise e => Uncaught e
      end
  end.

Definition list_uploads (s : server) : list upload_record :=
  firstn 50 (UPLOAD_INDEX s).

Definition reprocess_upload (wanted new_dataset_id : string) (s : server)
  : response upload_reply * server :=
  match find (fun item => String.eqb (file_id item) wanted) (UPLOAD_INDEX s)
  with
  | None => (HTTPException 404 "Upload not found.", s)
  | Some record =>
      match dict_get (stored_name record) (UPLOAD_DIR s) with
      | None => (HTTPException 404 "Stored file missing.", s)
      | Some contents =>
          match load_dataset contents with
          | Raise e => (Uncaught e, s)
          | Ok df =>
              (Sent (mk_upload_reply new_dataset_id (nrows df)
                       (file_id record) (filename record)
                       (uploaded_at record)),
               mk_server (dict_set new_dataset_id df (DATASETS s))
                 (UPLOAD_INDEX s) (UPLOAD_DIR s) (INDEX_FILE s))
          end
      end
  end.

(** One request, and the state it leaves. *)
Inductive request : Type :=
| Upload (name contents now new_file_id new_dataset_id : string)
| Ask (dataset_id question : string)
| ListUploads
| Reprocess (wanted new_dataset_id : string).

Definition handle (r : request) (s : server) : server :=
  match r with
  | Upload name contents now fid did =>
      snd (upload_csv name contents now fid did s)
  | Ask _ _ => s
  | ListUploads => s
  | Reprocess wanted did => snd (reprocess_upload wanted did s)
  end.

Definition run (requests : list request) (s : server) : server :=
  fold_left (fun s r => handle r s) requests s.

End Handlers.

(** The request stores a table under the handle [k]. *)
Definition stores_under (k : string) (r : request) : Prop :=
  match r with
  | Upload _ _ _ _ did => did = k
  | Reprocess _ did => did = k
  | _ => False
  end.

(** [index.json] holds the first 50 records of the index. *)
Definition index_saved (s : server) : Prop :=
  load_upload_index (INDEX_FILE s) = firstn 50 (UPLOAD_INDEX s).

(** Every indexed upload has its file in the upload directory. *)
Definition files_present (s : server) : Prop :=
  forall r, In r (UPLOAD_INDEX s) ->
    dict_get (stored_name r) (UPLOAD_DIR s) <> None.

(** ** Sample requests *)

Module SampleServer.

(** A stand-in for [pd.read_csv]: the bytes name one of three known
    tables, anything else is not a CSV. *)
Definition read_csv (contents : string) : result DataFrame :=
  if String.eqb contents "sales" then Ok Sample.sales
  else if String.eqb contents "dates" then Ok Sample.dates_only
  else if String.eqb contents "notes" then Ok [("Notes", [CStr "x"])]
  else Raise (ValueError "EmptyDataError").

(** The remote model, never reached without a key. *)
Definition no_remote (_ : string) (_ : prompt) : result string :=
  Raise (ValueError "unreachable").

(** The module just loaded on an empty disk. *)
Definition fresh : server := startup [] None.

Definition upload : string -> string -> string -> string -> string ->
                    server -> response upload_reply * server :=
  upload_csv Sample.parse_datetime Sample.parse_number read_csv.

Definition reprocess : string -> string -> server ->
                       response upload_reply * server :=
  reprocess_upload Sample.parse_datetime Sample.parse_number read_csv.

Definition ask : string -> string -> server -> response ask_reply :=
  ask_copilot Sample.sqrt None false no_remote.

Definition session : list request :=
  [ Upload "sales.csv" "sales" "2024-02-01T10:00:00" "f1" "d1";
    Upload "report.pdf" "sales" "2024-02-01T10:01:00" "f2" "d2";
    Upload "notes.csv" "notes" "2024-02-01T10:02:00" "f3" "d3";
    Ask "d1" "Any reorder concerns?";
    Reprocess "f1" "d4";
    Upload "dates.csv" "dates" "2024-02-01T10:03:00" "f5" "d5";
    ListUploads ].

End SampleServer.

(* ================================================================= *)
(** * Properties *)

(** ** Strings *)

Module PyStrFacts.
Import PyStr.

Lemma is_space_lower_char c : is_space (lower_char c) = is_space c.
Proof.
  destruct c as [[] [] [] [] [] [] [] []]; reflexivity.
Qed.

Lemma lower_char_idem c : lower_char (lower_char c) = lower_char c.
Proof.
  destruct c as [[] [] [] [] [] [] [] []]; reflexivity.
Qed.

Lemma lower_idem s : lower (lower s) = lower s.
Proof.
  induction s as [|c s IH]; simpl; [reflexivity|].
  now rewrite lower_char_idem, IH.
Qed.

Lemma lstrip_lower s : lstrip (lower s) = lower (lstrip s).
Proof.
  induction s as [|c s IH]; simpl; [reflexivity|].
  rewrite is_space_lower_char.
  destruct (is_space c); [exact IH | reflexivity].
Qed.

Lemma rstrip_lower s : rstrip (lower s) = lower (rstrip s).
Proof.
  induction s as [|c s IH]; simpl; [reflexivity|].
  rewrite IH, is_space_lower_char.
  destruct (rstrip s); simpl; [destruct (is_space c)|]; reflexivity.
Qed.

Lemma strip_lower s : strip (lower s) = lower (strip s).
Proof.
  unfold strip. now rewrite lstrip_lower, rstrip_lower.
Qed.

Lemma rstrip_idem s : rstrip (rstrip s) = rstrip s.
Proof.
  induction s as [|c s IH]; simpl; [reflexivity|].
  destruct (rstrip s) as [|a r] eqn:E.
  - destruct (is_space c) eqn:Ec; simpl; [reflexivity|].
    now rewrite Ec.
  - change (rstrip (String c (String a r)))
      with (match rstrip (String a r) with
            | EmptyString =>
                if is_space c then EmptyString else String c EmptyString
            | r' => String c r'
            end).
    now rewrite IH.
Qed.

Lemma lstrip_starts_visible s : starts_visible (lstrip s) = true.
Proof.
  induction s as [|c s IH]; simpl; [reflexivity|].
  destruct (is_space c) eqn:Ec; [exact IH|].
  simpl. now rewrite Ec.
Qed.

Lemma lstrip_fixed s : starts_visible s = true -> lstrip s = s.
Proof.
  destruct s as [|c s]; simpl; [reflexivity|].
  now destruct (is_space c).
Qed.

Lemma rstrip_starts_visible s :
  starts_visible s = true -> starts_visible (rstrip s) = true.
Proof.
  destruct s as [|c s]; simpl; [reflexivity|].
  intros Hc.
  destruct (rstrip s); [|exact Hc].
  destruct (is_space c) eqn:Ec; [reflexivity|].
  simpl. now rewrite Ec.
Qed.

Lemma strip_idem s : strip (strip s) = strip s.
Proof.
  unfold strip.
  rewrite (lstrip_fixed (rstrip (lstrip s))).
  - apply rstrip_idem.
  - apply rstrip_starts_visible, lstrip_starts_visible.
Qed.

Lemma startswith_lower p s :
  is_lower p = true -> startswith p s = true ->
  startswith p (lower s) = true.
Proof.
  revert s.
  induction p as [|a p IH]; intros s Hp Hs; [reflexivity|].
  destruct s as [|b s]; [discriminate|].
  simpl in *.
  apply andb_true_iff in Hp as [Ha Hp].
  apply andb_true_iff in Hs as [Hab Hs].
  apply Ascii.eqb_eq in Ha, Hab. subst b.
  rewrite Ha, Ascii.eqb_refl. simpl.
  now apply IH.
Qed.

Lemma contains_lower p s :
  is_lower p = true -> contains p s = true -> contains p (lower s) = true.
Proof.
  intros Hp.
  induction s as [|b s IH]; simpl; intros H.
  - apply orb_true_iff in H as [H|H]; [|discriminate].
    pose proof (startswith_lower p EmptyString Hp H) as E.
    simpl in E. now rewrite E.
  - apply orb_true_iff in H as [H|H].
    + pose proof (startswith_lower p (String b s) Hp H) as E.
      simpl in E. now rewrite E.
    + rewrite (IH H). apply orb_true_r.
Qed.

End PyStrFacts.

Lemma clean_name_idem col : clean_name (clean_name col) = clean_name col.
Proof.
  unfold clean_name.
  now rewrite PyStrFacts.strip_lower, PyStrFacts.lower_idem, PyStrFacts.strip_idem.
Qed.

(** ** The Normalizer *)

Lemma select_columns col (df : DataFrame) :
  length (select col df) = length (filter (String.eqb col) (columns df)).
Proof.
  unfold select, columns. rewrite length_map.
  induction df as [|p df IH]; simpl; [reflexivity|].
  destruct (String.eqb col (fst p)); simpl; now rewrite IH.
Qed.

Lemma has_column_false_select col df :
  has_column col df = false -> select col df = [].
Proof.
  unfold has_column, select, columns.
  induction df as [|p df IH]; simpl; [reflexivity|].
  destruct (String.eqb col (fst p)); simpl; [discriminate | exact IH].
Qed.

Lemma has_column_true_select col df :
  has_column col df = true -> select col df <> [].
Proof.
  unfold has_column, select, columns.
  induction df as [|p df IH]; simpl; [discriminate|].
  destruct (String.eqb col (fst p)); simpl; [discriminate | exact IH].
Qed.

Lemma apply_column_absent col f df :
  has_column col df = false -> apply_column col f df = df.
Proof.
  unfold has_column, apply_column, columns.
  induction df as [|p df IH]; simpl; [reflexivity|].
  destruct (String.eqb col (fst p)); simpl; [discriminate|].
  intros H. now rewrite IH.
Qed.

Lemma columns_apply_column col f df :
  columns (apply_column col f df) = columns df.
Proof.
  unfold columns, apply_column. rewrite map_map.
  apply map_ext. intros p. now destruct (String.eqb col (fst p)).
Qed.

Lemma at_most_once_columns col df df' :
  columns df = columns df' -> at_most_once col df = at_most_once col df'.
Proof.
  unfold at_most_once. intros H. now rewrite !select_columns, H.
Qed.

Lemma apply_column_single col g s df :
  select col df = [s] ->
  apply_column col (fun _ => g s) df = apply_column col g df.
Proof.
  unfold select, apply_column. intros H.
  apply map_ext_in. intros [n c] Hp. cbn [fst snd].
  destruct (String.eqb col n) eqn:E; [|reflexivity].
  assert (Hc : In c (map snd (filter (fun p => String.eqb col (fst p)) df))).
  { apply in_map_iff. exists (n, c). split; [reflexivity|].
    apply filter_In. now split. }
  rewrite H in Hc. destruct Hc as [<-|[]]. reflexivity.
Qed.

(** A column is coerced when its label occurs at most once and the
    conversion returns on it; [g] is what the conversion returns. *)
Lemma coerce_column_spec col f g e df df' :
  (forall s s', f s = Ok s' -> s' = g s) ->
  coerce_column col f e df = Ok df' <->
  at_most_once col df = true
  /\ forallb (fun s => is_ok (f s)) (select col df) = true
  /\ df' = apply_column col g df.
Proof.
  intros Hg. unfold coerce_column, at_most_once.
  destruct (has_column col df) eqn:Hc.
  - pose proof (has_column_true_select col df Hc) as Hne.
    destruct (select col df) as [|s [|s' l]] eqn:Hs.
    + now contradiction Hne.
    + cbn [forallb length]. rewrite andb_true_r.
      rewrite <- (apply_column_single col g s df Hs).
      destruct (f s) as [s'|x] eqn:Hf; cbn [bind is_ok].
      * rewrite (Hg s s' Hf).
        split; [intros [= <-]; auto | intros (_ & _ & ->); reflexivity].
      * split; [discriminate | intros (_ & H & _); discriminate].
    + split; [discriminate | intros [H _]; discriminate].
  - rewrite (has_column_false_select col df Hc), (apply_column_absent col g df Hc).
    simpl. split; [intros [= <-]; auto | intros (_ & _ & ->); reflexivity].
Qed.

Lemma coerce_column_total col g e df df' :
  coerce_column col (fun s => Ok (g s)) e df = Ok df' <->
  at_most_once col df = true /\ df' = apply_column col g df.
Proof.
  rewrite (coerce_column_spec col _ g) by (now intros s s' [= <-]).
  assert (H : forallb (fun s => is_ok (Ok (g s))) (select col df) = true)
    by (apply forallb_forall; reflexivity).
  rewrite H. tauto.
Qed.

Lemma mapM_Ok {A B : Type} (f : A -> result B) (d : B) l l' :
  mapM f l = Ok l' ->
  l' = map (fun a => match f a with Ok b => b | Raise _ => d end) l.
Proof.
  revert l'. induction l as [|a l IH]; simpl; intros l' H.
  - now injection H as <-.
  - destruct (f a) as [b|e]; cbn [bind] in H; [|discriminate].
    destruct (mapM f l) as [bs|e]; cbn [bind] in H; [|discriminate].
    injection H as <-. now rewrite (IH bs eq_refl).
Qed.

Lemma mapM_is_ok {A B : Type} (f : A -> result B) l :
  is_ok (mapM f l) = forallb (fun a => is_ok (f a)) l.
Proof.
  induction l as [|a l IH]; simpl; [reflexivity|].
  destruct (f a) as [b|e]; cbn [bind is_ok andb]; [|reflexivity].
  rewrite <- IH. now destruct (mapM f l).
Qed.


Section NormalizerFacts.

Variable parse_datetime : Series -> cell -> result (option Z).
Variable parse_number : cell -> option Q.

Local Abbreviation to_dt := (to_datetime_cells parse_datetime).
Local Abbreviation to_num := (to_numeric_cells parse_number).

Lemma to_datetime_Ok s s' :
  to_datetime parse_datetime s = Ok s' -> s' = to_dt s.
Proof. apply mapM_Ok. Qed.

Lemma coercions_by_name (df : DataFrame) :
  apply_column "expenses" to_num
    (apply_column "inventory_on_hand" to_num
       (apply_column "revenue" to_num
          (apply_column "units_sold" to_num
             (apply_column "date" to_dt (rename_columns df)))))
  = normalize_columns parse_datetime parse_number df.
Proof.
  unfold apply_column, rename_columns, normalize_columns.
  rewrite !map_map. apply map_ext. intros [n s]. cbn [fst snd].
  unfold coerce_by_name, numeric_columns, to_dt, to_num. cbn [existsb].
  rewrite (String.eqb_sym (clean_name n) "units_sold"),
    (String.eqb_sym (clean_name n) "revenue"),
    (String.eqb_sym (clean_name n) "inventory_on_hand"),
    (String.eqb_sym (clean_name n) "expenses").
  generalize (clean_name n). intros c.
  destruct (String.eqb_spec "date" c) as [<-|]; [reflexivity|].
  cbn [fst snd].
  destruct (String.eqb_spec "units_sold" c) as [<-|]; [reflexivity|].
  cbn [fst snd orb].
  destruct (String.eqb_spec "revenue" c) as [<-|]; [reflexivity|].
  cbn [fst snd orb].
  destruct (String.eqb_spec "inventory_on_hand" c) as [<-|]; [reflexivity|].
  cbn [fst snd orb].
  destruct (String.eqb_spec "expenses" c) as [<-|]; reflexivity.
Qed.

(** The Normalizer returns exactly when no coerced label is repeated and
    [pd.to_datetime] returns on the date column, and then it has cleaned
    every label and coerced every column by its label. *)
Lemma normalize_dataframe_spec raw df :
  normalize_dataframe parse_datetime parse_number raw = Ok df <->
  coerced_labels_unique raw = true
  /\ date_accepted parse_datetime raw = true
  /\ df = normalize_columns parse_datetime parse_number raw.
Proof.
  rewrite <- coercions_by_name.
  unfold normalize_dataframe, coerced_labels_unique, coerced_columns,
    date_accepted, to_numeric.
  set (d0 := rename_columns raw).
  cbn [forallb]. rewrite !andb_true_iff.
  destruct (coerce_column "date" (to_datetime parse_datetime)
              duplicate_keys d0) as [d1|] eqn:E1;
    cbn [bind].
  2:{ split; [discriminate|]. intros [(H & _) (A & _)].
      assert (X : coerce_column "date" (to_datetime parse_datetime)
                    duplicate_keys d0
                  = Ok (apply_column "date" to_dt d0))
        by (apply (coerce_column_spec _ _ to_dt);
            auto using to_datetime_Ok).
      congruence. }
  apply (coerce_column_spec _ _ to_dt) in E1 as (U1 & A1 & ->);
    [|exact to_datetime_Ok].
  set (d1 := apply_column "date" to_dt d0).
  assert (C1 : columns d1 = columns d0) by apply columns_apply_column.
  destruct (coerce_column "units_sold" (fun s => Ok (to_num s))
              not_one_dimensional d1)
    as [d2|] eqn:E2; cbn [bind].
  2:{ split; [discriminate|]. intros [(_ & H & _) _].
      rewrite <- (at_most_once_columns _ _ _ C1) in H.
      assert (X : coerce_column "units_sold" (fun s => Ok (to_num s))
                    not_one_dimensional d1
                  = Ok (apply_column "units_sold" to_num d1))
        by (apply coerce_column_total; auto).
      congruence. }
  apply coerce_column_total in E2 as [U2 ->].
  set (d2 := apply_column "units_sold" to_num d1).
  assert (C2 : columns d2 = columns d0)
    by (unfold d2; now rewrite columns_apply_column).
  destruct (coerce_column "revenue" (fun s => Ok (to_num s))
              not_one_dimensional d2)
    as [d3|] eqn:E3; cbn [bind].
  2:{ split; [discriminate|]. intros [(_ & _ & H & _) _].
      rewrite <- (at_most_once_columns _ _ _ C2) in H.
      assert (X : coerce_column "revenue" (fun s => Ok (to_num s))
                    not_one_dimensional d2
                  = Ok (apply_column "revenue" to_num d2))
        by (apply coerce_column_total; auto).
      congruence. }
  apply coerce_column_total in E3 as [U3 ->].
  set (d3 := apply_column "revenue" to_num d2).
  assert (C3 : columns d3 = columns d0)
    by (unfold d3; now rewrite columns_apply_column).
  destruct (coerce_column "inventory_on_hand" (fun s => Ok (to_num s))
              not_one_dimensional d3)
    as [d4|] eqn:E4; cbn [bind].
  2:{ split; [discriminate|]. intros [(_ & _ & _ & H & _) _].
      rewrite <- (at_most_once_columns _ _ _ C3) in H.
      assert (X : coerce_column "inventory_on_hand"
                    (fun s => Ok (to_num s)) not_one_dimensional d3
                  = Ok (apply_column "inventory_on_hand" to_num d3))
        by (apply coerce_column_total; auto).
      congruence. }
  apply coerce_column_total in E4 as [U4 ->].
  set (d4 := apply_column "inventory_on_hand" to_num d3).
  assert (C4 : columns d4 = columns d0)
    by (unfold d4; now rewrite columns_apply_column).
  rewrite coerce_column_total.
  rewrite (at_most_once_columns _ _ _ C1) in U2.
  rewrite (at_most_once_columns _ _ _ C2) in U3.
  rewrite (at_most_once_columns _ _ _ C3) in U4.
  rewrite (at_most_once_columns _ _ _ C4).
  tauto.
Qed.

Lemma to_datetime_dates s : forallb is_date_cell (to_dt s) = true.
Proof.
  unfold to_datetime_cells. apply forallb_forall. intros c Hc.
  apply in_map_iff in Hc as (c0 & <- & _).
  destruct c0; try reflexivity; cbn [to_datetime_cell];
    now destruct (parse_datetime s _) as [[t|]|e].
Qed.

Lemma to_numeric_numbers s : forallb is_num_cell (to_num s) = true.
Proof.
  unfold to_numeric_cells. apply forallb_forall. intros c Hc.
  apply in_map_iff in Hc as (c0 & <- & _).
  destruct c0; try reflexivity; now destruct (parse_number _).
Qed.

Lemma to_datetime_fixed s :
  forallb is_date_cell s = true -> to_dt s = s.
Proof.
  unfold to_datetime_cells, to_datetime_cell.
  generalize (parse_datetime s). intros parse.
  induction s as [|c s IH]; simpl; [reflexivity|].
  intros H. apply andb_true_iff in H as [Hc Hs].
  rewrite (IH Hs). now destruct c.
Qed.

(** On a column of timestamps and NaT, [pd.to_datetime] has nothing to
    parse and returns. *)
Lemma to_datetime_accepts_dates s :
  forallb is_date_cell s = true -> is_ok (to_datetime parse_datetime s) = true.
Proof.
  intros H. unfold to_datetime.
  etransitivity; [apply mapM_is_ok|].
  apply forallb_forall. intros c Hc.
  rewrite forallb_forall in H. specialize (H c Hc).
  now destruct c.
Qed.

Lemma to_numeric_fixed s :
  forallb is_num_cell s = true -> to_num s = s.
Proof.
  unfold to_numeric_cells.
  induction s as [|c s IH]; simpl; [reflexivity|].
  intros H. apply andb_true_iff in H as [Hc Hs].
  rewrite (IH Hs). now destruct c.
Qed.

Lemma coerce_by_name_ok col s :
  (if String.eqb "date" col
   then forallb is_date_cell (coerce_by_name parse_datetime parse_number col s)
   else if existsb (String.eqb col) numeric_columns
        then forallb is_num_cell (coerce_by_name parse_datetime parse_number col s)
        else true) = true.
Proof.
  unfold coerce_by_name.
  destruct (String.eqb "date" col); [apply to_datetime_dates|].
  destruct (existsb (String.eqb col) numeric_columns);
    [apply to_numeric_numbers | reflexivity].
Qed.

Lemma coerce_by_name_idem col s :
  coerce_by_name parse_datetime parse_number col
    (coerce_by_name parse_datetime parse_number col s)
  = coerce_by_name parse_datetime parse_number col s.
Proof.
  unfold coerce_by_name.
  destruct (String.eqb "date" col).
  - apply to_datetime_fixed, to_datetime_dates.
  - destruct (existsb (String.eqb col) numeric_columns); [|reflexivity].
    apply to_numeric_fixed, to_numeric_numbers.
Qed.

Lemma normalize_columns_idem raw :
  normalize_columns parse_datetime parse_number
    (normalize_columns parse_datetime parse_number raw)
  = normalize_columns parse_datetime parse_number raw.
Proof.
  unfold normalize_columns. rewrite map_map. apply map_ext.
  intros [n s]. simpl.
  now rewrite clean_name_idem, coerce_by_name_idem.
Qed.

Lemma columns_normalize_columns raw :
  columns (normalize_columns parse_datetime parse_number raw)
  = map clean_name (columns raw).
Proof.
  unfold columns, normalize_columns. now rewrite !map_map.
Qed.

Lemma columns_rename_columns raw :
  columns (rename_columns raw) = map clean_name (columns raw).
Proof.
  unfold columns, rename_columns. now rewrite !map_map.
Qed.

Lemma coerced_labels_unique_normalize_columns raw :
  coerced_labels_unique (normalize_columns parse_datetime parse_number raw)
  = coerced_labels_unique raw.
Proof.
  unfold coerced_labels_unique.
  assert (E : columns (rename_columns
                (normalize_columns parse_datetime parse_number raw))
              = columns (rename_columns raw)).
  { rewrite !columns_rename_columns, columns_normalize_columns, map_map.
    apply map_ext. intros n. apply clean_name_idem. }
  induction coerced_columns as [|col l IH]; simpl; [reflexivity|].
  now rewrite IH, (at_most_once_columns col _ _ E).
Qed.

Lemma lengths_normalize_columns raw :
  map (fun p => length (snd p))
      (normalize_columns parse_datetime parse_number raw)
  = map (fun p => length (snd p)) raw.
Proof.
  unfold normalize_columns. rewrite map_map. apply map_ext.
  intros [n s]. simpl. unfold coerce_by_name.
  destruct (String.eqb "date" (clean_name n));
    [apply length_map|].
  destruct (existsb _ numeric_columns); [apply length_map | reflexivity].
Qed.

Lemma nrows_normalize_columns raw :
  nrows (normalize_columns parse_datetime parse_number raw) = nrows raw.
Proof.
  pose proof (lengths_normalize_columns raw) as H.
  destruct raw as [|[n s] raw]; [reflexivity|].
  simpl in *. now injection H.
Qed.

(** The date column the Normalizer leaves holds timestamps and NaT, which
    [pd.to_datetime] takes as they are. *)
Lemma date_accepted_normalize_columns raw :
  date_accepted parse_datetime
    (normalize_columns parse_datetime parse_number raw) = true.
Proof.
  unfold date_accepted, select, rename_columns, normalize_columns.
  apply forallb_forall. intros s Hs.
  apply in_map_iff in Hs as ([n c] & <- & Hp).
  apply filter_In in Hp as [Hp E].
  rewrite map_map in Hp. apply in_map_iff in Hp as ([n0 c0] & [= <- <-] & _).
  cbn [fst snd] in *. rewrite clean_name_idem in E.
  unfold coerce_by_name. rewrite E.
  apply to_datetime_accepts_dates, to_datetime_dates.
Qed.

(** Where the labels are unique, what [pd.to_datetime] raises on the date
    column is what the Normalizer raises. *)
Lemma normalize_dataframe_passes_on raw s e :
  select "date" (rename_columns raw) = [s] ->
  to_datetime parse_datetime s = Raise e ->
  normalize_dataframe parse_datetime parse_number raw = Raise e.
Proof.
  intros Hs He. unfold normalize_dataframe, coerce_column.
  assert (Hc : has_column "date" (rename_columns raw) = true).
  { destruct (has_column "date" (rename_columns raw)) eqn:Hc; [reflexivity|].
    rewrite (has_column_false_select _ _ Hc) in Hs. discriminate. }
  now rewrite Hc, Hs, He.
Qed.

End NormalizerFacts.

Lemma rectangular_lengths (df : DataFrame) :
  rectangular df
  = forallb (fun n => (n =? nrows df)%nat) (map (fun p => length (snd p)) df).
Proof.
  unfold rectangular. generalize (nrows df). intros n.
  induction df as [|p df IH]; simpl; [reflexivity|]. now rewrite IH.
Qed.

Lemma normalize_columns_ok parse_datetime parse_number raw :
  forallb column_ok (normalize_columns parse_datetime parse_number raw) = true.
Proof.
  unfold normalize_columns.
  apply forallb_forall. intros p Hp.
  apply in_map_iff in Hp as ([n s] & <- & _).
  unfold column_ok. cbn [fst snd].
  rewrite clean_name_idem, String.eqb_refl. cbn [andb].
  apply coerce_by_name_ok.
Qed.

(** What the Normalizer returns on a rectangular frame is [normalized]. *)
Lemma normalize_dataframe_normalized parse_datetime parse_number raw df :
  rectangular raw = true ->
  normalize_dataframe parse_datetime parse_number raw = Ok df ->
  normalized df = true.
Proof.
  intros Hr H. apply normalize_dataframe_spec in H as (U & _ & ->).
  unfold normalized. rewrite normalize_columns_ok. cbn [andb].
  apply andb_true_iff. split.
  - unfold coerced_labels_unique in U.
    rewrite forallb_forall in U. apply forallb_forall. intros col Hcol.
    rewrite <- (U col Hcol). apply at_most_once_columns.
    now rewrite columns_normalize_columns, columns_rename_columns.
  - rewrite rectangular_lengths in *.
    now rewrite lengths_normalize_columns, nrows_normalize_columns.
Qed.

(** C8 (as amended).  When no two columns clean to the same coerced label
    and [pd.to_datetime] returns on the date column, the Normalizer
    returns a frame whose labels are the raw labels stripped and
    lower-cased, whose columns have the raw lengths (so the row count is
    kept), and whose coerced columns hold only timestamps or NaT, numbers
    or NaN: the cells the two conversions cannot parse become missing.
    Nothing else makes the Normalizer raise; [errors="coerce"] leaves
    [pd.to_datetime] errors of its own, which are passed on. *)
Theorem normalize_dataframe_shape
    (parse_datetime : Series -> cell -> result (option Z))
    (parse_number : cell -> option Q) (raw : DataFrame) :
  coerced_labels_unique raw = true ->
  date_accepted parse_datetime raw = true ->
  exists df,
    normalize_dataframe parse_datetime parse_number raw = Ok df
    /\ columns df = map clean_name (columns raw)
    /\ map (fun p => length (snd p)) df = map (fun p => length (snd p)) raw
    /\ nrows df = nrows raw
    /\ forallb column_ok df = true.
Proof.
  intros U A.
  exists (normalize_columns parse_datetime parse_number raw).
  split; [now apply normalize_dataframe_spec|].
  split; [apply columns_normalize_columns|].
  split; [apply lengths_normalize_columns|].
  split; [apply nrows_normalize_columns|].
  apply normalize_columns_ok.
Qed.

Lemma normalize_dataframe_shape_witness :
  coerced_labels_unique Sample.raw_export = true
  /\ date_accepted Sample.parse_datetime Sample.raw_export = true
  /\ exists df,
      Sample.normalize Sample.raw_export = Ok df
      /\ columns df = map clean_name (columns Sample.raw_export)
      /\ map (fun p => length (snd p)) df
         = map (fun p => length (snd p)) Sample.raw_export
      /\ nrows df = nrows Sample.raw_export
      /\ forallb column_ok df = true.
Proof.
  split; [reflexivity|]. split; [reflexivity|].
  apply (normalize_dataframe_shape Sample.parse_datetime Sample.parse_number
           Sample.raw_export); reflexivity.
Defined.

(** C8 as stated fails: two headers that clean to [date] make
    [df["date"]] a frame, and [pd.to_datetime] raises on it. *)
Lemma normalize_dataframe_raises_on_repeated_label :
  Sample.normalize Sample.raw_two_dates = Raise duplicate_keys.
Proof. reflexivity. Qed.

(** It fails on cell values too, with every header unique: a date column
    whose strings carry two different UTC offsets is refused by
    [pd.to_datetime], [errors="coerce"] or not. *)
Lemma normalize_dataframe_raises_on_mixed_offsets :
  coerced_labels_unique Sample.raw_mixed_offsets = true
  /\ Sample.normalize Sample.raw_mixed_offsets = Raise Sample.mixed_offsets.
Proof. split; reflexivity. Qed.

(** C10.  Normalizing twice is normalizing once: on a frame the Normalizer
    returned, it returns the same frame, labels and cells unchanged (and
    where it raised, there is nothing to normalize again). *)
Theorem normalize_dataframe_idempotent
    (parse_datetime : Series -> cell -> result (option Z))
    (parse_number : cell -> option Q) (raw : DataFrame) :
  (df <- normalize_dataframe parse_datetime parse_number raw ;;
   normalize_dataframe parse_datetime parse_number df)
  = normalize_dataframe parse_datetime parse_number raw.
Proof.
  destruct (normalize_dataframe parse_datetime parse_number raw)
    as [df|e] eqn:E; cbn [bind]; [|reflexivity].
  apply normalize_dataframe_spec in E as (U & _ & ->).
  apply normalize_dataframe_spec. split; [|split].
  - now rewrite coerced_labels_unique_normalize_columns.
  - apply date_accepted_normalize_columns.
  - now rewrite normalize_columns_idem.
Qed.

(** ** Results *)

Lemma bind_Ok {A B : Type} (r : result A) (k : A -> result B) (b : B) :
  bind r k = Ok b -> exists a, r = Ok a /\ k a = Ok b.
Proof.
  destruct r as [a|e]; simpl; [|discriminate].
  intros H. now exists a.
Qed.

Lemma Ok_inj {A : Type} (a b : A) : Ok a = Ok b -> a = b.
Proof. now intros [= ->]. Qed.

Ltac inv_Ok H := apply Ok_inj in H; subst.

Ltac inv_bind H :=
  let a := fresh "x" in
  let E := fresh "E" in
  apply bind_Ok in H as (a & E & H).

(** ** Sorting *)

Section SortingFacts.

Context {A : Type} (leb : A -> A -> bool).

Local Abbreviation R := (fun a b : A => leb a b = true).

Hypothesis leb_total : forall a b, leb a b = true \/ leb b a = true.
Hypothesis leb_trans :
  forall a b c, leb a b = true -> leb b c = true -> leb a c = true.

Lemma insert_sorted_perm x l : Permutation (insert_sorted leb x l) (x :: l).
Proof.
  induction l as [|y l IH]; simpl; [reflexivity|].
  destruct (leb x y); [reflexivity|].
  rewrite IH. apply perm_swap.
Qed.

Lemma sort_perm l : Permutation (sort leb l) l.
Proof.
  induction l as [|x l IH]; simpl; [reflexivity|].
  rewrite insert_sorted_perm. now apply perm_skip.
Qed.

Lemma sort_length l : length (sort leb l) = length l.
Proof. apply Permutation_length, sort_perm. Qed.

Lemma insert_sorted_sorted x l :
  StronglySorted R l -> StronglySorted R (insert_sorted leb x l).
Proof.
  induction 1 as [|y l Hl IH Hy]; simpl.
  - repeat constructor.
  - destruct (leb x y) eqn:Exy.
    + constructor; [now constructor|].
      constructor; [exact Exy|].
      eapply Forall_impl; [|exact Hy].
      intros z Hz. exact (leb_trans x y z Exy Hz).
    + constructor; [exact IH|].
      assert (Hyx : leb y x = true)
        by (destruct (leb_total x y); congruence).
      eapply Permutation_Forall;
        [symmetry; apply insert_sorted_perm|].
      now constructor.
Qed.

Lemma sort_sorted l : StronglySorted R (sort leb l).
Proof.
  induction l as [|x l IH]; simpl; [constructor|].
  now apply insert_sorted_sorted.
Qed.

End SortingFacts.

Lemma head_incl {A : Type} n (l : list A) x : In x (head n l) -> In x l.
Proof.
  unfold head. revert l.
  induction n as [|n IH]; intros [|y l]; simpl; try tauto.
  intros [H|H]; [now left | right; now apply IH].
Qed.

Section SortedFacts.

Context {A : Type} (R : A -> A -> Prop).

Lemma StronglySorted_firstn n l :
  StronglySorted R l -> StronglySorted R (firstn n l).
Proof.
  intros H. revert n.
  induction H as [|x l Hl IH Hx]; intros [|n]; simpl; try constructor.
  - apply IH.
  - apply Forall_forall. intros y Hy.
    apply (head_incl n l) in Hy.
    rewrite Forall_forall in Hx. now apply Hx.
Qed.

Lemma StronglySorted_skipn n l :
  StronglySorted R l -> StronglySorted R (skipn n l).
Proof.
  intros H. revert n.
  induction H as [|x l Hl IH Hx]; intros [|n]; simpl;
    try constructor; auto.
Qed.

Lemma StronglySorted_weaken (R' : A -> A -> Prop) l :
  (forall a b, R a b -> R' a b) ->
  StronglySorted R l -> StronglySorted R' l.
Proof.
  intros HR. induction 1 as [|x l Hl IH Hx]; constructor; auto.
  eapply Forall_impl; [|exact Hx]. intros; now apply HR.
Qed.

Lemma StronglySorted_map {B : Type} (R' : B -> B -> Prop) (f : A -> B) l :
  (forall a b, R a b -> R' (f a) (f b)) ->
  StronglySorted R l -> StronglySorted R' (map f l).
Proof.
  intros HR. induction 1 as [|x l Hl IH Hx]; simpl; constructor; auto.
  apply Forall_forall. intros y Hy.
  apply in_map_iff in Hy as (a & <- & Ha).
  rewrite Forall_forall in Hx. now apply HR, Hx.
Qed.

End SortedFacts.

Lemma head_length {A : Type} n (l : list A) : (length (head n l) <= n)%nat.
Proof. unfold head. apply firstn_le_length. Qed.

Lemma tail_length {A : Type} n (l : list A) : (length (tail n l) <= n)%nat.
Proof. unfold tail. rewrite length_skipn. lia. Qed.

Lemma tail_incl {A : Type} n (l : list A) x : In x (tail n l) -> In x l.
Proof.
  unfold tail. intros H.
  rewrite <- (firstn_skipn (length l - n) l).
  apply in_or_app. now right.
Qed.

Lemma sort_values_sorted {A K : Type} (leb : K -> K -> bool) (key : A -> K) l :
  (forall a b, leb a b = true \/ leb b a = true) ->
  (forall a b c, leb a b = true -> leb b c = true -> leb a c = true) ->
  StronglySorted (fun a b => leb (key a) (key b) = true)
    (sort_values leb key l).
Proof.
  intros Htot Htrans. unfold sort_values.
  apply (sort_sorted (fun a b => leb (key a) (key b))).
  - intros a b. apply Htot.
  - intros a b c. apply Htrans.
Qed.

Lemma sort_values_desc_sorted {A K : Type} (leb : K -> K -> bool)
    (key : A -> K) l :
  (forall a b, leb a b = true \/ leb b a = true) ->
  (forall a b c, leb a b = true -> leb b c = true -> leb a c = true) ->
  StronglySorted (fun a b => leb (key b) (key a) = true)
    (sort_values_desc leb key l).
Proof.
  intros Htot Htrans. unfold sort_values_desc.
  apply (sort_sorted (fun a b => leb (key b) (key a))).
  - intros a b. apply Htot.
  - intros a b c H1 H2. exact (Htrans _ _ _ H2 H1).
Qed.

(** The three orders the windows sort by. *)

Lemma Zleb_total a b : (a <=? b)%Z = true \/ (b <=? a)%Z = true.
Proof. rewrite !Z.leb_le. lia. Qed.

Lemma Zleb_trans a b c :
  (a <=? b)%Z = true -> (b <=? c)%Z = true -> (a <=? c)%Z = true.
Proof. rewrite !Z.leb_le. lia. Qed.

Lemma Qle_bool_total a b : Qle_bool a b = true \/ Qle_bool b a = true.
Proof.
  rewrite !Qle_bool_iff.
  destruct (Qlt_le_dec a b) as [H|H]; [left; now apply Qlt_le_weak | now right].
Qed.

Lemma Qle_bool_trans a b c :
  Qle_bool a b = true -> Qle_bool b c = true -> Qle_bool a c = true.
Proof. rewrite !Qle_bool_iff. apply Qle_trans. Qed.

Lemma xnum_leb_total a b : xnum_leb a b = true \/ xnum_leb b a = true.
Proof.
  destruct a, b; simpl; auto. apply Qle_bool_total.
Qed.

Lemma xnum_leb_trans a b c :
  xnum_leb a b = true -> xnum_leb b c = true -> xnum_leb a c = true.
Proof.
  destruct a, b, c; simpl; auto; try discriminate.
  apply Qle_bool_trans.
Qed.

(** ** The Metric Windows: size and order of the output *)

Lemma compute_weekly_revenue_sorted df w :
  compute_weekly_revenue df = Ok w ->
  (length w <= 6)%nat
  /\ StronglySorted (fun a b => (fst a <= fst b)%Z) w.
Proof.
  unfold compute_weekly_revenue.
  destruct (negb (has_column "date" df)).
  - intros [= <-]. split; [simpl; lia | constructor].
  - intros H. inv_bind H.
    destruct (negb (at_most_once "week" df)); [discriminate|].
    inv_bind H. inv_Ok H.
    split; [apply tail_length|].
    unfold tail. apply StronglySorted_skipn.
    eapply StronglySorted_weaken;
      [|apply sort_values_sorted; [apply Zleb_total | apply Zleb_trans]].
    intros a b. apply Z.leb_le.
Qed.

Lemma daily_revenue_sorted date revenue :
  StronglySorted (fun a b => (fst a <= fst b)%Z) (daily_revenue date revenue).
Proof.
  unfold daily_revenue.
  eapply StronglySorted_weaken;
    [|apply sort_values_sorted; [apply Zleb_total | apply Zleb_trans]].
  intros a b. apply Z.leb_le.
Qed.

Lemma compute_daily_financials_sorted df d :
  compute_daily_financials df = Ok d ->
  (length d <= 14)%nat
  /\ StronglySorted (fun a b => (d_date a <= d_date b)%Z) d.
Proof.
  unfold compute_daily_financials.
  destruct (negb (has_column "date" df) || negb (has_column "revenue" df)).
  - intros [= <-]. split; [simpl; lia | constructor].
  - intros H. inv_bind H. inv_bind H. inv_bind H. inv_Ok H.
    split; [apply tail_length|].
    unfold tail. apply StronglySorted_skipn.
    assert (S : StronglySorted (fun a b => (fst (fst a) <= fst (fst b))%Z) x1).
    { destruct (has_column "expenses" df).
      - inv_bind E1. inv_Ok E1.
        eapply StronglySorted_map; [|apply daily_revenue_sorted].
        intros a b Hab. exact Hab.
      - inv_Ok E1.
        eapply StronglySorted_map; [|apply daily_revenue_sorted].
        intros a b Hab. exact Hab. }
    eapply StronglySorted_map; [|exact S].
    intros [[da ra] ea] [[db rb] eb] Hab. exact Hab.
Qed.

Lemma compute_trending_items_sorted df t :
  compute_trending_items df = Ok t ->
  (length t <= 8)%nat
  /\ StronglySorted (fun a b => (change b <= change a)%Q) t.
Proof.
  unfold compute_trending_items.
  destruct (negb (has_column "date" df) || negb (has_column "item" df)).
  - intros [= <-]. split; [simpl; lia | constructor].
  - intros H. inv_bind H.
    destruct (max_date (dropna (map as_date x))) as [last_date|].
    2:{ inv_Ok H. split; [simpl; lia | constructor]. }
    inv_bind H. inv_bind H. inv_Ok H.
    split; [apply head_length|].
    unfold head. apply StronglySorted_firstn.
    eapply StronglySorted_weaken;
      [|apply sort_values_desc_sorted;
        [apply Qle_bool_total | apply Qle_bool_trans]].
    intros a b. apply Qle_bool_iff.
Qed.

Lemma compute_reorder_list_sorted df r :
  compute_reorder_list df = Ok r ->
  (length r <= 10)%nat
  /\ StronglySorted
       (fun a b => xnum_leb (weeks_of_cover a) (weeks_of_cover b) = true) r.
Proof.
  unfold compute_reorder_list.
  destruct (negb (has_column "inventory_on_hand" df)).
  - intros [= <-]. split; [simpl; lia | constructor].
  - intros H. do 5 inv_bind H. inv_Ok H.
    split; [apply head_length|].
    unfold head. apply StronglySorted_firstn.
    apply sort_values_sorted; [apply xnum_leb_total | apply xnum_leb_trans].
Qed.

Lemma compute_anomalies_flagged sqrt df a :
  compute_anomalies sqrt df = Ok a ->
  (length a <= 5)%nat
  /\ Forall (fun row => abs_ge_2 (z_score row) = true) a.
Proof.
  unfold compute_anomalies.
  destruct (negb (has_column "date" df) || negb (has_column "revenue" df)).
  - intros [= <-]. split; [simpl; lia | constructor].
  - intros H. inv_bind H. inv_bind H.
    destruct (length (daily_revenue x x0) <? 7)%nat.
    + inv_Ok H. split; [simpl; lia | constructor].
    + inv_Ok H. split; [apply tail_length|].
      apply Forall_forall. intros row Hrow.
      apply tail_incl in Hrow. now apply filter_In in Hrow.
Qed.

(** C4.  On a normalized frame, whenever a window returns: Weekly Revenue
    has at most 6 rows in ascending order of week start, Daily Financials
    at most 14 rows in ascending order of date, Trending Items at most 8
    rows in descending order of [change], the Reorder List at most 10 rows
    in ascending order of [weeks_of_cover], and Anomalies at most 5 rows,
    each with an absolute z-score of 2 or more. *)
Theorem windows_bounded_and_sorted (sqrt : Q -> Q) (df : DataFrame) :
  normalized df = true ->
  (forall w, compute_weekly_revenue df = Ok w ->
     (length w <= 6)%nat
     /\ StronglySorted (fun a b => (fst a <= fst b)%Z) w)
  /\ (forall d, compute_daily_financials df = Ok d ->
        (length d <= 14)%nat
        /\ StronglySorted (fun a b => (d_date a <= d_date b)%Z) d)
  /\ (forall t, compute_trending_items df = Ok t ->
        (length t <= 8)%nat
        /\ StronglySorted (fun a b => (change b <= change a)%Q) t)
  /\ (forall r, compute_reorder_list df = Ok r ->
        (length r <= 10)%nat
        /\ StronglySorted
             (fun a b =>
                xnum_leb (weeks_of_cover a) (weeks_of_cover b) = true) r)
  /\ (forall a, compute_anomalies sqrt df = Ok a ->
        (length a <= 5)%nat
        /\ Forall (fun row => abs_ge_2 (z_score row) = true) a).
Proof.
  intros _.
  split; [apply compute_weekly_revenue_sorted|].
  split; [apply compute_daily_financials_sorted|].
  split; [apply compute_trending_items_sorted|].
  split; [apply compute_reorder_list_sorted|].
  apply compute_anomalies_flagged.
Qed.

Lemma windows_bounded_and_sorted_witness :
  normalized Sample.sales = true
  /\ (forall w, compute_weekly_revenue Sample.sales = Ok w ->
        (length w <= 6)%nat
        /\ StronglySorted (fun a b => (fst a <= fst b)%Z) w)
  /\ (forall d, compute_daily_financials Sample.sales = Ok d ->
        (length d <= 14)%nat
        /\ StronglySorted (fun a b => (d_date a <= d_date b)%Z) d)
  /\ (forall t, compute_trending_items Sample.sales = Ok t ->
        (length t <= 8)%nat
        /\ StronglySorted (fun a b => (change b <= change a)%Q) t)
  /\ (forall r, compute_reorder_list Sample.sales = Ok r ->
        (length r <= 10)%nat
        /\ StronglySorted
             (fun a b =>
                xnum_leb (weeks_of_cover a) (weeks_of_cover b) = true) r)
  /\ (forall a, compute_anomalies Sample.sqrt Sample.sales = Ok a ->
        (length a <= 5)%nat
        /\ Forall (fun row => abs_ge_2 (z_score row) = true) a).
Proof.
  split; [reflexivity|].
  apply (windows_bounded_and_sorted Sample.sqrt Sample.sales).
  reflexivity.
Defined.

(** All five windows return rows on the sample frame. *)
Example sales_windows_return :
  (exists w, compute_weekly_revenue Sample.sales = Ok w /\ length w = 3%nat)
  /\ (exists d, compute_daily_financials Sample.sales = Ok d
               /\ length d = 9%nat)
  /\ (exists t, compute_trending_items Sample.sales = Ok t
               /\ length t = 3%nat)
  /\ (exists r, compute_reorder_list Sample.sales = Ok r /\ length r = 4%nat)
  /\ (exists a, compute_anomalies Sample.sqrt Sample.sales = Ok a
               /\ length a = 1%nat).
Proof.
  repeat split; eexists; (split; [vm_compute; reflexivity | reflexivity]).
Qed.

(** ** Windows that read a column they did not check for *)

(** C1, at the failing inputs.  Each frame is normalized and lacks a column
    the window reads; the window raises [KeyError] instead of returning an
    empty table. *)
Theorem windows_raise_on_missing_column :
  (normalized Sample.dates_only = true
   /\ compute_weekly_revenue Sample.dates_only = Raise (KeyError "revenue"))
  /\ (normalized Sample.dates_and_items = true
      /\ compute_trending_items Sample.dates_and_items
         = Raise (KeyError "units_sold"))
  /\ (normalized Sample.stock_without_sales = true
      /\ compute_reorder_list Sample.stock_without_sales
         = Raise (KeyError "units_sold")).
Proof. repeat split; reflexivity. Qed.

(** The sibling windows do check: without [revenue] they return empty. *)
Example guarded_windows_return_empty :
  compute_daily_financials Sample.dates_only = Ok []
  /\ compute_anomalies Sample.sqrt Sample.dates_only = Ok [].
Proof. split; reflexivity. Qed.

(** C2, at the failing input.  The frame is normalized, has
    [inventory_on_hand] and none of [item], [sku], [category]; grouping by
    no key raises instead of returning an empty table. *)
Theorem compute_reorder_list_raises_without_item_columns :
  normalized Sample.stock_without_items = true
  /\ has_column "inventory_on_hand" Sample.stock_without_items = true
  /\ reorder_item_cols Sample.stock_without_items = []
  /\ compute_reorder_list Sample.stock_without_items
     = Raise (ValueError "No group keys passed!").
Proof. repeat split; reflexivity. Qed.

(** Columns of a rectangular frame. *)

Lemma get_column_In col df s : get_column col df = Ok s -> In (col, s) df.
Proof.
  unfold get_column, select.
  induction df as [|[n c] df IH]; simpl; [discriminate|].
  destruct (String.eqb_spec col n) as [->|Hn]; simpl.
  - destruct (map snd (filter _ df)); [|discriminate].
    intros [= ->]. now left.
  - intros H. right. now apply IH.
Qed.

Lemma get_column_has_column col df s :
  get_column col df = Ok s -> has_column col df = true.
Proof.
  intros H. apply get_column_In in H.
  unfold has_column, columns. apply existsb_exists.
  exists col. split; [|apply String.eqb_refl].
  apply in_map_iff. now exists (col, s).
Qed.

Lemma get_column_length col df s :
  rectangular df = true -> get_column col df = Ok s -> length s = nrows df.
Proof.
  unfold rectangular. intros Hr H. apply get_column_In in H.
  rewrite forallb_forall in Hr.
  apply Hr in H. now apply Nat.eqb_eq in H.
Qed.

Lemma normalized_rectangular df : normalized df = true -> rectangular df = true.
Proof.
  unfold normalized. intros H.
  now apply andb_true_iff in H as [_ H].
Qed.

(** That is what happens on every frame with a row, a [units_sold] column
    and no item column. *)
Lemma compute_reorder_list_no_keys df units inv :
  rectangular df = true ->
  (0 < nrows df)%nat ->
  reorder_item_cols df = [] ->
  get_column "units_sold" df = Ok units ->
  get_column "inventory_on_hand" df = Ok inv ->
  compute_reorder_list df = Raise (ValueError "No group keys passed!").
Proof.
  intros Hr Hn Hcols Hunits Hinv.
  pose proof (get_column_length _ _ _ Hr Hunits) as Lu.
  pose proof (get_column_length _ _ _ Hr Hinv) as Li.
  unfold compute_reorder_list.
  rewrite (get_column_has_column _ _ _ Hinv), Hcols, Hunits, Hinv.
  cbn [negb bind get_columns].
  destruct (nrows df) as [|n]; [lia|].
  destruct units as [|u units]; [discriminate|].
  destruct inv as [|i inv]; [discriminate|].
  cbn [transpose map combine].
  set (recent := filter _ _).
  destruct recent as [|r recent]; cbn [groupby_rows bind]; reflexivity.
Qed.

Lemma compute_reorder_list_no_keys_witness :
  rectangular Sample.stock_without_items = true
  /\ (0 < nrows Sample.stock_without_items)%nat
  /\ compute_reorder_list Sample.stock_without_items
     = Raise (ValueError "No group keys passed!").
Proof.
  split; [reflexivity|]. split; [simpl; lia|].
  apply (compute_reorder_list_no_keys Sample.stock_without_items
           [Sample.num 10] [Sample.num 5]);
    try reflexivity.
  simpl; lia.
Defined.

(** ** Actions *)

(** C5, at the failing input.  The frame is normalized; [build_actions]
    raises the [KeyError] of [compute_reorder_list] instead of returning a
    list of actions. *)
Theorem build_actions_raises_without_units_sold :
  normalized Sample.stock_without_sales = true
  /\ build_actions Sample.stock_without_sales
     = Raise (KeyError "units_sold").
Proof. split; reflexivity. Qed.

(** When [build_actions] returns, the list is not empty: with no reorder
    and no revenue-drop action it is the single fallback. *)
Lemma build_actions_nonempty df actions :
  build_actions df = Ok actions -> actions <> [].
Proof.
  unfold build_actions. intros H.
  inv_bind H. inv_bind H.
  destruct (map _ (head 3 x) ++ x0) as [|a l] eqn:El;
    inv_Ok H; discriminate.
Qed.

Lemma build_actions_fallback df :
  has_column "inventory_on_hand" df = false ->
  has_column "revenue" df = false ->
  build_actions df = Ok [WeekendPromo].
Proof.
  intros Hi Hr. unfold build_actions, compute_reorder_list.
  now rewrite Hi, Hr.
Qed.

(** ** Metrics *)

Lemma existsb_present_combine (item revenue : Series) :
  length item = length revenue ->
  dropna_key (combine item revenue) = []
  <-> existsb (fun c => negb (isna c)) item = false.
Proof.
  unfold dropna_key. revert revenue.
  induction item as [|c item IH]; intros [|r revenue] Hlen;
    try discriminate; simpl; [tauto|].
  destruct (negb (isna c)); simpl.
  - split; discriminate.
  - apply IH. now injection Hlen.
Qed.

Lemma unique_nil {K : Type} (keqb : K -> K -> bool) l :
  unique keqb l = [] <-> l = [].
Proof. destruct l; simpl; split; congruence. Qed.

Lemma groupby_agg_nil {K V R : Type} (keqb kleb : K -> K -> bool)
    (agg : list V -> R) rows :
  groupby_agg keqb kleb agg rows = [] <-> rows = [].
Proof.
  unfold groupby_agg. split.
  - intros H. apply (f_equal (@length _)) in H.
    rewrite length_map, sort_length in H.
    apply length_zero_iff_nil, unique_nil in H.
    now apply map_eq_nil in H.
  - now intros ->.
Qed.

Lemma sort_nil {A : Type} (leb : A -> A -> bool) l :
  sort leb l = [] <-> l = [].
Proof.
  split; [|now intros ->].
  intros H. apply (f_equal (@length _)) in H.
  rewrite sort_length in H. now apply length_zero_iff_nil.
Qed.

(** C3 (as amended).  When [build_metrics] returns on a normalized frame,
    its list has a top-item entry exactly when the frame has an [item]
    column with at least one value that is not missing; the frame then has
    a [revenue] column as well. *)
Theorem build_metrics_top_item (df : DataFrame) (ms : list metric) :
  normalized df = true ->
  build_metrics df = Ok ms ->
  (has_top_item ms = true <->
   exists item, get_column "item" df = Ok item
                /\ existsb (fun c => negb (isna c)) item = true)
  /\ (has_top_item ms = true ->
      has_column "item" df = true /\ has_column "revenue" df = true).
Proof.
  intros Hn H. apply normalized_rectangular in Hn.
  unfold build_metrics in H.
  inv_bind H. inv_bind H. inv_bind H. inv_bind H. inv_bind H. inv_Ok H.
  assert (T0 : has_top_item x = false).
  { destruct (has_column "revenue" df); [inv_bind E|]; now inv_Ok E. }
  assert (T2 : has_top_item x1 = false).
  { destruct (has_column "revenue" df); [inv_bind E1|]; now inv_Ok E1. }
  assert (T3 : has_top_item x2 = false).
  { destruct (has_column "units_sold" df); [inv_bind E2|]; now inv_Ok E2. }
  assert (T : has_top_item
                (x ++ [mk_metric "Total expenses" (Dollars x0)]
                   ++ x1 ++ x2 ++ x3) = has_top_item x3).
  { unfold has_top_item in *.
    rewrite !existsb_app, T0, T2, T3. reflexivity. }
  rewrite T. clear T T0 T2 T3 E E0 E1 E2.
  destruct (has_column "item" df) eqn:Hitem.
  - inv_bind E3. inv_bind E3.
    rename x4 into item, x5 into revenue.
    pose proof (get_column_length _ _ _ Hn E) as Li.
    pose proof (get_column_length _ _ _ Hn E0) as Lr.
    pose proof (existsb_present_combine item revenue
                  (eq_trans Li (eq_sym Lr))) as Hrows.
    set (rows := map (fun r => (fst r, as_num (snd r)))
                     (dropna_key (combine item revenue))) in E3.
    destruct (sort_values_desc Qle_bool snd
                (groupby_agg cell_eqb cell_leb nansum rows))
      as [|[name v] rest] eqn:Etop.
    + inv_Ok E3.
      apply sort_nil, groupby_agg_nil, map_eq_nil in Etop.
      apply Hrows in Etop.
      split; [|discriminate].
      split; [discriminate|].
      intros (item' & Hi & Hex). congruence.
    + inv_Ok E3.
      assert (Hex : existsb (fun c => negb (isna c)) item = true).
      { destruct (existsb (fun c => negb (isna c)) item) eqn:Ex;
          [reflexivity|].
        pose proof (proj2 Hrows eq_refl) as Ex'.
        unfold rows in Etop. rewrite Ex' in Etop.
        discriminate. }
      split.
      * split; [|reflexivity]. intros _. now exists item.
      * intros _. split; [reflexivity|].
        now apply get_column_has_column in E0.
  - inv_Ok E3. split; [|discriminate].
    split; [discriminate|].
    intros (item & Hi & _).
    apply get_column_has_column in Hi. congruence.
Qed.

Lemma build_metrics_top_item_witness :
  normalized Sample.sales = true
  /\ exists ms,
      build_metrics Sample.sales = Ok ms
      /\ (has_top_item ms = true <->
          exists item, get_column "item" Sample.sales = Ok item
                       /\ existsb (fun c => negb (isna c)) item = true)
      /\ (has_top_item ms = true ->
          has_column "item" Sample.sales = true
          /\ has_column "revenue" Sample.sales = true).
Proof.
  split; [reflexivity|].
  eexists. split; [vm_compute; reflexivity|].
  apply (build_metrics_top_item Sample.sales); reflexivity.
Defined.

(** C3 as stated fails.  A header-only export has both columns and no top
    item, by the guard on the empty ranking; and with [item] but no
    [revenue], [build_metrics] raises instead of returning. *)
Lemma build_metrics_top_item_not_by_columns :
  (normalized Sample.no_rows = true
   /\ has_column "item" Sample.no_rows = true
   /\ has_column "revenue" Sample.no_rows = true
   /\ exists ms, build_metrics Sample.no_rows = Ok ms
                 /\ has_top_item ms = false)
  /\ (normalized Sample.items_only = true
      /\ has_column "item" Sample.items_only = true
      /\ has_column "revenue" Sample.items_only = false
      /\ build_metrics Sample.items_only = Raise (KeyError "revenue")).
Proof.
  split.
  - repeat split. eexists. split; reflexivity.
  - repeat split.
Qed.

(** ** Answer Engine *)

Lemma Qlt_bool_true a b : (a < b)%Q -> Qlt_bool a b = true.
Proof.
  intros H. unfold Qlt_bool.
  destruct (Qle_bool b a) eqn:E; [|reflexivity].
  apply Qle_bool_iff in E. now apply Qlt_not_le in H.
Qed.

Lemma drop_percent_negative last prev :
  (0 < prev)%Q -> (prev < last)%Q -> (drop_percent last prev < 0)%Q.
Proof.
  intros Hp Hl. unfold drop_percent.
  assert (H : ((prev - last) / prev < 0)%Q).
  { apply Qlt_shift_div_r; [exact Hp|]. lra. }
  lra.
Qed.

(** C9.  On a normalized frame whose Weekly Revenue has at least two weeks,
    the earlier of the last two with positive revenue, a question that
    contains "revenue" and "drop" gets the week-over-week answer of the
    first branch, whatever the direction of the change: when the last week
    is the higher one, the percentage reported is negative. *)
Theorem rule_based_answer_revenue_drop (sqrt : Q -> Q) (question : string)
    (df : DataFrame) (weekly : list (Z * Q)) (last prev : Z * Q) :
  normalized df = true ->
  compute_weekly_revenue df = Ok weekly ->
  (2 <= length weekly)%nat ->
  iloc_neg 1 weekly = Some last ->
  iloc_neg 2 weekly = Some prev ->
  (0 < snd prev)%Q ->
  PyStr.contains "revenue" question = true ->
  PyStr.contains "drop" question = true ->
  rule_based_answer sqrt question df
  = Ok (RevenueFell (drop_percent (snd last) (snd prev)) (snd last) (snd prev))
  /\ ((snd prev < snd last)%Q ->
      (drop_percent (snd last) (snd prev) < 0)%Q).
Proof.
  intros _ Hw Hlen Hlast Hprev Hpos Hrev Hdrop.
  split; [|now apply drop_percent_negative].
  unfold rule_based_answer. rewrite Hw. cbn [bind].
  rewrite (PyStrFacts.contains_lower "revenue" question eq_refl Hrev).
  rewrite (PyStrFacts.contains_lower "drop" question eq_refl Hdrop).
  apply Nat.leb_le in Hlen. rewrite Hlen. cbn [andb].
  rewrite Hlast, Hprev, (Qlt_bool_true _ _ Hpos).
  reflexivity.
Qed.

Lemma rule_based_answer_revenue_drop_witness :
  normalized Sample.sales = true
  /\ rule_based_answer Sample.sqrt "Did revenue drop last week?" Sample.sales
     = Ok (RevenueFell
             (drop_percent (inject_Z 10100) (inject_Z 300))
             (inject_Z 10100) (inject_Z 300))
  /\ (drop_percent (inject_Z 10100) (inject_Z 300) < 0)%Q.
Proof.
  split; [reflexivity|].
  destruct (rule_based_answer_revenue_drop Sample.sqrt
              "Did revenue drop last week?" Sample.sales
              [(1704067200000000000%Z, inject_Z 500);
               (1704672000000000000%Z, inject_Z 300);
               (1705276800000000000%Z, inject_Z 10100)]
              (1705276800000000000%Z, inject_Z 10100)
              (1704672000000000000%Z, inject_Z 300)) as [Ha Hd];
    try reflexivity.
  - simpl; lia.
  - split; [exact Ha|]. apply Hd. reflexivity.
Defined.

(** ** Group-by *)

Section GroupByFacts.

Context {K V : Type} (keqb kleb : K -> K -> bool).

Lemma In_unique k l : In k (unique keqb l) -> In k l.
Proof.
  induction l as [|x l IH]; simpl; [tauto|].
  intros [H|H]; [now left|].
  apply filter_In in H as [H _]. right. now apply IH.
Qed.

Lemma In_group_values k v (rows : list (K * V)) :
  In v (group_values keqb k rows) -> In v (map snd rows).
Proof.
  unfold group_values. intros H.
  apply in_map_iff in H as (r & <- & Hr).
  apply filter_In in Hr as [Hr _]. now apply in_map.
Qed.

Lemma find_keys {R : Type} (g : K -> R) k keys :
  find (fun r => keqb k (fst r)) (map (fun k' => (k', g k')) keys)
  = option_map (fun k' => (k', g k')) (find (keqb k) keys).
Proof.
  induction keys as [|x keys IH]; simpl; [reflexivity|].
  destruct (keqb k x); [reflexivity | exact IH].
Qed.

(** An entry of a grouped table aggregates the values of its key. *)
Lemma lookup_groupby_agg_Some {R : Type} (agg : list V -> R) k v rows :
  lookup keqb k (groupby_agg keqb kleb agg rows) = Some v ->
  exists k', keqb k k' = true /\ In k' (map fst rows)
             /\ v = agg (group_values keqb k' rows).
Proof.
  unfold lookup, groupby_agg. rewrite find_keys.
  destruct (find (keqb k) _) as [k'|] eqn:F; [|discriminate].
  simpl. intros [= <-].
  apply find_some in F as [Hin Hk].
  exists k'. repeat split; [exact Hk|].
  apply In_unique.
  eapply Permutation_in; [apply sort_perm | exact Hin].
Qed.

Hypothesis keqb_sym : forall a b, keqb a b = keqb b a.
Hypothesis keqb_trans :
  forall a b c, keqb a b = true -> keqb b c = true -> keqb a c = true.

Lemma keqb_congr a b x : keqb a b = true -> keqb b x = keqb a x.
Proof.
  intros Hab.
  destruct (keqb a x) eqn:Hax.
  - apply (keqb_trans b a x); [now rewrite keqb_sym | exact Hax].
  - destruct (keqb b x) eqn:Hbx; [|reflexivity].
    now rewrite (keqb_trans a b x Hab Hbx) in Hax.
Qed.

(** Every key has a representative among the first occurrences. *)
Lemma unique_represents x l :
  In x l -> exists y, In y (unique keqb l) /\ (y = x \/ keqb y x = true).
Proof.
  induction l as [|k l IH]; simpl; [tauto|].
  intros [->|Hx].
  - exists x. split; [now left | now left].
  - destruct (IH Hx) as (y & Hy & Hyx).
    destruct (keqb k y) eqn:Hky.
    + exists k. split; [now left|]. right.
      destruct Hyx as [->|Hyx]; [exact Hky|].
      exact (keqb_trans k y x Hky Hyx).
    + exists y. split; [|exact Hyx].
      right. apply filter_In. split; [exact Hy|]. now rewrite Hky.
Qed.

Lemma lookup_groupby_agg {R : Type} (agg : list V -> R) k rows :
  lookup keqb k (groupby_agg keqb kleb agg rows)
  = if existsb (fun r => keqb k (fst r)) rows
    then Some (agg (group_values keqb k rows))
    else None.
Proof.
  destruct (lookup keqb k (groupby_agg keqb kleb agg rows)) as [v|] eqn:L.
  - apply lookup_groupby_agg_Some in L as (k' & Hk & Hin & ->).
    assert (E : existsb (fun r => keqb k (fst r)) rows = true).
    { apply existsb_exists.
      apply in_map_iff in Hin as (r & <- & Hr). now exists r. }
    rewrite E. f_equal. f_equal. unfold group_values. f_equal.
    apply filter_ext. intros r. now apply keqb_congr.
  - destruct (existsb (fun r => keqb k (fst r)) rows) eqn:E; [|reflexivity].
    exfalso.
    apply existsb_exists in E as (r & Hr & Hkr).
    destruct (unique_represents (fst r) (map fst rows) (in_map fst _ _ Hr))
      as (y & Hy & Hyr).
    assert (Hky : keqb k y = true).
    { destruct Hyr as [->|Hyr]; [exact Hkr|].
      apply (keqb_trans k (fst r) y Hkr). now rewrite keqb_sym. }
    unfold lookup, groupby_agg in L. rewrite find_keys in L.
    destruct (find (keqb k) _) as [k'|] eqn:F; [discriminate|].
    eapply find_none in F;
      [|eapply Permutation_in; [symmetry; apply sort_perm | exact Hy]].
    congruence.
Qed.

End GroupByFacts.

Lemma existsb_false_filter {A : Type} (p : A -> bool) l :
  existsb p l = false -> filter p l = [].
Proof.
  induction l as [|x l IH]; simpl; [reflexivity|].
  destruct (p x); simpl; [discriminate | exact IH].
Qed.

(** A grouped sum, with 0 for a key that has no rows. *)
Lemma lookup_groupby_sum {K : Type} (keqb kleb : K -> K -> bool) k
    (rows : list (K * option Q)) :
  (forall a b, keqb a b = keqb b a) ->
  (forall a b c, keqb a b = true -> keqb b c = true -> keqb a c = true) ->
  fillna0 (lookup keqb k (groupby_agg keqb kleb nansum rows))
  = nansum (group_values keqb k rows).
Proof.
  intros Hs Ht. rewrite (lookup_groupby_agg keqb kleb Hs Ht).
  destruct (existsb _ rows) eqn:E; [reflexivity|].
  unfold group_values.
  now rewrite (existsb_false_filter _ _ E).
Qed.

Lemma cell_eqb_sym a b : cell_eqb a b = cell_eqb b a.
Proof.
  destruct a, b; simpl; try reflexivity.
  - apply String.eqb_sym.
  - destruct (Qeq_bool q q0) eqn:E, (Qeq_bool q0 q) eqn:E'; try reflexivity.
    + apply Qeq_bool_iff in E. symmetry in E.
      apply Qeq_bool_iff in E. congruence.
    + apply Qeq_bool_iff in E'. symmetry in E'.
      apply Qeq_bool_iff in E'. congruence.
  - apply Z.eqb_sym.
Qed.

Lemma cell_eqb_trans a b c :
  cell_eqb a b = true -> cell_eqb b c = true -> cell_eqb a c = true.
Proof.
  destruct a, b, c; simpl; try discriminate.
  - rewrite !String.eqb_eq. congruence.
  - rewrite !Qeq_bool_iff. apply Qeq_trans.
  - rewrite !Z.eqb_eq. congruence.
Qed.

Lemma cell_eqb_present a b : cell_eqb a b = true -> isna b = false.
Proof. destruct a, b; simpl; congruence. Qed.

(** ** Trending items: the two windows *)

(** The sales of an item within a window, as the group-by sees them. *)
Lemma item_sales_units (inw : Z -> bool) k rows :
  fillna0 (lookup cell_eqb k
             (item_sales (filter (fun r => inw (fst r)) rows)))
  = units_in_window inw k rows.
Proof.
  unfold item_sales, units_in_window.
  rewrite (lookup_groupby_sum cell_eqb cell_leb k _
             cell_eqb_sym cell_eqb_trans).
  f_equal. unfold group_values, dropna_key.
  induction rows as [|[d [it u]] rows IH]; simpl; [reflexivity|].
  destruct (inw d); simpl; [|exact IH].
  destruct (cell_eqb k it) eqn:Ek; simpl.
  - rewrite (cell_eqb_present k it Ek). simpl.
    rewrite Ek. simpl. now rewrite IH.
  - destruct (isna it); simpl; [exact IH|].
    rewrite Ek. exact IH.
Qed.

Lemma in_last_week_window last_date t :
  in_last_week last_date t = last_week_window last_date t.
Proof. reflexivity. Qed.

Lemma in_prior_week_window last_date t :
  in_prior_week last_date t = prior_week_window last_date t.
Proof.
  unfold in_prior_week, prior_week_window, timedelta.
  replace (last_date - 6 * day - 7 * day)%Z with (last_date - 13 * day)%Z
    by lia.
  reflexivity.
Qed.

(** C6 (as amended).  In every row of Trending Items, [last_week] is the
    sum of the item's [units_sold] over the dates in
    [[last_date - 6 days, last_date]], [prior_week] is that sum over
    [[last_date - 13 days, last_date - 6 days)], an item without rows in a
    window counting as 0 there, and [change = last_week - prior_week]. *)
Theorem trending_items_windows (df : DataFrame) (date item units : Series)
    (last_date : Z) (trend : list trend_row) :
  normalized df = true ->
  get_column "date" df = Ok date ->
  get_column "item" df = Ok item ->
  get_column "units_sold" df = Ok units ->
  max_date (dropna (map as_date date)) = Some last_date ->
  compute_trending_items df = Ok trend ->
  Forall (fun row =>
            last_week row
            = units_in_window (last_week_window last_date) (t_item row)
                (trend_rows date item units)
            /\ prior_week row
               = units_in_window (prior_week_window last_date) (t_item row)
                   (trend_rows date item units)
            /\ change row = (last_week row - prior_week row)%Q)
         trend.
Proof.
  intros _ Hdate Hitem Hunits Hmax H.
  unfold compute_trending_items in H.
  rewrite (get_column_has_column _ _ _ Hdate),
    (get_column_has_column _ _ _ Hitem), Hdate in H.
  cbn [negb orb bind] in H.
  rewrite Hmax, Hitem, Hunits in H. cbn [bind] in H.
  inv_Ok H.
  apply Forall_forall. intros row Hrow.
  apply head_incl in Hrow.
  unfold sort_values_desc in Hrow.
  eapply Permutation_in in Hrow; [|apply sort_perm].
  apply in_map_iff in Hrow as (k & <- & _).
  cbn [last_week prior_week change t_item].
  rewrite (item_sales_units (in_last_week last_date)).
  rewrite (item_sales_units (in_prior_week last_date)).
  unfold units_in_window.
  repeat split.
  f_equal. f_equal. apply filter_ext. intros r.
  now rewrite in_prior_week_window.
Qed.

Lemma trending_items_windows_witness :
  normalized Sample.widget_weeks = true
  /\ Forall (fun row =>
               last_week row
               = units_in_window (last_week_window (19737 * day)) (t_item row)
                   (trend_rows [Sample.jan 8; Sample.jan 15]
                      [CStr "Widget"; CStr "Widget"]
                      [Sample.num 20; Sample.num 50])
               /\ prior_week row
                  = units_in_window (prior_week_window (19737 * day))
                      (t_item row)
                      (trend_rows [Sample.jan 8; Sample.jan 15]
                         [CStr "Widget"; CStr "Widget"]
                         [Sample.num 20; Sample.num 50])
               /\ change row = (last_week row - prior_week row)%Q)
            [mk_trend (CStr "Widget") (inject_Z 50) (inject_Z 20)
               (inject_Z 50 - inject_Z 20)%Q].
Proof.
  split; [reflexivity|].
  apply (trending_items_windows Sample.widget_weeks
           [Sample.jan 8; Sample.jan 15] [CStr "Widget"; CStr "Widget"]
           [Sample.num 20; Sample.num 50] (19737 * day)%Z);
    reflexivity.
Defined.

(** C6 as stated fails.  Widget sold 20 units exactly seven days before
    the last date.  The half-open interval of the specification leaves that
    day out, so it gives Widget a prior week of 0; the code counts the day
    and reports 20 (and a change of 30, not 50). *)
Lemma trending_items_prior_week_counts_day_7 :
  normalized Sample.widget_weeks = true
  /\ compute_trending_items Sample.widget_weeks
     = Ok [mk_trend (CStr "Widget") (inject_Z 50) (inject_Z 20)
             (inject_Z 50 - inject_Z 20)%Q]
  /\ stated_prior_week_window (19737 * day) (19737 * day - timedelta 7) = false
  /\ in_prior_week (19737 * day) (19737 * day - timedelta 7) = true
  /\ units_in_window (stated_prior_week_window (19737 * day)) (CStr "Widget")
       (trend_rows [Sample.jan 8; Sample.jan 15]
          [CStr "Widget"; CStr "Widget"] [Sample.num 20; Sample.num 50])
     = 0%Q.
Proof. repeat split. Qed.

(** ** Reorder list: the guarded quotient *)

Lemma Qsum_nonneg l : Forall (fun q => (0 <= q)%Q) l -> (0 <= Qsum l)%Q.
Proof.
  induction 1 as [|q l Hq Hl IH]; simpl; [apply Qle_refl|].
  change 0%Q with (0 + 0)%Q. now apply Qplus_le_compat.
Qed.

Lemma Qmean_nonneg l :
  l <> [] -> Forall (fun q => (0 <= q)%Q) l -> (0 <= Qmean l)%Q.
Proof.
  intros Hne Hl. unfold Qmean.
  apply Qle_shift_div_l.
  - destruct l as [|q l]; [contradiction|].
    unfold Qlt. simpl. lia.
  - rewrite Qmult_0_l. now apply Qsum_nonneg.
Qed.

Lemma In_dropna {A : Type} (a : A) l : In a (dropna l) -> In (Some a) l.
Proof.
  induction l as [|[b|] l IH]; simpl; [tauto| |]; intros H.
  - destruct H as [->|H]; [now left | right; now apply IH].
  - right. now apply IH.
Qed.

Lemma nanmean_nonneg l m :
  (forall q, In (Some q) l -> (0 <= q)%Q) ->
  nanmean l = Some m -> (0 <= m)%Q.
Proof.
  unfold nanmean. intros Hl.
  destruct (dropna l) as [|q v] eqn:E; [discriminate|].
  intros [= <-]. apply Qmean_nonneg; [discriminate|].
  apply Forall_forall. intros x Hx. apply Hl, In_dropna.
  now rewrite E.
Qed.

Lemma groupby_rows_incl {A : Type} cols (obj x : list (list cell * A)) r :
  groupby_rows cols obj = Ok x -> In r x -> In r obj.
Proof.
  unfold groupby_rows.
  destruct cols, obj; intros H; try discriminate; inv_Ok H;
    intros Hr; now apply filter_In in Hr.
Qed.

(** C7 (as amended).  Every row of the Reorder List has
    [weeks_of_cover = inventory_on_hand / (avg_daily_units * 7 + 1e-6)].
    The divisor is exactly zero only for [avg_daily_units * 7 = -1e-6]; for
    [avg_daily_units >= 0] it is at least [1e-6], which covers
    [avg_daily_units = 0]; and on a frame without negative [units_sold]
    every row has [avg_daily_units >= 0].  So the guard rules out the
    division by zero there.  It does not make the quotient finite: with a
    divisor of [1e-6] an inventory beyond [1.8e302] overflows binary64. *)
Theorem weeks_of_cover_divisor (df : DataFrame) (units : Series)
    (rows : list reorder_row) :
  normalized df = true ->
  get_column "units_sold" df = Ok units ->
  compute_reorder_list df = Ok rows ->
  Forall (fun row =>
            weeks_of_cover row
            = xdiv (inventory_on_hand row)
                   (cover_divisor (avg_daily_units row))
            /\ ((cover_divisor (avg_daily_units row) == 0)%Q
                <-> (avg_daily_units row * 7 == - eps)%Q)
            /\ ((0 <= avg_daily_units row)%Q ->
                (eps <= cover_divisor (avg_daily_units row))%Q)
            /\ (no_negative_units units = true ->
                (0 <= avg_daily_units row)%Q))
         rows.
Proof.
  intros _ Hunits H.
  unfold compute_reorder_list in H.
  destruct (negb (has_column "inventory_on_hand" df)).
  { inv_Ok H. constructor. }
  rewrite Hunits in H. cbn [bind] in H.
  do 4 inv_bind H. inv_Ok H.
  apply Forall_forall. intros row Hrow.
  apply head_incl in Hrow.
  unfold sort_values in Hrow.
  eapply Permutation_in in Hrow; [|apply sort_perm].
  apply in_map_iff in Hrow as (k & <- & _).
  cbn [avg_daily_units inventory_on_hand weeks_of_cover].
  set (avg := fillna0 _).
  split; [reflexivity|].
  split; [unfold cover_divisor; split; intros Hz; lra|].
  split; [unfold cover_divisor; intros Hz; lra|].
  intros Hpos. subst avg.
  match goal with
  | |- (0 <= fillna0 match ?l with _ => _ end)%Q =>
      destruct l as [[m|]|] eqn:L
  end; try apply Qle_refl.
  apply lookup_groupby_agg_Some in L as (k' & _ & _ & Hm).
  symmetry in Hm. revert Hm. apply nanmean_nonneg.
  intros q Hq.
  apply In_group_values in Hq.
  rewrite map_map in Hq. cbn [snd] in Hq.
  apply in_map_iff in Hq as ([kr ur] & Hr & Hin). cbn [snd] in Hr.
  eapply groupby_rows_incl in Hin; [|exact E0].
  apply filter_In in Hin as [Hin _].
  apply in_combine_r in Hin.
  unfold no_negative_units in Hpos. rewrite forallb_forall in Hpos.
  specialize (Hpos _ Hin). rewrite Hr in Hpos.
  now apply Qle_bool_iff.
Qed.

Lemma weeks_of_cover_divisor_witness :
  normalized Sample.sales = true
  /\ exists units rows,
      get_column "units_sold" Sample.sales = Ok units
      /\ no_negative_units units = true
      /\ compute_reorder_list Sample.sales = Ok rows
      /\ length rows = 4%nat
      /\ Forall (fun row =>
                   weeks_of_cover row
                   = xdiv (inventory_on_hand row)
                          (cover_divisor (avg_daily_units row))
                   /\ ((cover_divisor (avg_daily_units row) == 0)%Q
                       <-> (avg_daily_units row * 7 == - eps)%Q)
                   /\ ((0 <= avg_daily_units row)%Q ->
                       (eps <= cover_divisor (avg_daily_units row))%Q)
                   /\ (no_negative_units units = true ->
                       (0 <= avg_daily_units row)%Q))
                rows.
Proof.
  split; [reflexivity|].
  do 2 eexists. split; [reflexivity|]. split; [reflexivity|].
  split; [vm_compute; reflexivity|].
  split; [reflexivity|].
  apply (weeks_of_cover_divisor Sample.sales); reflexivity.
Defined.

(** The case the claim singles out: no demand at all. *)
Example cover_divisor_at_zero : (cover_divisor 0 == eps)%Q /\ (0 < eps)%Q.
Proof. split; reflexivity. Qed.

(** C7 as stated fails.  A return booked as [-1/7000000] units gives
    [avg_daily_units * 7 = -1e-6]; the guard cancels it, the divisor is
    exactly zero and [weeks_of_cover] is infinite. *)
Lemma weeks_of_cover_infinite_on_tiny_return :
  normalized Sample.tiny_return = true
  /\ exists row,
      compute_reorder_list Sample.tiny_return = Ok [row]
      /\ (cover_divisor (avg_daily_units row) == 0)%Q
      /\ weeks_of_cover row = PosInf
      /\ is_finite (weeks_of_cover row) = false.
Proof.
  split; [reflexivity|].
  eexists. split; [vm_compute; reflexivity|].
  repeat split.
Qed.


(** ** The scenarios of the specification *)

(** A: constant revenue has no anomalies. *)
Example scenario_flat_revenue :
  compute_anomalies Sample.sqrt Sample.flat_revenue = Ok [].
Proof. vm_compute. reflexivity. Qed.

(** B: revenue 1000 then 500 is reported as a drop of 50 percent. *)
Example scenario_halved_revenue :
  exists drop,
    build_actions Sample.halved_revenue = Ok [RevenueDropped drop]
    /\ (drop == 50)%Q.
Proof. eexists. split; [vm_compute; reflexivity | reflexivity]. Qed.

(** C: without [inventory_on_hand] there is no reorder list and the
    fallback action is used. *)
Example scenario_no_inventory :
  compute_reorder_list Sample.items_only = Ok []
  /\ build_actions Sample.items_only = Ok [WeekendPromo].
Proof. split; reflexivity. Qed.

(** D: the reorder question names the item, 5 on hand, 10 a day. *)
Example scenario_reorder_question :
  rule_based_answer Sample.sqrt "Any reorder concerns?" Sample.one_item
  = Ok (UrgentReorder (CStr "Widget") (inject_Z 5) (inject_Z 10)).
Proof. vm_compute. reflexivity. Qed.

(** E: Widget with 50 units last week and 20 the week before has a change
    of 30. *)
Example scenario_widget_trend :
  exists row,
    compute_trending_items Sample.widget_weeks = Ok [row]
    /\ (last_week row == 50)%Q /\ (prior_week row == 20)%Q
    /\ (change row == 30)%Q.
Proof. eexists. split; [vm_compute; reflexivity | repeat split]. Qed.

(** The same cancellation in binary64, where [1e-6] is the float
    [0x1.0c6f7a0b5ed8dp-20]: for [units_sold = -(1e-6 / 7)], printed
    [-1.4285714285714285e-07], the divisor is exactly [0.0] and an
    inventory of 12 gives an infinite cover. *)
Module Binary64.
Import PrimFloat.

Example cover_divisor_vanishes :
  let guard := 0x1.0c6f7a0b5ed8dp-20%float in
  let avg := opp (div guard 7%float) in
  let divisor := add (mul avg 7%float) guard in
  eqb divisor 0%float = true
  /\ div 12%float divisor = infinity.
Proof. split; reflexivity. Qed.

(** With no demand the divisor is the guard itself, positive, and an
    inventory of [2^1010], about [1.1e304], still gives an infinite cover:
    the quotient overflows. *)
Example cover_overflows :
  let guard := 0x1.0c6f7a0b5ed8dp-20%float in
  let divisor := add (mul 0%float 7%float) guard in
  ltb 0%float divisor = true
  /\ div 0x1p1010%float divisor = infinity.
Proof. split; reflexivity. Qed.

End Binary64.

(** ** When the windows return *)

Lemma get_column_absent col df :
  has_column col df = false -> get_column col df = Raise (KeyError col).
Proof.
  intros H. unfold get_column.
  now rewrite (has_column_false_select col df H).
Qed.

Lemma normalized_at_most_once col df :
  normalized df = true -> In col coerced_columns ->
  at_most_once col df = true.
Proof.
  unfold normalized. intros H Hin.
  apply andb_true_iff in H as [H _].
  apply andb_true_iff in H as [_ H].
  rewrite forallb_forall in H. now apply H.
Qed.

(** On a normalized frame a coerced column that is present can be read. *)
Lemma get_column_coerced col df :
  normalized df = true -> In col coerced_columns ->
  has_column col df = true -> exists s, get_column col df = Ok s.
Proof.
  intros Hn Hin Hc.
  pose proof (normalized_at_most_once col df Hn Hin) as Hu.
  pose proof (has_column_true_select col df Hc) as Hne.
  unfold at_most_once in Hu. unfold get_column.
  destruct (select col df) as [|s [|s' l]]; simpl in *.
  - now contradiction Hne.
  - now exists s.
  - discriminate.
Qed.

Ltac coerced := unfold coerced_columns; simpl; tauto.

(** The four ways through Weekly Revenue on a normalized frame. *)
Lemma compute_weekly_revenue_cases (df : DataFrame) :
  normalized df = true ->
  if negb (has_column "date" df) then compute_weekly_revenue df = Ok []
  else if negb (at_most_once "week" df)
       then compute_weekly_revenue df = Raise (not_1_dimensional "week")
       else if negb (has_column "revenue" df)
            then compute_weekly_revenue df = Raise (KeyError "revenue")
            else returns (compute_weekly_revenue df).
Proof.
  intros Hn. unfold compute_weekly_revenue, returns.
  destruct (has_column "date" df) eqn:Hd; cbn [negb]; [|reflexivity].
  destruct (get_column_coerced "date" df Hn) as [date Ed];
    [coerced | exact Hd |].
  rewrite Ed. cbn [bind].
  destruct (at_most_once "week" df); cbn [negb]; [|reflexivity].
  destruct (has_column "revenue" df) eqn:Hr; cbn [negb].
  - destruct (get_column_coerced "revenue" df Hn) as [rev Er];
      [coerced | exact Hr |].
    rewrite Er. cbn [bind]. eauto.
  - now rewrite (get_column_absent "revenue" df Hr).
Qed.



Lemma compute_daily_financials_returns df :
  normalized df = true -> returns (compute_daily_financials df).
Proof.
  intros Hn. unfold returns, compute_daily_financials.
  destruct (has_column "date" df) eqn:Hd; cbn [negb orb]; [|eauto].
  destruct (has_column "revenue" df) eqn:Hr; cbn [negb orb]; [|eauto].
  destruct (get_column_coerced "date" df Hn) as [date Ed];
    [coerced | exact Hd |].
  destruct (get_column_coerced "revenue" df Hn) as [rev Er];
    [coerced | exact Hr |].
  rewrite Ed, Er. cbn [bind].
  destruct (has_column "expenses" df) eqn:He.
  - destruct (get_column_coerced "expenses" df Hn) as [ex Ee];
      [coerced | exact He |].
    rewrite Ee. cbn [bind]. eauto.
  - cbn [bind]. eauto.
Qed.

Lemma compute_anomalies_returns sqrt df :
  normalized df = true -> returns (compute_anomalies sqrt df).
Proof.
  intros Hn. unfold returns, compute_anomalies.
  destruct (has_column "date" df) eqn:Hd; cbn [negb orb]; [|eauto].
  destruct (has_column "revenue" df) eqn:Hr; cbn [negb orb]; [|eauto].
  destruct (get_column_coerced "date" df Hn) as [date Ed];
    [coerced | exact Hd |].
  destruct (get_column_coerced "revenue" df Hn) as [rev Er];
    [coerced | exact Hr |].
  rewrite Ed, Er. cbn [bind].
  destruct (length (daily_revenue date rev) <? 7)%nat; eauto.
Qed.

(** Daily Financials and Anomalies never raise on a normalized frame:
    every column they read is checked for first. *)
Theorem guarded_windows_return (sqrt : Q -> Q) (df : DataFrame) :
  normalized df = true ->
  returns (compute_daily_financials df)
  /\ returns (compute_anomalies sqrt df).
Proof.
  intros Hn. split.
  - now apply compute_daily_financials_returns.
  - now apply compute_anomalies_returns.
Qed.

Lemma guarded_windows_return_witness :
  normalized Sample.dates_only = true
  /\ returns (compute_daily_financials Sample.dates_only)
  /\ returns (compute_anomalies Sample.sqrt Sample.dates_only).
Proof.
  split; [reflexivity|].
  exact (guarded_windows_return Sample.sqrt Sample.dates_only eq_refl).
Defined.

(** ** Anomalies need seven days *)

Lemma dropna_date_fst {A : Type} (date : Series) (other : list A) :
  length date = length other ->
  map fst (dropna_date (combine date other)) = valid_dates date.
Proof.
  unfold valid_dates. revert other.
  induction date as [|c date IH]; intros [|a other] Hlen;
    try discriminate; simpl; [reflexivity|].
  injection Hlen as Hlen.
  destruct (as_date c); simpl; now rewrite IH.
Qed.

Lemma groupby_agg_length {K V R : Type} (keqb kleb : K -> K -> bool)
    (agg : list V -> R) rows :
  length (groupby_agg keqb kleb agg rows)
  = length (unique keqb (map fst rows)).
Proof.
  unfold groupby_agg. now rewrite length_map, sort_length.
Qed.

(** The daily series has one row per distinct date that is present. *)
Lemma daily_revenue_length date revenue :
  length date = length revenue ->
  length (daily_revenue date revenue)
  = length (unique Z.eqb (valid_dates date)).
Proof.
  intros Hlen. unfold daily_revenue, sort_values.
  rewrite sort_length, groupby_agg_length, map_map.
  rewrite (map_ext _ fst) by reflexivity.
  now rewrite (dropna_date_fst date revenue Hlen).
Qed.

(** With fewer than seven distinct dates present, Anomalies is empty,
    whatever the revenue. *)
Theorem compute_anomalies_needs_seven_days (sqrt : Q -> Q) (df : DataFrame)
    (date : Series) :
  normalized df = true ->
  get_column "date" df = Ok date ->
  (length (unique Z.eqb (valid_dates date)) < 7)%nat ->
  compute_anomalies sqrt df = Ok [].
Proof.
  intros Hn Hd Hlt. unfold compute_anomalies.
  rewrite (get_column_has_column _ _ _ Hd). cbn [negb orb].
  destruct (has_column "revenue" df) eqn:Hr; cbn [negb]; [|reflexivity].
  destruct (get_column_coerced "revenue" df Hn) as [rev Er];
    [coerced | exact Hr |].
  rewrite Hd, Er. cbn [bind].
  pose proof (normalized_rectangular df Hn) as Hrect.
  rewrite (daily_revenue_length date rev)
    by (rewrite (get_column_length _ _ _ Hrect Hd),
          (get_column_length _ _ _ Hrect Er); reflexivity).
  apply Nat.ltb_lt in Hlt. now rewrite Hlt.
Qed.

Lemma compute_anomalies_needs_seven_days_witness :
  normalized Sample.halved_revenue = true
  /\ compute_anomalies Sample.sqrt Sample.halved_revenue = Ok [].
Proof.
  split; [reflexivity|].
  apply (compute_anomalies_needs_seven_days Sample.sqrt Sample.halved_revenue
           [Sample.jan 1; Sample.jan 8]).
  - reflexivity.
  - reflexivity.
  - simpl. lia.
Defined.

(** ** Group keys *)

Section GroupKeys.

Context {K : Type} (keqb : K -> K -> bool).

Hypothesis keqb_eq : forall a b, keqb a b = true <-> a = b.

Lemma unique_In x l : In x l -> In x (unique keqb l).
Proof.
  induction l as [|k l IH]; simpl; [tauto|].
  intros [->|Hx]; [now left|].
  destruct (keqb k x) eqn:E.
  - left. now apply keqb_eq.
  - right. apply filter_In. split; [now apply IH | now rewrite E].
Qed.

Lemma unique_NoDup l : NoDup (unique keqb l).
Proof.
  induction l as [|k l IH]; simpl; constructor.
  - intros H. apply filter_In in H as [_ H].
    rewrite (proj2 (keqb_eq k k) eq_refl) in H. discriminate.
  - now apply NoDup_filter.
Qed.

End GroupKeys.

Lemma Zeqb_eq a b : (a =? b)%Z = true <-> a = b.
Proof. apply Z.eqb_eq. Qed.

Lemma tail_all {A : Type} n (l : list A) :
  (length (tail n l) < n)%nat -> tail n l = l.
Proof.
  unfold tail. rewrite length_skipn. intros H.
  replace (length l - n)%nat with 0%nat by lia. reflexivity.
Qed.

Lemma In_groupby_agg {K V R : Type} (keqb kleb : K -> K -> bool)
    (agg : list V -> R) k v rows :
  In (k, v) (groupby_agg keqb kleb agg rows) ->
  v = agg (group_values keqb k rows).
Proof.
  unfold groupby_agg. intros H.
  apply in_map_iff in H as (k' & E & _). now injection E as <- <-.
Qed.

Lemma NoDup_tail {A : Type} n (l : list A) : NoDup l -> NoDup (tail n l).
Proof.
  unfold tail. intros H.
  rewrite <- (firstn_skipn (length l - n) l) in H.
  now apply NoDup_app_remove_l in H.
Qed.

Lemma tail_map {A B : Type} (f : A -> B) n l :
  tail n (map f l) = map f (tail n l).
Proof. unfold tail. now rewrite length_map, skipn_map. Qed.

Lemma groupby_agg_keys {V R : Type} (agg : list V -> R)
    (rows : list (Z * V)) :
  map fst (groupby_agg Z.eqb Z.leb agg rows)
  = sort Z.leb (unique Z.eqb (map fst rows)).
Proof.
  unfold groupby_agg. rewrite map_map. cbn [fst]. apply map_id.
Qed.

(** The last [n] groups of a table grouped by date and sorted: no key
    twice, every key that of a row, every value the sum over the rows of
    its key, and no key missing when fewer than [n] come out. *)
Lemma group_table_keys n (rows : list (Z * option Q)) l :
  l = tail n (sort_values Z.leb fst (groupby_agg Z.eqb Z.leb nansum rows)) ->
  NoDup (map fst l)
  /\ (forall k q, In (k, q) l ->
        In k (map fst rows) /\ q = nansum (group_values Z.eqb k rows))
  /\ ((length l < n)%nat ->
      forall k, In k (map fst rows) -> In k (map fst l)).
Proof.
  intros El.
  assert (P : Permutation
                (map fst (sort_values Z.leb fst
                            (groupby_agg Z.eqb Z.leb nansum rows)))
                (unique Z.eqb (map fst rows))).
  { unfold sort_values.
    etransitivity; [apply Permutation_map, sort_perm|].
    rewrite groupby_agg_keys. apply sort_perm. }
  split; [|split].
  - rewrite El, <- tail_map. apply NoDup_tail.
    eapply Permutation_NoDup; [symmetry; exact P|].
    apply unique_NoDup, Zeqb_eq.
  - intros k q H. rewrite El in H. apply tail_incl in H.
    split.
    + apply (In_unique Z.eqb Z.leb).
      apply (Permutation_in _ P).
      change k with (fst (k, q)). now apply in_map.
    + unfold sort_values in H.
      apply (Permutation_in _ (sort_perm _ _)) in H.
      now apply In_groupby_agg in H.
  - intros Hlen k Hk. rewrite El in Hlen |- *.
    rewrite (tail_all _ _ Hlen).
    apply (Permutation_in _ (Permutation_sym P)).
    apply unique_In; [apply Zeqb_eq | exact Hk].
Qed.

(** Weekly Revenue buckets every dated row into exactly one week.  No week
    is listed twice; a listed week is the week of at least one row that has
    a date, and its revenue is the sum over the rows of that week and of no
    other; and as long as fewer than six weeks come out, the week of every
    row that has a date is listed. *)
Theorem weekly_revenue_weeks (df : DataFrame) (date revenue : Series)
    (w : list (Z * Q)) :
  get_column "date" df = Ok date ->
  get_column "revenue" df = Ok revenue ->
  compute_weekly_revenue df = Ok w ->
  NoDup (map fst w)
  /\ (forall k q, In (k, q) w ->
        In k (map fst (week_rows date revenue))
        /\ q = nansum (group_values Z.eqb k (week_rows date revenue)))
  /\ ((length w < 6)%nat ->
      forall k, In k (map fst (week_rows date revenue)) -> In k (map fst w)).
Proof.
  intros Hd Hr H. unfold compute_weekly_revenue in H.
  rewrite (get_column_has_column _ _ _ Hd), Hd in H. cbn [negb bind] in H.
  destruct (negb (at_most_once "week" df)); [discriminate|].
  rewrite Hr in H. cbn [bind] in H. inv_Ok H.
  now apply group_table_keys.
Qed.

Lemma weekly_revenue_weeks_witness :
  exists date revenue w,
    get_column "date" Sample.sales = Ok date
    /\ get_column "revenue" Sample.sales = Ok revenue
    /\ compute_weekly_revenue Sample.sales = Ok w
    /\ length w = 3%nat
    /\ NoDup (map fst w)
    /\ (forall k q, In (k, q) w ->
          In k (map fst (week_rows date revenue))
          /\ q = nansum (group_values Z.eqb k (week_rows date revenue)))
    /\ ((length w < 6)%nat ->
        forall k, In k (map fst (week_rows date revenue)) ->
                  In k (map fst w)).
Proof.
  do 3 eexists.
  split; [reflexivity|]. split; [reflexivity|].
  split; [vm_compute; reflexivity|]. split; [reflexivity|].
  apply (weekly_revenue_weeks Sample.sales); reflexivity.
Defined.

(** The same for Daily Financials and its days: no date is listed twice, a
    listed date is that of at least one row, its revenue is the sum over
    the rows of that date, and with fewer than fourteen days out every
    date of the frame is listed. *)
Theorem daily_revenue_days (df : DataFrame) (date revenue : Series)
    (d : list daily_row) :
  get_column "date" df = Ok date ->
  get_column "revenue" df = Ok revenue ->
  compute_daily_financials df = Ok d ->
  NoDup (map d_date d)
  /\ (forall row, In row d ->
        In (d_date row) (map fst (day_rows date revenue))
        /\ d_revenue row
           = nansum (group_values Z.eqb (d_date row) (day_rows date revenue)))
  /\ ((length d < 14)%nat ->
      forall k, In k (map fst (day_rows date revenue)) ->
                In k (map d_date d)).
Proof.
  intros Hd Hr H. unfold compute_daily_financials in H.
  rewrite (get_column_has_column _ _ _ Hd),
    (get_column_has_column _ _ _ Hr), Hd, Hr in H.
  cbn [negb orb bind] in H.
  inv_bind H. inv_Ok H.
  set (mk := fun re : Z * Q * option Q =>
               let '(d0, rev, e) := re in
               mk_daily d0 rev e (option_map (fun x0 => (rev - x0)%Q) e)).
  assert (Hx : map (fun re => (d_date (mk re), d_revenue (mk re))) x
               = daily_revenue date revenue).
  { destruct (has_column "expenses" df).
    - inv_bind E. inv_Ok E. rewrite map_map. rewrite <- (map_id (daily_revenue _ _)) at 2.
      apply map_ext. now intros [d0 rev].
    - inv_Ok E. rewrite map_map. rewrite <- (map_id (daily_revenue _ _)) at 2.
      apply map_ext. now intros [d0 rev]. }
  assert (El : map (fun row => (d_date row, d_revenue row)) (tail 14 (map mk x))
               = tail 14 (sort_values Z.leb fst
                            (groupby_agg Z.eqb Z.leb nansum
                               (day_rows date revenue)))).
  { rewrite <- tail_map, map_map. now rewrite Hx. }
  destruct (group_table_keys 14 (day_rows date revenue) _ El)
    as (Hnd & Hin & Hall).
  rewrite map_map in Hnd, Hall. cbn [fst] in Hnd, Hall.
  rewrite length_map in Hall.
  split; [exact Hnd|]. split; [|exact Hall].
  intros row Hrow. apply Hin.
  apply in_map_iff. now exists row.
Qed.

Lemma daily_revenue_days_witness :
  exists date revenue d,
    get_column "date" Sample.sales = Ok date
    /\ get_column "revenue" Sample.sales = Ok revenue
    /\ compute_daily_financials Sample.sales = Ok d
    /\ length d = 9%nat
    /\ NoDup (map d_date d)
    /\ (forall row, In row d ->
          In (d_date row) (map fst (day_rows date revenue))
          /\ d_revenue row
             = nansum (group_values Z.eqb (d_date row)
                         (day_rows date revenue)))
    /\ ((length d < 14)%nat ->
        forall k, In k (map fst (day_rows date revenue)) ->
                  In k (map d_date d)).
Proof.
  do 3 eexists.
  split; [reflexivity|]. split; [reflexivity|].
  split; [vm_compute; reflexivity|]. split; [reflexivity|].
  apply (daily_revenue_days Sample.sales); reflexivity.
Defined.


(** ** The top item *)

Lemma In_combine_left {A B : Type} (a : A) (l : list A) (l' : list B) :
  length l = length l' -> In a l -> exists b, In (a, b) (combine l l').
Proof.
  revert l'. induction l as [|x l IH]; intros [|y l'] Hlen Hin;
    try discriminate; simpl in *; [tauto|].
  destruct Hin as [->|Hin].
  - exists y. now left.
  - destruct (IH l' (eq_add_S _ _ Hlen) Hin) as [b Hb].
    exists b. now right.
Qed.

(** The rows a group of [groupby("item")] collects. *)
Lemma item_group_values k item revenue :
  nansum (group_values cell_eqb k
            (map (fun r => (fst r, as_num (snd r)))
                 (dropna_key (combine item revenue))))
  = item_revenue k item revenue.
Proof.
  unfold item_revenue, group_values, dropna_key. f_equal.
  induction (combine item revenue) as [|[it r] rows IH]; simpl;
    [reflexivity|].
  destruct (cell_eqb k it) eqn:Ek.
  - rewrite (cell_eqb_present k it Ek). simpl. rewrite Ek. simpl.
    now rewrite IH.
  - destruct (isna it); simpl; [exact IH|]. rewrite Ek. exact IH.
Qed.

Lemma build_metrics_top_entry df item revenue ms v :
  get_column "item" df = Ok item ->
  get_column "revenue" df = Ok revenue ->
  build_metrics df = Ok ms ->
  In (mk_metric "Top item" v) ms ->
  exists name x rest,
    v = NameAndDollars name x
    /\ sort_values_desc Qle_bool snd
         (groupby_agg cell_eqb cell_leb nansum
            (map (fun r => (fst r, as_num (snd r)))
                 (dropna_key (combine item revenue))))
       = (name, x) :: rest.
Proof.
  intros Hi Hr H Hin. unfold build_metrics in H.
  rewrite (get_column_has_column _ _ _ Hi),
    (get_column_has_column _ _ _ Hr), Hi, Hr in H.
  cbn [bind] in H.
  inv_bind H. inv_bind H. inv_bind H. inv_Ok H.
  cbn [app] in Hin.
  destruct Hin as [Hin|[Hin|[Hin|Hin]]]; try discriminate.
  apply in_app_or in Hin as [Hin|Hin].
  - destruct (has_column "units_sold" df); [inv_bind E0|]; inv_Ok E0;
      simpl in Hin; [destruct Hin as [Hin|[]]; discriminate | tauto].
  - destruct (sort_values_desc _ _ _) as [|[name x2] rest]; inv_Ok E1.
    + contradiction.
    + destruct Hin as [Hin|[]]. injection Hin as <-.
      now exists name, x2, rest.
Qed.

(** The top-item metric names an item of maximal summed revenue, and shows
    that sum. *)
Theorem build_metrics_top_item_max (df : DataFrame) (item revenue : Series)
    (ms : list metric) (name : cell) (x : Q) :
  normalized df = true ->
  get_column "item" df = Ok item ->
  get_column "revenue" df = Ok revenue ->
  build_metrics df = Ok ms ->
  In (mk_metric "Top item" (NameAndDollars name x)) ms ->
  x = item_revenue name item revenue
  /\ forall k, In k item -> isna k = false ->
       (item_revenue k item revenue <= x)%Q.
Proof.
  intros Hn Hi Hr H Hin.
  destruct (build_metrics_top_entry _ _ _ _ _ Hi Hr H Hin)
    as (name' & x' & rest & Hv & Htop).
  injection Hv as <- <-.
  set (rows := map (fun r => (fst r, as_num (snd r)))
                   (dropna_key (combine item revenue))) in *.
  set (G := groupby_agg cell_eqb cell_leb nansum rows) in *.
  pose proof (sort_values_desc_sorted Qle_bool snd G
                Qle_bool_total Qle_bool_trans) as Hs.
  rewrite Htop in Hs. inversion Hs as [|? ? _ Hall]; subst.
  assert (Hperm : forall e, In e G -> In e ((name, x) :: rest)).
  { intros e He. rewrite <- Htop. unfold sort_values_desc.
    eapply Permutation_in; [symmetry; apply sort_perm | exact He]. }
  assert (Hhead : In (name, x) G).
  { unfold sort_values_desc in Htop.
    eapply Permutation_in; [apply sort_perm|].
    rewrite Htop. now left. }
  split.
  - apply In_groupby_agg in Hhead. rewrite Hhead.
    apply item_group_values.
  - intros k Hk Hna.
    pose proof (normalized_rectangular df Hn) as Hrect.
    destruct (In_combine_left k item revenue) as [r Hkr];
      [now rewrite (get_column_length _ _ _ Hrect Hi),
         (get_column_length _ _ _ Hrect Hr) | exact Hk |].
    assert (Hrow : In k (map fst rows)).
    { unfold rows. rewrite map_map. cbn [fst].
      apply in_map_iff. exists (k, r). split; [reflexivity|].
      apply filter_In. split; [exact Hkr|]. cbn [fst]. now rewrite Hna. }
    destruct (unique_represents cell_eqb cell_leb cell_eqb_trans k _ Hrow)
      as (y & Hy & Hyk).
    assert (HyG : In (y, nansum (group_values cell_eqb y rows)) G).
    { unfold G, groupby_agg. apply in_map_iff. exists y. split; [reflexivity|].
      eapply Permutation_in; [symmetry; apply sort_perm | exact Hy]. }
    assert (Hsame : nansum (group_values cell_eqb y rows)
                    = item_revenue k item revenue).
    { rewrite <- item_group_values. fold rows.
      destruct Hyk as [->|Hyk]; [reflexivity|].
      f_equal. unfold group_values. f_equal. apply filter_ext.
      intros e. symmetry.
      apply (keqb_congr cell_eqb cell_eqb_sym cell_eqb_trans _ _ _ Hyk). }
    rewrite <- Hsame.
    destruct (Hperm _ HyG) as [E|E].
    + injection E as _ <-. apply Qle_refl.
    + rewrite Forall_forall in Hall. apply Hall in E.
      now apply Qle_bool_iff in E.
Qed.

Lemma build_metrics_top_item_max_witness :
  normalized Sample.sales = true
  /\ forall k, In k [CStr "Widget"; CStr "Gadget"; CStr "Doohickey";
                     CStr "Gizmo"] ->
       (item_revenue k
          [CStr "Widget"; CStr "Gadget"; CStr "Widget"; CStr "Gadget";
           CStr "Widget"; CStr "Widget"; CStr "Gadget"; CStr "Doohickey";
           CStr "Widget"; CStr "Gadget"; CStr "Gizmo"]
          [Sample.num 100; Sample.num 100; Sample.num 100; Sample.num 100;
           Sample.num 100; Sample.num 100; Sample.num 100; Sample.num 100;
           Sample.num 10000; Sample.num 100; Sample.num 999]
        <= inject_Z 10400)%Q.
Proof.
  split; [reflexivity|].
  intros k Hk.
  eapply (build_metrics_top_item_max Sample.sales _ _ _ (CStr "Widget"));
    try reflexivity.
  - vm_compute. repeat (try (left; reflexivity); right).
  - simpl in Hk. simpl. tauto.
  - simpl in Hk. decompose [or] Hk; subst; try reflexivity. contradiction.
Defined.

(** ** When the metrics and the actions are built *)

Lemma build_metrics_cases (df : DataFrame) :
  normalized df = true ->
  at_most_once "item" df = true ->
  if has_column "item" df && negb (has_column "revenue" df)
  then build_metrics df = Raise (KeyError "revenue")
  else exists ms, build_metrics df = Ok ms
                  /\ In "Total expenses" (map label ms).
Proof.
  intros Hn Hu. unfold build_metrics.
  assert (Hexp : exists x, (if has_column "expenses" df
                            then expenses <- get_column "expenses" df ;;
                                 Ok (series_sum expenses)
                            else Ok 0%Q) = Ok x).
  { destruct (has_column "expenses" df) eqn:He; [|eauto].
    destruct (get_column_coerced "expenses" df Hn) as [ex Ee];
      [coerced | exact He |].
    rewrite Ee. cbn [bind]. eauto. }
  destruct Hexp as [total ->].
  assert (Hunits : exists x, (if has_column "units_sold" df
                              then units <- get_column "units_sold" df ;;
                                   Ok [mk_metric "Units sold"
                                         (Plain (series_sum units))]
                              else Ok []) = Ok x).
  { destruct (has_column "units_sold" df) eqn:He; [|eauto].
    destruct (get_column_coerced "units_sold" df Hn) as [ex Ee];
      [coerced | exact He |].
    rewrite Ee. cbn [bind]. eauto. }
  destruct Hunits as [m_units ->].
  assert (Hitem : has_column "item" df = true ->
                  exists item, get_column "item" df = Ok item).
  { intros Hc. pose proof (has_column_true_select "item" df Hc) as Hne.
    unfold at_most_once in Hu. unfold get_column.
    destruct (select "item" df) as [|s [|s' l]]; simpl in *;
      [now contradiction Hne | eauto | discriminate]. }
  destruct (has_column "revenue" df) eqn:Hr.
  - rewrite andb_false_r.
    destruct (get_column_coerced "revenue" df Hn) as [rev Er];
      [coerced | exact Hr |].
    rewrite Er. cbn [bind].
    destruct (has_column "item" df) eqn:Hi.
    + destruct (Hitem eq_refl) as [item Ei]. rewrite Ei. cbn [bind].
      destruct (sort_values_desc _ _ _) as [|[name x] rest]; cbn [bind];
        eexists; (split; [reflexivity|]);
        rewrite !map_app; apply in_or_app; right; now left.
    + cbn [bind]. eexists. split; [reflexivity|].
      rewrite !map_app. apply in_or_app. right. now left.
  - cbn [bind]. destruct (has_column "item" df) eqn:Hi; cbn [negb andb].
    + destruct (Hitem eq_refl) as [item Ei]. rewrite Ei. cbn [bind].
      now rewrite (get_column_absent "revenue" df Hr).
    + cbn [bind]. eexists. split; [reflexivity|]. now left.
Qed.

(** On a normalized frame with at most one [item] column, [build_metrics]
    raises exactly when [item] is present and [revenue] is not, with
    [KeyError('revenue')]; otherwise it returns, and the total of the
    expenses is always among the metrics. *)
Theorem build_metrics_raises_iff (df : DataFrame) :
  normalized df = true ->
  at_most_once "item" df = true ->
  if has_column "item" df && negb (has_column "revenue" df)
  then build_metrics df = Raise (KeyError "revenue")
  else exists ms, build_metrics df = Ok ms
                  /\ In "Total expenses" (map label ms).
Proof.
  exact (build_metrics_cases df).
Qed.

Lemma build_metrics_raises_iff_witness :
  normalized Sample.items_only = true
  /\ build_metrics Sample.items_only = Raise (KeyError "revenue")
  /\ normalized Sample.sales = true
  /\ exists ms, build_metrics Sample.sales = Ok ms
                /\ In "Total expenses" (map label ms).
Proof.
  split; [reflexivity|]. split.
  - exact (build_metrics_raises_iff Sample.items_only eq_refl eq_refl).
  - split; [reflexivity|].
    exact (build_metrics_raises_iff Sample.sales eq_refl eq_refl).
Defined.

Lemma Qlt_bool_lt a b : Qlt_bool a b = true -> (a < b)%Q.
Proof.
  unfold Qlt_bool. intros H. apply negb_true_iff in H.
  apply Qnot_le_lt. intros Hle.
  apply Qle_bool_iff in Hle. congruence.
Qed.

(** The second half of [build_actions]: the revenue-drop action.  Weekly
    Revenue is read when [revenue] and [date] are both there, and then only
    a label [week] that occurs twice makes it raise. *)
Lemma revenue_drop_action_cases df :
  normalized df = true ->
  let more :=
    (if has_column "revenue" df && has_column "date" df then
       weekly <- compute_weekly_revenue df ;;
       if (2 <=? length weekly)%nat then
         match iloc_neg 1 weekly, iloc_neg 2 weekly with
         | Some last, Some prev =>
             if Qlt_bool 0%Q (snd prev) && Qlt_bool (snd last) (snd prev)
             then Ok [RevenueDropped (drop_percent (snd last) (snd prev))]
             else Ok []
         | _, _ => Ok []
         end
       else Ok []
     else Ok []) in
  if has_column "revenue" df && has_column "date" df
     && negb (at_most_once "week" df)
  then more = Raise (not_1_dimensional "week")
  else returns more.
Proof.
  intros Hn. cbv zeta. unfold returns.
  pose proof (compute_weekly_revenue_cases df Hn) as Hw.
  destruct (has_column "revenue" df) eqn:Hr; cbn [andb negb] in *; [|eauto].
  destruct (has_column "date" df); cbn [andb negb] in *; [|eauto].
  destruct (at_most_once "week" df); cbn [negb] in *.
  - destruct Hw as [w ->]. cbn [bind].
    destruct (2 <=? length w)%nat; [|eauto].
    destruct (iloc_neg 1 w) as [last|]; [|eauto].
    destruct (iloc_neg 2 w) as [prev|]; [|eauto].
    destruct (Qlt_bool 0 (snd prev) && Qlt_bool (snd last) (snd prev)); eauto.
  - now rewrite Hw.
Qed.

(** On a normalized frame [build_actions] returns exactly when
    [compute_reorder_list] returns and Weekly Revenue, which is read only
    when [revenue] and [date] are both there, does not find two columns
    labelled [week]. *)
Theorem build_actions_returns_iff (df : DataFrame) :
  normalized df = true ->
  returns (build_actions df)
  <-> returns (compute_reorder_list df)
      /\ has_column "revenue" df && has_column "date" df
         && negb (at_most_once "week" df) = false.
Proof.
  intros Hn. pose proof (revenue_drop_action_cases df Hn) as Hm.
  cbv zeta in Hm. unfold returns in *. unfold build_actions. split.
  - intros [actions H]. inv_bind H. split; [eauto|].
    destruct (has_column "revenue" df && has_column "date" df
              && negb (at_most_once "week" df)); [|reflexivity].
    rewrite Hm in H. discriminate.
  - intros [[reorder ->] Hw]. cbn [bind].
    rewrite Hw in Hm. destruct Hm as [more ->].
    cbn [bind].
    destruct (map _ (head 3 reorder) ++ more); eauto.
Qed.

Lemma build_actions_returns_iff_witness :
  normalized Sample.sales = true
  /\ returns (build_actions Sample.sales).
Proof.
  split; [reflexivity|].
  apply (build_actions_returns_iff Sample.sales eq_refl).
  split; [|reflexivity].
  eexists. vm_compute. reflexivity.
Defined.

(** With two columns labelled [week] the Reorder List returns and
    [build_actions] raises all the same. *)
Lemma build_actions_raises_on_week_twice :
  normalized Sample.week_twice = true
  /\ compute_reorder_list Sample.week_twice = Ok []
  /\ build_actions Sample.week_twice = Raise (not_1_dimensional "week").
Proof. repeat split. Qed.

(** What [build_actions] returns: between one and four actions, which are
    either the fallback alone, or the first three rows of the Reorder List
    as reorder actions, followed by at most one revenue-drop action; and a
    revenue drop is only reported when Weekly Revenue has two weeks, the
    earlier of the last two positive and the last one below it. *)
Theorem build_actions_shape (df : DataFrame) (actions : list action) :
  build_actions df = Ok actions ->
  (1 <= length actions <= 4)%nat
  /\ (exists reorder more,
        compute_reorder_list df = Ok reorder
        /\ (more = [] \/ exists d, more = [RevenueDropped d])
        /\ let acts :=
             map (fun row => Reorder (item_name row) (inventory_on_hand row)
                               (avg_daily_units row)) (head 3 reorder)
             ++ more in
           actions = match acts with [] => [WeekendPromo] | _ => acts end)
  /\ (forall d, In (RevenueDropped d) actions ->
        exists weekly last prev,
          compute_weekly_revenue df = Ok weekly
          /\ iloc_neg 1 weekly = Some last
          /\ iloc_neg 2 weekly = Some prev
          /\ (0 < snd prev)%Q /\ (snd last < snd prev)%Q
          /\ d = drop_percent (snd last) (snd prev))
  /\ (In WeekendPromo actions -> actions = [WeekendPromo]).
Proof.
  unfold build_actions. intros H.
  inv_bind H. inv_bind H. rename x into reorder, x0 into more.
  set (ra := map (fun row => Reorder (item_name row) (inventory_on_hand row)
                               (avg_daily_units row)) (head 3 reorder)) in *.
  assert (Hra : (length ra <= 3)%nat).
  { unfold ra. rewrite length_map. apply head_length. }
  assert (Hra' : forall a, In a ra -> exists n i u, a = Reorder n i u).
  { unfold ra. intros a Ha. apply in_map_iff in Ha as (row & <- & _).
    eauto. }
  assert (Hmore : more = []
                  \/ exists weekly last prev,
                       compute_weekly_revenue df = Ok weekly
                       /\ iloc_neg 1 weekly = Some last
                       /\ iloc_neg 2 weekly = Some prev
                       /\ (0 < snd prev)%Q /\ (snd last < snd prev)%Q
                       /\ more
                          = [RevenueDropped
                               (drop_percent (snd last) (snd prev))]).
  { destruct (has_column "revenue" df && has_column "date" df);
      [|inv_Ok E0; now left].
    inv_bind E0. rename x into weekly.
    destruct (2 <=? length weekly)%nat; [|inv_Ok E0; now left].
    destruct (iloc_neg 1 weekly) as [last|] eqn:Hlast; [|inv_Ok E0; now left].
    destruct (iloc_neg 2 weekly) as [prev|] eqn:Hprev; [|inv_Ok E0; now left].
    destruct (Qlt_bool 0 (snd prev)) eqn:Hp; cbn [andb] in E0;
      [|inv_Ok E0; now left].
    destruct (Qlt_bool (snd last) (snd prev)) eqn:Hl;
      [|inv_Ok E0; now left].
    inv_Ok E0. right. exists weekly, last, prev.
    apply Qlt_bool_lt in Hp, Hl. auto 10. }
  assert (Hlen : (length (ra ++ more) <= 4)%nat).
  { rewrite length_app.
    destruct Hmore as [->|(w & l & p & _ & _ & _ & _ & _ & ->)]; simpl; lia. }
  assert (Hshape : more = [] \/ exists d, more = [RevenueDropped d]).
  { destruct Hmore as [->|(w & l & p & _ & _ & _ & _ & _ & ->)];
      [now left | right; eauto]. }
  assert (Hall : forall a, In a (ra ++ more) -> a <> WeekendPromo).
  { intros a Ha. apply in_app_or in Ha as [Ha|Ha].
    - destruct (Hra' a Ha) as (n & i & u & ->). discriminate.
    - destruct Hshape as [->|(d & ->)]; [contradiction|].
      destruct Ha as [<-|[]]. discriminate. }
  assert (Hdrop : forall d, In (RevenueDropped d) (ra ++ more) ->
            exists weekly last prev,
              compute_weekly_revenue df = Ok weekly
              /\ iloc_neg 1 weekly = Some last
              /\ iloc_neg 2 weekly = Some prev
              /\ (0 < snd prev)%Q /\ (snd last < snd prev)%Q
              /\ d = drop_percent (snd last) (snd prev)).
  { intros d Hd. apply in_app_or in Hd as [Hd|Hd].
    - destruct (Hra' _ Hd) as (n & i & u & Ea). discriminate.
    - destruct Hmore as [->|(w & l & p & H1 & H2 & H3 & H4 & H5 & ->)];
        [contradiction|].
      destruct Hd as [[= <-]|[]]. exists w, l, p. auto 10. }
  split; [|split; [|split]].
  - destruct (ra ++ more) as [|a l]; inv_Ok H; simpl in *; lia.
  - exists reorder, more. split; [exact E|]. split; [exact Hshape|].
    cbv zeta. fold ra. destruct (ra ++ more); now inv_Ok H.
  - destruct (ra ++ more) as [|a l] eqn:El; inv_Ok H; [|exact Hdrop].
    intros d [Hd|[]]. discriminate.
  - destruct (ra ++ more) as [|a l] eqn:El; inv_Ok H; [reflexivity|].
    intros Hw. now destruct (Hall _ Hw).
Qed.

Lemma build_actions_shape_witness :
  exists actions,
    build_actions Sample.halved_revenue = Ok actions
    /\ actions = [RevenueDropped (drop_percent 500 1000)]
    /\ (1 <= length actions <= 4)%nat.
Proof.
  eexists. split; [vm_compute; reflexivity|]. split; [reflexivity|].
  now destruct (build_actions_shape Sample.halved_revenue _ eq_refl)
    as (H & _).
Defined.

(** ** Evidence and charts *)

(** On a normalized frame [build_charts] never raises; it returns at most
    one panel, none exactly when Daily Financials is empty, and the panel
    has between 1 and 14 rows. *)
Theorem build_charts_spec (df : DataFrame) :
  normalized df = true ->
  exists charts,
    build_charts df = Ok charts
    /\ (length charts <= 1)%nat
    /\ (charts = [] <-> compute_daily_financials df = Ok [])
    /\ Forall (fun p => title p = "Daily financials"
                        /\ (1 <= count_rows p <= 14)%nat) charts.
Proof.
  intros Hn. unfold build_charts.
  destruct (compute_daily_financials_returns df Hn) as [daily Hd].
  rewrite Hd. cbn [bind].
  pose proof (compute_daily_financials_sorted df daily Hd) as [Hlen _].
  destruct daily as [|d daily].
  - exists []. repeat split; auto.
  - eexists. split; [reflexivity|].
    split; [simpl; lia|].
    split; [split; discriminate|].
    constructor; [|constructor].
    split; [reflexivity|].
    unfold count_rows. cbn [rows_of]. rewrite length_map.
    simpl in *. lia.
Qed.

Lemma build_charts_spec_witness :
  normalized Sample.sales = true
  /\ exists charts,
      build_charts Sample.sales = Ok charts
      /\ (length charts <= 1)%nat
      /\ (charts = [] <-> compute_daily_financials Sample.sales = Ok [])
      /\ Forall (fun p => title p = "Daily financials"
                          /\ (1 <= count_rows p <= 14)%nat) charts.
Proof.
  split; [reflexivity|].
  exact (build_charts_spec Sample.sales eq_refl).
Defined.

(** What [build_evidence] returns: the panels of the windows that have
    rows, in the order weekly revenue, trending items, anomalies; a window
    without rows leaves no panel, and every panel has between 1 and 8
    rows. *)
Theorem build_evidence_shape (sqrt : Q -> Q) (df : DataFrame)
    (evidence : list panel) :
  build_evidence sqrt df = Ok evidence ->
  exists w t a : bool,
    map title evidence
    = (if w then ["Weekly revenue trend"] else [])
      ++ (if t then ["Trending items (last 7 days)"] else [])
      ++ (if a then ["Revenue anomalies"] else [])
    /\ (w = false <-> compute_weekly_revenue df = Ok [])
    /\ (t = false <-> compute_trending_items df = Ok [])
    /\ (a = false <-> compute_anomalies sqrt df = Ok [])
    /\ Forall (fun p => (1 <= count_rows p <= 8)%nat) evidence.
Proof.
  unfold build_evidence. intros H.
  inv_bind H. inv_bind H. inv_bind H. inv_Ok H.
  rename x into weekly, x0 into trending, x1 into anomalies.
  pose proof (compute_weekly_revenue_sorted _ _ E) as [Lw _].
  pose proof (compute_trending_items_sorted _ _ E0) as [Lt _].
  pose proof (compute_anomalies_flagged _ _ _ E1) as [La _].
  exists (match weekly with [] => false | _ => true end),
    (match trending with [] => false | _ => true end),
    (match anomalies with [] => false | _ => true end).
  rewrite E, E0, E1.
  destruct weekly as [|w0 weekly], trending as [|t0 trending],
    anomalies as [|a0 anomalies];
    (split; [reflexivity|]);
    (split; [split; try reflexivity; discriminate|]);
    (split; [split; try reflexivity; discriminate|]);
    (split; [split; try reflexivity; discriminate|]);
    cbn [app];
    repeat (apply Forall_cons;
            [unfold count_rows; cbn [rows_of]; rewrite ?length_map;
             simpl in *; lia|]);
    apply Forall_nil.
Qed.

Lemma build_evidence_shape_witness :
  exists evidence,
    build_evidence Sample.sqrt Sample.sales = Ok evidence
    /\ map title evidence
       = ["Weekly revenue trend"; "Trending items (last 7 days)";
          "Revenue anomalies"].
Proof.
  eexists. split; [vm_compute; reflexivity|].
  destruct (build_evidence_shape Sample.sqrt Sample.sales _ eq_refl)
    as (w & t & a & Ht & _).
  reflexivity.
Defined.

(** On a normalized frame [build_evidence] raises exactly when Weekly
    Revenue or Trending Items does; Anomalies never does. *)
Theorem build_evidence_returns_iff (sqrt : Q -> Q) (df : DataFrame) :
  normalized df = true ->
  returns (build_evidence sqrt df)
  <-> returns (compute_weekly_revenue df)
      /\ returns (compute_trending_items df).
Proof.
  intros Hn. unfold returns, build_evidence. split.
  - intros [ev H]. inv_bind H. inv_bind H. eauto.
  - intros [[w ->] [t ->]]. cbn [bind].
    destruct (compute_anomalies_returns sqrt df Hn) as [a ->].
    cbn [bind]. eauto.
Qed.

Lemma build_evidence_returns_iff_witness :
  normalized Sample.sales = true
  /\ returns (build_evidence Sample.sqrt Sample.sales).
Proof.
  split; [reflexivity|].
  apply (build_evidence_returns_iff Sample.sqrt Sample.sales eq_refl).
  split; eexists; vm_compute; reflexivity.
Defined.

(** ** The answer engine reads the weekly revenue first *)



(** ** Trending items and the reorder list without [units_sold] *)

Lemma get_column_at_most_once col df :
  at_most_once col df = true -> has_column col df = true ->
  exists s, get_column col df = Ok s.
Proof.
  intros Hu Hc. pose proof (has_column_true_select col df Hc) as Hne.
  unfold at_most_once in Hu. unfold get_column.
  destruct (select col df) as [|s [|s' l]]; simpl in *;
    [now contradiction Hne | eauto | discriminate].
Qed.

(** Without a [units_sold] column, Trending Items returns (the empty
    table) only when no row has a date; as soon as one has, it raises
    [KeyError('units_sold')]. *)
Theorem compute_trending_items_without_units (df : DataFrame)
    (date : Series) :
  normalized df = true ->
  at_most_once "item" df = true ->
  get_column "date" df = Ok date ->
  has_column "item" df = true ->
  has_column "units_sold" df = false ->
  compute_trending_items df
  = match valid_dates date with
    | [] => Ok []
    | _ :: _ => Raise (KeyError "units_sold")
    end.
Proof.
  intros _ Hu Hd Hi Hunits. unfold compute_trending_items.
  rewrite (get_column_has_column _ _ _ Hd), Hi, Hd.
  cbn [negb orb bind]. fold (valid_dates date).
  destruct (valid_dates date) as [|t l]; [reflexivity|].
  cbn [max_date].
  destruct (get_column_at_most_once "item" df Hu Hi) as [item Ei].
  assert (Hm : exists m, match max_date l with
                         | Some m => Some (Z.max t m)
                         | None => Some t
                         end = Some m)
    by (destruct (max_date l); eauto).
  destruct Hm as [m ->].
  rewrite Ei. cbn [bind].
  now rewrite (get_column_absent "units_sold" df Hunits).
Qed.

Lemma compute_trending_items_without_units_witness :
  normalized Sample.dates_and_items = true
  /\ compute_trending_items Sample.dates_and_items
     = Raise (KeyError "units_sold").
Proof.
  split; [reflexivity|].
  exact (compute_trending_items_without_units Sample.dates_and_items
           [Sample.jan 1; Sample.jan 2] eq_refl eq_refl eq_refl eq_refl
           eq_refl).
Defined.

Lemma reorder_item_cols_present df c :
  In c (reorder_item_cols df) ->
  has_column c df = true /\ In c ["item"; "sku"; "category"].
Proof.
  unfold reorder_item_cols.
  destruct (filter (fun col => has_column col df) ["item"; "sku"; "category"])
    as [|c0 l] eqn:F.
  - destruct (has_column "item" df) eqn:Hi; [|contradiction].
    intros [<-|[]]. split; [exact Hi | now left].
  - rewrite <- F. intros H. apply filter_In in H. tauto.
Qed.

Lemma get_columns_returns cols df :
  (forall c, In c cols ->
             has_column c df = true /\ at_most_once c df = true) ->
  exists ss, get_columns cols df = Ok ss.
Proof.
  induction cols as [|c cols IH]; intros H; simpl; [eauto|].
  destruct (H c (or_introl eq_refl)) as [Hc Hu].
  destruct (get_column_at_most_once c df Hu Hc) as [s ->]. cbn [bind].
  destruct IH as [ss ->]; [intros c' Hc'; apply H; now right|].
  cbn [bind]. eauto.
Qed.

(** With [units_sold] and at least one of [item], [sku], [category], each
    under a single label, the Reorder List returns on a normalized
    frame. *)
Theorem compute_reorder_list_returns (df : DataFrame) :
  normalized df = true ->
  has_column "units_sold" df = true ->
  reorder_item_cols df <> [] ->
  forallb (fun c => at_most_once c df) ["item"; "sku"; "category"] = true ->
  returns (compute_reorder_list df).
Proof.
  intros Hn Hunits Hcols Huniq.
  unfold returns, compute_reorder_list.
  destruct (has_column "inventory_on_hand" df) eqn:Hinv; cbn [negb];
    [|eauto].
  destruct (get_column_coerced "units_sold" df Hn) as [units ->];
    [coerced | exact Hunits |].
  cbn [bind].
  destruct (get_columns_returns (reorder_item_cols df) df) as [keys ->].
  { intros c Hc. apply reorder_item_cols_present in Hc as [Hp Hin].
    split; [exact Hp|].
    rewrite forallb_forall in Huniq. now apply Huniq. }
  cbn [bind].
  destruct (get_column_coerced "inventory_on_hand" df Hn) as [inv Ei];
    [coerced | exact Hinv |].
  destruct (reorder_item_cols df) as [|c cols]; [contradiction|].
  cbn [groupby_rows bind]. rewrite Ei. cbn [bind]. eauto.
Qed.

Lemma compute_reorder_list_returns_witness :
  normalized Sample.sales = true
  /\ returns (compute_reorder_list Sample.sales).
Proof.
  split; [reflexivity|].
  apply (compute_reorder_list_returns Sample.sales); try reflexivity.
  discriminate.
Defined.

(** ** The request handlers *)

Section HandlerFacts.

Variable sqrt : Q -> Q.
Variable parse_datetime : Series -> cell -> result (option Z).
Variable parse_number : cell -> option Q.
Variable read_csv : string -> result DataFrame.
Variable api_key : option string.
Variable openai_imported : bool.
Variable responses_create : string -> prompt -> result string.

Local Abbreviation upload := (upload_csv parse_datetime parse_number read_csv).
Local Abbreviation reprocess :=
  (reprocess_upload parse_datetime parse_number read_csv).
Local Abbreviation load := (load_dataset parse_datetime parse_number read_csv).
Local Abbreviation ask :=
  (ask_copilot sqrt api_key openai_imported responses_create).
Local Abbreviation handle' := (handle parse_datetime parse_number read_csv).
Local Abbreviation run' := (run parse_datetime parse_number read_csv).

Lemma dict_get_set_same {V : Type} k (v : V) d :
  dict_get k (dict_set k v d) = Some v.
Proof. unfold dict_get, dict_set. simpl. now rewrite String.eqb_refl. Qed.

Lemma dict_get_set_other {V : Type} k k' (v : V) d :
  k <> k' -> dict_get k (dict_set k' v d) = dict_get k d.
Proof.
  intros H. unfold dict_get, dict_set. simpl.
  destruct (String.eqb_spec k k'); [contradiction | reflexivity].
Qed.

Lemma dict_get_set_present {V : Type} k k' (v : V) d :
  dict_get k d <> None -> dict_get k (dict_set k' v d) <> None.
Proof.
  intros H. unfold dict_get, dict_set in *. simpl.
  destruct (String.eqb k k'); [discriminate | exact H].
Qed.

(** What an accepted upload has done. *)
Lemma upload_csv_sent name contents now fid did s r s' :
  upload name contents now fid did s = (Sent r, s') ->
  exists df,
    load contents = Ok df
    /\ existsb (fun col => has_column col df) EXPECTED_COLUMNS = true
    /\ endswith ".csv" name = true
    /\ r = mk_upload_reply did (nrows df) fid name now
    /\ s' = mk_server (dict_set did df (DATASETS s))
              (mk_record fid name (fid ++ ".csv") now :: UPLOAD_INDEX s)
              (dict_set (fid ++ ".csv") contents (UPLOAD_DIR s))
              (save_upload_index
                 (firstn 50 (mk_record fid name (fid ++ ".csv") now
                             :: UPLOAD_INDEX s))).
Proof.
  unfold upload_csv.
  destruct (endswith ".csv" name) eqn:Hn; cbn [negb]; [|discriminate].
  destruct (load_dataset _ _ _ contents) as [df|e] eqn:Hl; [|discriminate].
  destruct (existsb _ EXPECTED_COLUMNS) eqn:He; cbn [negb]; [|discriminate].
  intros [= <- <-]. exists df.
  split; [reflexivity|]. split; [exact He|].
  split; [reflexivity|]. split; reflexivity.
Qed.

(** After an accepted upload the table is stored under the handle that
    was returned, with the row count that was reported; the upload heads
    the list of uploads; and reprocessing the returned file id stores the
    same table again under the new handle. *)
Theorem upload_then_reprocess name contents now fid did did' s r s' :
  upload name contents now fid did s = (Sent r, s') ->
  exists df,
    dict_get (u_dataset_id r) (DATASETS s') = Some df
    /\ u_rows r = nrows df
    /\ hd_error (list_uploads s')
       = Some (mk_record (u_file_id r) name (u_file_id r ++ ".csv") now)
    /\ exists s'',
        reprocess (u_file_id r) did' s'
        = (Sent (mk_upload_reply did' (nrows df) (u_file_id r) name now), s'')
        /\ dict_get did' (DATASETS s'') = Some df.
Proof.
  intros H.
  apply upload_csv_sent in H as (df & Hload & _ & _ & -> & ->).
  exists df. cbn [u_dataset_id u_rows u_file_id DATASETS].
  split; [apply dict_get_set_same|].
  split; [reflexivity|].
  split; [reflexivity|].
  unfold reprocess_upload.
  cbn [UPLOAD_INDEX UPLOAD_DIR find file_id stored_name].
  rewrite String.eqb_refl, dict_get_set_same, Hload.
  eexists. split; [reflexivity|].
  cbn [DATASETS]. apply dict_get_set_same.
Qed.

(** An upload that is not accepted leaves the datasets, the index and
    [index.json] as they were.  Refused for its name, it leaves no trace at
    all; refused later (unreadable, or without any expected column), its
    bytes stay in the upload directory under the new file id. *)
Theorem upload_csv_refused name contents now fid did s :
  (forall r, fst (upload name contents now fid did s) <> Sent r) ->
  let s' := snd (upload name contents now fid did s) in
  DATASETS s' = DATASETS s
  /\ UPLOAD_INDEX s' = UPLOAD_INDEX s
  /\ INDEX_FILE s' = INDEX_FILE s
  /\ (if endswith ".csv" name
      then UPLOAD_DIR s' = (fid ++ ".csv", contents)%string :: UPLOAD_DIR s
      else UPLOAD_DIR s' = UPLOAD_DIR s).
Proof.
  unfold upload_csv.
  destruct (endswith ".csv" name); cbn [negb].
  - destruct (load_dataset _ _ _ contents) as [df|e].
    + destruct (existsb _ EXPECTED_COLUMNS); cbn [negb fst snd].
      * intros H. now contradiction (H _ eq_refl).
      * intros _. repeat split.
    + intros _. repeat split.
  - intros _. repeat split.
Qed.

(** The files of the upload directory are never removed, and a stored
    table keeps its handle: a request changes what a handle gives only
    when it stores a table under that very handle. *)
Lemma handle_keeps_files r s k :
  dict_get k (UPLOAD_DIR s) <> None ->
  dict_get k (UPLOAD_DIR (handle' r s)) <> None.
Proof.
  intros H. destruct r as [name contents now fid did| | |wanted did];
    cbn [handle]; try exact H.
  - unfold upload_csv.
    destruct (endswith ".csv" name); cbn [negb snd]; [|exact H].
    destruct (load_dataset _ _ _ contents) as [df|e]; cbn [snd UPLOAD_DIR];
      [|now apply dict_get_set_present].
    destruct (existsb _ EXPECTED_COLUMNS); cbn [negb snd UPLOAD_DIR];
      now apply dict_get_set_present.
  - unfold reprocess_upload.
    destruct (find _ (UPLOAD_INDEX s)) as [record|]; [|exact H].
    destruct (dict_get (stored_name record) (UPLOAD_DIR s)); [|exact H].
    destruct (load_dataset _ _ _ _); exact H.
Qed.

Lemma handle_keeps_dataset r s k :
  ~ stores_under k r ->
  dict_get k (DATASETS (handle' r s)) = dict_get k (DATASETS s).
Proof.
  intros H. destruct r as [name contents now fid did| | |wanted did];
    cbn [handle stores_under] in *; try reflexivity.
  - unfold upload_csv.
    destruct (endswith ".csv" name); cbn [negb snd]; [|reflexivity].
    destruct (load_dataset _ _ _ contents) as [df|e]; cbn [snd DATASETS];
      [|reflexivity].
    destruct (existsb _ EXPECTED_COLUMNS); cbn [negb snd DATASETS];
      [|reflexivity].
    apply dict_get_set_other. congruence.
  - unfold reprocess_upload.
    destruct (find _ (UPLOAD_INDEX s)) as [record|]; [|reflexivity].
    destruct (dict_get (stored_name record) (UPLOAD_DIR s)); [|reflexivity].
    destruct (load_dataset _ _ _ _); cbn [snd DATASETS]; [|reflexivity].
    apply dict_get_set_other. congruence.
Qed.

(** Whatever requests follow, a handle keeps giving the same table as long
    as no later request stores a table under that handle. *)
Theorem datasets_persist requests s k :
  Forall (fun r => ~ stores_under k r) requests ->
  dict_get k (DATASETS (run' requests s)) = dict_get k (DATASETS s).
Proof.
  unfold run. revert s.
  induction requests as [|r requests IH]; intros s H; [reflexivity|].
  inversion H as [|? ? Hr Hrest]; subst. cbn [fold_left].
  rewrite (IH _ Hrest). now apply handle_keeps_dataset.
Qed.

Lemma handle_index_saved r s : index_saved s -> index_saved (handle' r s).
Proof.
  unfold index_saved. intros Hindex.
  destruct r as [name contents now fid did| | |wanted did];
    cbn [handle]; try assumption.
  - unfold upload_csv.
    destruct (endswith ".csv" name); cbn [negb snd]; [|assumption].
    destruct (load_dataset _ _ _ contents) as [df|e]; cbn [snd];
      [|exact Hindex].
    destruct (existsb _ EXPECTED_COLUMNS); cbn [negb snd];
      [reflexivity | exact Hindex].
  - unfold reprocess_upload.
    destruct (find _ (UPLOAD_INDEX s)) as [record|]; [|assumption].
    destruct (dict_get (stored_name record) (UPLOAD_DIR s)); [|assumption].
    destruct (load_dataset _ _ _ _); cbn [snd]; assumption.
Qed.

Lemma run_index_saved requests s :
  index_saved s -> index_saved (run' requests s).
Proof.
  unfold run. revert s.
  induction requests as [|r requests IH]; intros s H; [exact H|].
  cbn [fold_left]. apply IH. now apply handle_index_saved.
Qed.

Lemma handle_files_present r s :
  files_present s -> files_present (handle' r s).
Proof.
  unfold files_present. intros Hfiles.
  destruct r as [name contents now fid did| | |wanted did];
    cbn [handle]; try assumption.
  - unfold upload_csv.
    destruct (endswith ".csv" name); cbn [negb snd]; [|assumption].
    destruct (load_dataset _ _ _ contents) as [df|e];
      cbn [snd UPLOAD_INDEX UPLOAD_DIR].
    + destruct (existsb _ EXPECTED_COLUMNS);
        cbn [negb snd UPLOAD_INDEX UPLOAD_DIR].
      * intros r [<-|Hr]; cbn [stored_name].
        -- rewrite dict_get_set_same. discriminate.
        -- apply dict_get_set_present. now apply Hfiles.
      * intros r Hr. apply dict_get_set_present. now apply Hfiles.
    + intros r Hr. apply dict_get_set_present. now apply Hfiles.
  - unfold reprocess_upload.
    destruct (find _ (UPLOAD_INDEX s)) as [record|]; [|assumption].
    destruct (dict_get (stored_name record) (UPLOAD_DIR s)); [|assumption].
    destruct (load_dataset _ _ _ _); cbn [snd]; assumption.
Qed.

Lemma run_files_present requests s :
  files_present s -> files_present (run' requests s).
Proof.
  unfold run. revert s.
  induction requests as [|r requests IH]; intros s H; [exact H|].
  cbn [fold_left]. apply IH. now apply handle_files_present.
Qed.

Lemma firstn_firstn_same {A : Type} n (l : list A) :
  firstn n (firstn n l) = firstn n l.
Proof.
  revert l. induction n as [|n IH]; intros [|x l]; simpl; try reflexivity.
  now rewrite IH.
Qed.

(** Starting from a state in which [index.json] holds the first 50
    records of the index, after any requests the list that [/uploads]
    shows is the list saved in [index.json]: a restart of the module on
    the same disk shows the same uploads. *)
Theorem list_uploads_survives_restart requests s :
  index_saved s ->
  let s' := run' requests s in
  list_uploads s' = load_upload_index (INDEX_FILE s')
  /\ list_uploads (startup (UPLOAD_DIR s') (INDEX_FILE s')) = list_uploads s'
  /\ (length (list_uploads s') <= 50)%nat.
Proof.
  intros H. pose proof (run_index_saved requests s H) as Hindex.
  unfold index_saved in Hindex.
  cbn zeta. unfold list_uploads, startup. cbn [UPLOAD_INDEX].
  rewrite Hindex, firstn_firstn_same.
  repeat split. apply firstn_le_length.
Qed.

(** Starting from a state in which every indexed upload has its file in
    the upload directory, [/reprocess] never finds the stored file of an
    indexed upload missing: its answer is never the 404
    "Stored file missing.". *)
Theorem reprocess_finds_stored_file requests s wanted did :
  files_present s ->
  fst (reprocess wanted did (run' requests s))
  <> HTTPException 404 "Stored file missing.".
Proof.
  intros H. pose proof (run_files_present requests s H) as Hfiles.
  unfold reprocess_upload.
  destruct (find _ (UPLOAD_INDEX _)) as [record|] eqn:F; [|discriminate].
  apply find_some in F as [Hin _]. apply Hfiles in Hin.
  destruct (dict_get (stored_name record) _); [|contradiction].
  destruct (load_dataset _ _ _ _); discriminate.
Qed.

Lemma get_column_repeated col df :
  at_most_once col df = false ->
  get_column col df = Raise (not_1_dimensional col).
Proof.
  unfold at_most_once, get_column.
  destruct (select col df) as [|c [|c' l]]; simpl;
    try discriminate; reflexivity.
Qed.

(** [build_metrics] without a [revenue] column: only the top item reads
    [revenue] unguarded. *)
Lemma build_metrics_without_revenue df :
  normalized df = true ->
  has_column "revenue" df = false ->
  if has_column "item" df
  then build_metrics df
       = Raise (if at_most_once "item" df then KeyError "revenue"
                else not_1_dimensional "item")
  else returns (build_metrics df).
Proof.
  intros Hn Hr. unfold build_metrics, returns. rewrite Hr. cbn [bind].
  assert (Hexp : exists x, (if has_column "expenses" df
                            then expenses <- get_column "expenses" df ;;
                                 Ok (series_sum expenses)
                            else Ok 0%Q) = Ok x).
  { destruct (has_column "expenses" df) eqn:He; [|eauto].
    destruct (get_column_coerced "expenses" df Hn) as [ex Ee];
      [coerced | exact He |].
    rewrite Ee. cbn [bind]. eauto. }
  destruct Hexp as [total ->]. cbn [bind].
  assert (Hunits : exists x, (if has_column "units_sold" df
                              then units <- get_column "units_sold" df ;;
                                   Ok [mk_metric "Units sold"
                                         (Plain (series_sum units))]
                              else Ok []) = Ok x).
  { destruct (has_column "units_sold" df) eqn:He; [|eauto].
    destruct (get_column_coerced "units_sold" df Hn) as [ex Ee];
      [coerced | exact He |].
    rewrite Ee. cbn [bind]. eauto. }
  destruct Hunits as [m_units ->]. cbn [bind].
  destruct (has_column "item" df) eqn:Hi; [|cbn [bind]; eauto].
  destruct (at_most_once "item" df) eqn:Hu.
  - destruct (get_column_at_most_once "item" df Hu Hi) as [item ->].
    cbn [bind]. now rewrite (get_column_absent "revenue" df Hr).
  - now rewrite (get_column_repeated "item" df Hu).
Qed.


End HandlerFacts.
Lemma upload_then_reprocess_witness :
  exists s' df s'',
    SampleServer.upload "sales.csv" "sales" "2024-02-01T10:00:00" "f1" "d1"
      SampleServer.fresh
    = (Sent (mk_upload_reply "d1" 11 "f1" "sales.csv" "2024-02-01T10:00:00"),
       s')
    /\ dict_get "d1" (DATASETS s') = Some df
    /\ nrows df = 11%nat
    /\ SampleServer.reprocess "f1" "d2" s'
       = (Sent (mk_upload_reply "d2" (nrows df) "f1" "sales.csv"
                  "2024-02-01T10:00:00"), s'')
    /\ dict_get "d2" (DATASETS s'') = Some df.
Proof.
  eexists.
  assert (H : SampleServer.upload "sales.csv" "sales" "2024-02-01T10:00:00"
                "f1" "d1" SampleServer.fresh
              = (Sent (mk_upload_reply "d1" 11 "f1" "sales.csv"
                         "2024-02-01T10:00:00"),
                 snd (SampleServer.upload "sales.csv" "sales"
                        "2024-02-01T10:00:00" "f1" "d1" SampleServer.fresh)))
    by reflexivity.
  destruct (upload_then_reprocess Sample.parse_datetime Sample.parse_number
              SampleServer.read_csv _ _ _ _ _ "d2" _ _ _ H)
    as (df & Hd & Hrows & _ & s'' & Hr & Hd').
  cbn [u_dataset_id u_rows u_file_id] in *.
  exists df, s''.
  split; [exact H|]. split; [exact Hd|]. split; [now symmetry|].
  split; [exact Hr | exact Hd'].
Defined.

(** The state in which the module starts when [index.json] holds at most
    50 records and their files are in the upload directory. *)
Lemma startup_index_saved upload_dir index_file :
  (length (load_upload_index index_file) <= 50)%nat ->
  index_saved (startup upload_dir index_file).
Proof.
  intros Hlen. unfold index_saved. cbn [startup UPLOAD_INDEX INDEX_FILE].
  symmetry. now apply firstn_all2.
Qed.

Lemma startup_files_present upload_dir index_file :
  (forall r, In r (load_upload_index index_file) ->
             dict_get (stored_name r) upload_dir <> None) ->
  files_present (startup upload_dir index_file).
Proof. intros Hfiles. exact Hfiles. Qed.

Lemma fresh_index_saved : index_saved SampleServer.fresh.
Proof. apply startup_index_saved. simpl. lia. Qed.

Lemma fresh_files_present : files_present SampleServer.fresh.
Proof. apply startup_files_present. simpl. tauto. Qed.

Lemma upload_csv_refused_witness :
  let s' := snd (SampleServer.upload "notes.csv" "notes" "2024-02-01T10:02:00"
                   "f3" "d3" SampleServer.fresh) in
  DATASETS s' = [] /\ UPLOAD_INDEX s' = [] /\ INDEX_FILE s' = None
  /\ UPLOAD_DIR s' = [("f3.csv", "notes")].
Proof.
  cbn zeta.
  destruct (upload_csv_refused Sample.parse_datetime Sample.parse_number
              SampleServer.read_csv "notes.csv" "notes" "2024-02-01T10:02:00"
              "f3" "d3" SampleServer.fresh) as (Hd & Hi & Hf & Hdir).
  - intros r. discriminate.
  - repeat split; assumption.
Defined.

Lemma datasets_persist_witness :
  dict_get "d1"
    (DATASETS (run Sample.parse_datetime Sample.parse_number
                 SampleServer.read_csv
                 [ Upload "dates.csv" "dates" "2024-02-01T10:03:00" "f5" "d5";
                   Reprocess "f1" "d4"; Ask "d1" "stock?"; ListUploads ]
                 (snd (SampleServer.upload "sales.csv" "sales"
                         "2024-02-01T10:00:00" "f1" "d1" SampleServer.fresh))))
  = Some Sample.sales.
Proof.
  rewrite (datasets_persist Sample.parse_datetime Sample.parse_number
             SampleServer.read_csv).
  - reflexivity.
  - repeat constructor; simpl; try tauto; discriminate.
Defined.

Lemma list_uploads_survives_restart_witness :
  let s' := run Sample.parse_datetime Sample.parse_number
              SampleServer.read_csv SampleServer.session SampleServer.fresh in
  list_uploads s' = load_upload_index (INDEX_FILE s')
  /\ list_uploads (startup (UPLOAD_DIR s') (INDEX_FILE s')) = list_uploads s'
  /\ (length (list_uploads s') <= 50)%nat.
Proof.
  exact (list_uploads_survives_restart Sample.parse_datetime
           Sample.parse_number SampleServer.read_csv SampleServer.session
           SampleServer.fresh fresh_index_saved).
Defined.

Lemma reprocess_finds_stored_file_witness :
  fst (SampleServer.reprocess "f1" "d9"
         (run Sample.parse_datetime Sample.parse_number SampleServer.read_csv
            SampleServer.session SampleServer.fresh))
  <> HTTPException 404 "Stored file missing.".
Proof.
  exact (reprocess_finds_stored_file Sample.parse_datetime
           Sample.parse_number SampleServer.read_csv SampleServer.session
           SampleServer.fresh "f1" "d9" fresh_files_present).
Defined.


(** ** When the Normalizer returns *)

(** The Normalizer returns exactly when no two columns of the raw frame
    clean to the same coerced label and [pd.to_datetime] returns on the
    column labelled [date], if there is one.  The cells of the numeric
    columns play no part in it: [pd.to_numeric] coerces what it cannot
    parse. *)
Theorem normalize_dataframe_returns_iff
    (parse_datetime : Series -> cell -> result (option Z))
    (parse_number : cell -> option Q) (raw : DataFrame) :
  returns (normalize_dataframe parse_datetime parse_number raw)
  <-> coerced_labels_unique raw = true
      /\ forallb (fun s => is_ok (to_datetime parse_datetime s))
                 (select "date" (rename_columns raw)) = true.
Proof.
  unfold returns. split.
  - intros [df H]. apply normalize_dataframe_spec in H as (U & A & _).
    now split.
  - intros [U A].
    exists (normalize_columns parse_datetime parse_number raw).
    now apply normalize_dataframe_spec.
Qed.

Lemma normalize_dataframe_normalized_witness :
  rectangular Sample.raw_export = true
  /\ exists df, Sample.normalize Sample.raw_export = Ok df
                /\ normalized df = true.
Proof.
  split; [reflexivity|].
  eexists. split; [vm_compute; reflexivity|].
  apply (normalize_dataframe_normalized Sample.parse_datetime
           Sample.parse_number Sample.raw_export);
    reflexivity.
Defined.
